(** * Synthetic seismic catalogue: generation strategies and assembly

    A shallow embedding of the scripts under [scripts/]:
    [analyze_earthquake_data.py] (the b-value estimator),
    [generate_bootstrap_synthetics.py], [generate_physics_snapshots.py],
    [generate_simple_synthetics.py], [assemble_dataset.py] and
    [finalize_dataset.py].

    Conventions of the embedding.
    - Python floats are read as real numbers ([R]); [10 ** x] is
      [Rpower 10 x], [np.log10] is [ln x / ln 10], [math.sqrt] and
      [np.sqrt] are [sqrt].
    - A script is a computation over a [World]: the CSV and text files of
      [data/], the hidden state of Python's [random] module, the hidden
      state of NumPy's global generator, and what was printed.  An
      uncaught exception ends the computation with [Raised].
    - A [DataFrame] is a list of labelled rows; the label is the pandas
      index.  Columns every table must have are plain fields of [Event],
      columns only some tables have are optional fields ([None] is the
      empty cell that [pd.concat] and [read_csv] produce).
    - The two random generators the scripts draw from are hidden,
      process-wide states.  Each is a [Generator]: the sequence of raw
      words it is going to deliver and a cursor.  [random.random()]
      scales 53 bits of a word into [0, 1); integer draws reduce a word
      modulo the range.
    - [pd.to_datetime] is a parameter of the scripts that call it.
    - Plotting and progress messages carry no data and are left out;
      warnings and the messages of the empty-result branches are kept. *)

From Stdlib Require Import Reals Lra Lia List Ascii String ZArith Bool Arith.
From Stdlib Require Import DecimalString Permutation Sorted.
Import ListNotations.
Open Scope R_scope.

(* ================================================================= *)
(** ** Numbers *)

Definition pow10 (x : R) : R := Rpower 10 x.
Definition log10 (x : R) : R := ln x / ln 10.
Definition radians (deg : R) : R := deg * PI / 180.

Definition Rltb (x y : R) : bool := if Rlt_dec x y then true else false.
Definition Rleb (x y : R) : bool := if Rle_dec x y then true else false.

(* ================================================================= *)
(** ** Data model *)

(** The [time] column.  A catalogue cell is text; the physics strategy
    formats [datetime(2003,1,1) + timedelta(days)]; the simple strategy
    formats six drawn integers. *)
Inductive Timestamp : Type :=
| Stamp (text : string)
| FromStart (days : R)
| Clock (year month day hour minute second : Z).

(** The [mag_range] column: the interval [(lo, hi]] chosen by [pd.cut]. *)
Definition MagRange : Type := (R * R)%type.

Record Event : Type := mkEvent {
  id : string;
  time : Timestamp;
  magnitude : R;
  longitude : R;
  latitude : R;
  depth_km : R;
  is_synthetic : Z;
  sample_weight : R;
  method : string;
  log_energy : option R;
  rupture_length_km : option R;
  rupture_width_km : option R;
  rupture_area_km2 : option R;
  avg_slip_m : option R;
  segment_id : option string;
  strike : option R;
  dip : option R;
  rake : option R;
  year : option Z;
  cv_fold : option Z;
  mag_range : option MagRange
}.

(** A row of [marmara_faults.csv].  [coordinates] is the parsed form of
    the cell ["lon,lat;lon,lat;..."]; the empty list stands for a cell
    that does not parse. *)
Record FaultSegment : Type := mkFaultSegment {
  fs_segment_id : string;
  fs_name : string;
  coordinates : list (R * R);
  fs_strike : R;
  fs_dip : R;
  fs_rake : R;
  length_km : R;
  seismogenic_thickness_km : R
}.

(** A DataFrame: rows with their index labels. *)
Definition Frame : Type := list (nat * Event).

Definition rows (df : Frame) : list Event := map snd df.

Fixpoint range_index_from (k : nat) (l : list Event) : Frame :=
  match l with
  | [] => []
  | e :: l' => (k, e) :: range_index_from (S k) l'
  end.

(** [pd.read_csv] and [pd.DataFrame(list of dicts)] label rows 0, 1, ... *)
Definition range_index (l : list Event) : Frame := range_index_from 0 l.

(* ================================================================= *)
(** ** The world a script runs in *)

Inductive FileContent : Type :=
| EventTable (table : list Event)
| FaultTable (table : list FaultSegment)
| BValueText (b : option R).

Inductive Message : Type :=
| WarnNoSegment (magnitude rupture_length : R)
| WarnUnphysical (count : nat)
| NoSyntheticEvents.

Inductive Exception : Type :=
| FileNotFoundError (path : string)
| KeyError (what : string)
| ValueError (what : string)
| IndexError (what : string).

(** A hidden generator: the sequence of raw words it will deliver and
    how many it has delivered. *)
Record Generator (A : Type) : Type := mkGenerator {
  tape : nat -> A;
  cursor : nat
}.
Arguments mkGenerator {A} _ _.
Arguments tape {A} _ _.
Arguments cursor {A} _.

(** One step of NumPy's global generator, as its two consumers read it:
    a standard normal variate, or an integer. *)
Record NpDraw : Type := mkNpDraw {
  gauss : R;
  word : Z
}.

Record World : Type := mkWorld {
  files : string -> option FileContent;
  py_random : Generator Z;
  np_random : Generator NpDraw;
  stdout : list Message
}.

Inductive Outcome (A : Type) : Type :=
| Returned (a : A) (w : World)
| Raised (e : Exception) (w : World).
Arguments Returned {A} _ _.
Arguments Raised {A} _ _.

Definition M (A : Type) : Type := World -> Outcome A.

Definition ret {A} (a : A) : M A := fun w => Returned a w.

Definition bind {A B} (m : M A) (k : A -> M B) : M B :=
  fun w => match m w with
           | Returned a w' => k a w'
           | Raised e w' => Raised e w'
           end.

Definition raise {A} (e : Exception) : M A := fun w => Raised e w.

Notation "x <- m ;; k" := (bind m (fun x => k))
  (at level 61, m at next level, right associativity).
Notation "m ;;; k" := (bind m (fun _ => k))
  (at level 61, right associativity).

Definition print (msg : Message) : M unit :=
  fun w => Returned tt
    (mkWorld (files w) (py_random w) (np_random w) (stdout w ++ [msg])).

(** *** Files *)

Definition read_file (path : string) : M FileContent :=
  fun w => match files w path with
           | Some c => Returned c w
           | None => Raised (FileNotFoundError path) w
           end.

Definition write_file (path : string) (c : FileContent) : M unit :=
  fun w => Returned tt
    (mkWorld (fun p => if String.eqb p path then Some c else files w p)
             (py_random w) (np_random w) (stdout w)).

Definition read_events (path : string) : M (list Event) :=
  c <- read_file path ;;
  match c with
  | EventTable t => ret t
  | _ => raise (KeyError path)
  end.

Definition read_faults (path : string) : M (list FaultSegment) :=
  c <- read_file path ;;
  match c with
  | FaultTable t => ret t
  | _ => raise (KeyError path)
  end.

Definition to_csv (path : string) (df : Frame) : M unit :=
  write_file path (EventTable (rows df)).

(** *** Python's [random] module *)

Definition next_word : M Z :=
  fun w => Returned (tape (py_random w) (cursor (py_random w)))
    (mkWorld (files w)
             (mkGenerator (tape (py_random w)) (S (cursor (py_random w))))
             (np_random w) (stdout w)).

(** [random.random()]: 53 random bits scaled into [0, 1). *)
Definition unit_float (bits : Z) : R :=
  IZR (bits mod 2 ^ 53) / IZR (2 ^ 53).

Definition random : M R :=
  bits <- next_word ;; ret (unit_float bits).

(** [random.uniform(a, b)] is [a + (b - a) * random()]. *)
Definition uniform (a b : R) : M R :=
  u <- random ;; ret (a + (b - a) * u).

Definition below (n : nat) (bits : Z) : nat :=
  Z.to_nat (bits mod Z.of_nat n).

(** [random.randrange(n)] *)
Definition randbelow (n : nat) : M nat :=
  match n with
  | O => raise (ValueError "empty range for randrange()")
  | S _ => bits <- next_word ;; ret (below n bits)
  end.

(** [random.randint(a, b)] *)
Definition randint (a b : Z) : M Z :=
  k <- randbelow (Z.to_nat (b - a + 1)) ;; ret (a + Z.of_nat k)%Z.

(** [random.choice(seq)] *)
Definition choice {A} (seq : list A) : M A :=
  match seq with
  | [] => raise (IndexError "Cannot choose from an empty sequence")
  | _ :: _ =>
      k <- randbelow (List.length seq) ;;
      match nth_error seq k with
      | Some x => ret x
      | None => raise (IndexError "list index out of range")
      end
  end.

(** *** NumPy's global generator *)

Definition np_next : M NpDraw :=
  fun w => Returned (tape (np_random w) (cursor (np_random w)))
    (mkWorld (files w) (py_random w)
             (mkGenerator (tape (np_random w)) (S (cursor (np_random w))))
             (stdout w)).

(** [np.random.lognormal(mean, sigma)] *)
Definition np_lognormal (mean sigma : R) : M R :=
  d <- np_next ;; ret (exp (mean + sigma * gauss d)).

(** [df.sample(1).iloc[0]] *)
Definition sample_one {A} (population : list A) : M A :=
  match population with
  | [] => raise (ValueError "a must be greater than 0")
  | _ :: _ =>
      d <- np_next ;;
      match nth_error population (below (List.length population) (word d)) with
      | Some x => ret x
      | None => raise (IndexError "positional indexers are out-of-bounds")
      end
  end.

(* ================================================================= *)
(** ** analyze_earthquake_data.py: the b-value estimator *)

Definition mean (xs : list R) : R :=
  fold_right Rplus 0 xs / INR (List.length xs).

(** [estimate_b_value(magnitudes, m_min)]; the pair [(None, None)] is
    [None] here. *)
Definition estimate_b_value (magnitudes : list R) (m_min : R)
  : option (R * R) :=
  let mags := filter (fun m => Rleb m_min m) magnitudes in
  if (List.length mags <? 2)%nat then None
  else
    let mean_mag := mean mags in
    let b_value := log10 (exp 1) / (mean_mag - m_min) in
    let uncertainty := 2.3 * b_value / sqrt (INR (List.length mags)) in
    Some (b_value, uncertainty).

(* ================================================================= *)
(** ** The sanity checks shared by the bootstrap and physics scripts *)

Definition unphysical (e : Event) : bool :=
  Rltb (depth_km e) 0
  || match rupture_length_km e with
     | Some l => Rltb 200 l
     | None => false
     end.

Definition isin (labels : list nat) (label : nat) : bool :=
  existsb (Nat.eqb label) labels.

(** [invalid_events = df[(depth_km < 0) | (rupture_length_km > 200)]],
    then [df[~df.index.isin(invalid_events.index)]] when it is not
    empty. *)
Definition sanity_checks (synthetics_df : Frame) : M Frame :=
  let invalid_events := filter (fun r => unphysical (snd r)) synthetics_df in
  match invalid_events with
  | [] => ret synthetics_df
  | _ :: _ =>
      print (WarnUnphysical (List.length invalid_events)) ;;;
      ret (filter (fun r => negb (isin (map fst invalid_events) (fst r)))
                  synthetics_df)
  end.

(* ================================================================= *)
(** ** generate_bootstrap_synthetics.py *)

Definition processed_earthquakes_csv : string := "processed_earthquakes.csv".
Definition synthetic_bootstrap_csv : string := "synthetic_bootstrap_v1.csv".
Definition synthetic_physics_csv : string :=
  "synthetic_physics_snapshots_v1.csv".
Definition synthetic_simple_csv : string := "synthetic_simple_v1.csv".
Definition combined_dataset_csv : string := "combined_dataset_v1.csv".
Definition final_dataset_csv : string := "final_dataset_v1.csv".
Definition marmara_faults_csv : string := "marmara_faults.csv".
Definition b_value_txt : string := "b_value.txt".

Definition is_template (e : Event) : bool :=
  Rleb 5.0 (magnitude e) && Rltb (magnitude e) 6.0.

(** The body of the loop: [event.copy()] with the reassigned cells. *)
Definition bootstrap_synthetic (event : Event) (magnitude_increase : R)
  : Event :=
  let original_mag := magnitude event in
  let new_mag := original_mag + magnitude_increase in
  let new_length := pow10 (-2.44 + 0.59 * new_mag) in
  let new_width := pow10 (-1.01 + 0.32 * new_mag) in
  {| id := "SYN_" ++ id event;
     time := time event;
     magnitude := new_mag;
     longitude := longitude event;
     latitude := latitude event;
     depth_km := depth_km event;
     is_synthetic := 1;
     sample_weight := 0.3;
     method := "bootstrap";
     log_energy :=
       option_map (fun le => le + 1.5 * magnitude_increase) (log_energy event);
     rupture_length_km := Some new_length;
     rupture_width_km := Some new_width;
     rupture_area_km2 := Some (new_length * new_width);
     avg_slip_m := avg_slip_m event;
     segment_id := segment_id event;
     strike := strike event;
     dip := dip event;
     rake := rake event;
     year := year event;
     cv_fold := cv_fold event;
     mag_range := mag_range event |}.

(** [for _, event in template_events.iterrows(): ...] *)
Fixpoint bootstrap_loop (template_events : Frame) : M Frame :=
  match template_events with
  | [] => ret []
  | (label, event) :: rest =>
      magnitude_increase <- uniform 1.5 2.3 ;;
      synthetic_events <- bootstrap_loop rest ;;
      ret ((label, bootstrap_synthetic event magnitude_increase)
             :: synthetic_events)
  end.

Section Calendar.

(** [pd.to_datetime(cell).year]; [None] when pandas cannot parse the
    cell. *)
Variable to_datetime_year : Timestamp -> option Z.

(** [df['datetime'] = pd.to_datetime(df['time'])] raises on the first
    cell it cannot parse. *)
Definition to_datetime (table : list Event) : M (list Z) :=
  fold_right
    (fun e acc =>
       match to_datetime_year (time e) with
       | Some y => ys <- acc ;; ret (y :: ys)
       | None => raise (ValueError "Unknown datetime string format")
       end)
    (ret []) table.

Definition generate_bootstrap_synthetics : M (option Frame) :=
  eq_data <- read_events processed_earthquakes_csv ;;
  to_datetime eq_data ;;;
  let template_events :=
    filter (fun r => is_template (snd r)) (range_index eq_data) in
  synthetic_events <- bootstrap_loop template_events ;;
  match synthetic_events with
  | [] => print NoSyntheticEvents ;;; ret None
  | _ :: _ =>
      synthetics_df <- sanity_checks synthetic_events ;;
      to_csv synthetic_bootstrap_csv synthetics_df ;;;
      ret (Some synthetics_df)
  end.

End Calendar.

(* ================================================================= *)
(** ** generate_physics_snapshots.py *)

Definition n_synthetics : nat := 20.

(** Step 1: one magnitude of the truncated Gutenberg-Richter law. *)
Definition sample_magnitude (b_value r : R) : R :=
  Rmin (6.5 - log10 (1 - r) / b_value) 7.3.

Fixpoint draw_magnitudes (n : nat) (b_value : R) : M (list R) :=
  match n with
  | O => ret []
  | S n' =>
      r <- random ;;
      magnitudes <- draw_magnitudes n' b_value ;;
      ret (sample_magnitude b_value r :: magnitudes)
  end.

Definition haversine_km (p q : R * R) : R :=
  let lat1 := radians (snd p) in
  let lon1 := radians (fst p) in
  let lat2 := radians (snd q) in
  let lon2 := radians (fst q) in
  let dlon := lon2 - lon1 in
  let dlat := lat2 - lat1 in
  let a := sin (dlat / 2) ^ 2 + cos lat1 * cos lat2 * sin (dlon / 2) ^ 2 in
  let c := 2 * asin (sqrt a) in
  c * 6371.

Fixpoint segment_length (coords : list (R * R)) : R :=
  match coords with
  | [] => 0
  | p :: rest =>
      match rest with
      | [] => 0
      | q :: _ => haversine_km p q + segment_length rest
      end
  end.

Definition segment_can_host_rupture (segment : FaultSegment)
  (rupture_length : R) : M bool :=
  match coordinates segment with
  | [] => raise (ValueError "could not convert string to float")
  | coords => ret (Rleb rupture_length (segment_length coords))
  end.

Fixpoint find_suitable_segments (fault_data : list FaultSegment)
  (rupture_length : R) : M (list FaultSegment) :=
  match fault_data with
  | [] => ret []
  | segment :: rest =>
      ok <- segment_can_host_rupture segment rupture_length ;;
      suitable_segments <- find_suitable_segments rest rupture_length ;;
      ret (if ok then segment :: suitable_segments else suitable_segments)
  end.

(** [f"{n:03d}"] *)
Definition format_03d (n : nat) : string :=
  let s := NilZero.string_of_uint (Nat.to_uint n) in
  match String.length s with
  | 1%nat => "00" ++ s
  | 2%nat => "0" ++ s
  | _ => s
  end.

Definition rupture_area_of (magnitude : R) : R := pow10 (magnitude - 4.0).
Definition rupture_length_of (magnitude : R) : R :=
  sqrt (rupture_area_of magnitude * 2).

Definition mu : R := 3.2e10.

(** The dict literal [synthetic], with the two location cells added. *)
Definition physics_synthetic (i : nat) (magnitude : R)
  (selected_segment : FaultSegment) (avg_slip months_offset depth : R)
  (lon lat : R) : Event :=
  let rupture_area := rupture_area_of magnitude in
  let rupture_length := rupture_length_of magnitude in
  let rupture_width := rupture_length / 2 in
  {| id := "SYN_PHYS_" ++ format_03d (i + 1);
     time := FromStart (months_offset * 30);
     magnitude := magnitude;
     longitude := lon;
     latitude := lat;
     depth_km := depth;
     is_synthetic := 1;
     sample_weight := 0.5;
     method := "physics";
     log_energy := None;
     rupture_length_km := Some rupture_length;
     rupture_width_km := Some rupture_width;
     rupture_area_km2 := Some rupture_area;
     avg_slip_m := Some avg_slip;
     segment_id := Some (fs_segment_id selected_segment);
     strike := Some (fs_strike selected_segment);
     dip := Some (fs_dip selected_segment);
     rake := Some (fs_rake selected_segment);
     year := None;
     cv_fold := None;
     mag_range := None |}.

(** One turn of [for i, magnitude in enumerate(magnitudes)]: [None] is
    the [continue] of the no-segment branch. *)
Definition physics_step (fault_data : list FaultSegment) (i : nat)
  (magnitude : R) : M (option Event) :=
  let rupture_area := rupture_area_of magnitude in
  let rupture_length := rupture_length_of magnitude in
  suitable_segments <- find_suitable_segments fault_data rupture_length ;;
  match suitable_segments with
  | [] => print (WarnNoSegment magnitude rupture_length) ;;; ret None
  | _ :: _ =>
      selected_segment <- choice suitable_segments ;;
      let moment := pow10 (1.5 * magnitude + 9.1) in
      let avg_slip := moment / (mu * rupture_area * 1e6) in
      slip_variation <- np_lognormal 0 0.3 ;;
      let slip := avg_slip * slip_variation in
      u <- uniform 6 12 ;;
      let months_offset := u * INR i in
      depth <- uniform 5 15 ;;
      let coord_pairs := coordinates selected_segment in
      rand_index <- randint 0 (Z.of_nat (List.length coord_pairs) - 1) ;;
      match nth_error coord_pairs (Z.to_nat rand_index) with
      | None => raise (IndexError "list index out of range")
      | Some (lon, lat) =>
          let degree_jitter := 0.045 in
          dlon <- uniform (- degree_jitter) degree_jitter ;;
          dlat <- uniform (- degree_jitter) degree_jitter ;;
          ret (Some (physics_synthetic i magnitude selected_segment avg_slip
                       months_offset depth (lon + dlon) (lat + dlat)))
      end
  end.

Fixpoint physics_loop (fault_data : list FaultSegment) (i : nat)
  (magnitudes : list R) : M (list Event) :=
  match magnitudes with
  | [] => ret []
  | magnitude :: rest =>
      made <- physics_step fault_data i magnitude ;;
      synthetic_events <- physics_loop fault_data (S i) rest ;;
      ret (match made with
           | Some synthetic => synthetic :: synthetic_events
           | None => synthetic_events
           end)
  end.

(** The b-value hand-off: the file's number, else 1.15. *)
Definition read_b_value : M R :=
  fun w => match files w b_value_txt with
           | Some (BValueText (Some b)) => Returned b w
           | Some (BValueText None) => Returned 1.15 w
           | Some _ => Returned 1.15 w
           | None => Returned 1.15 w
           end.

Definition generate_physics_snapshots : M (option Frame) :=
  fault_data <- read_faults marmara_faults_csv ;;
  eq_data <- read_events processed_earthquakes_csv ;;
  b_value <- read_b_value ;;
  magnitudes <- draw_magnitudes n_synthetics b_value ;;
  synthetic_events <- physics_loop fault_data 0 magnitudes ;;
  match synthetic_events with
  | [] => print NoSyntheticEvents ;;; ret None
  | _ :: _ =>
      synthetics_df <- sanity_checks (range_index synthetic_events) ;;
      to_csv synthetic_physics_csv synthetics_df ;;;
      ret (Some synthetics_df)
  end.

(* ================================================================= *)
(** ** generate_simple_synthetics.py *)

Definition n_synthetic : nat := 10.

Definition simple_synthetic (i : nat) (magnitude longitude latitude depth : R)
  (timestamp : Timestamp) : Event :=
  let area := pow10 (magnitude - 4.0) in
  let length := sqrt (area * 2) in
  let width := length / 2 in
  {| id := "SYN_SIMPLE_" ++ format_03d (i + 1);
     time := timestamp;
     magnitude := magnitude;
     longitude := longitude;
     latitude := latitude;
     depth_km := depth;
     is_synthetic := 1;
     sample_weight := 0.2;
     method := "simple";
     log_energy := None;
     rupture_length_km := Some length;
     rupture_width_km := Some width;
     rupture_area_km2 := Some area;
     avg_slip_m := None;
     segment_id := None;
     strike := None;
     dip := None;
     rake := None;
     year := None;
     cv_fold := None;
     mag_range := None |}.

Definition simple_step (templates : list Event) (i : nat) : M Event :=
  template <- sample_one templates ;;
  magnitude <- uniform 6.5 7.3 ;;
  dlon <- uniform (-0.3) 0.3 ;;
  let longitude := longitude template + dlon in
  dlat <- uniform (-0.2) 0.2 ;;
  let latitude := latitude template + dlat in
  let longitude := Rmax 26.0 (Rmin 30.5 longitude) in
  let latitude := Rmax 39.5 (Rmin 41.5 latitude) in
  depth <- uniform 5 20 ;;
  year <- randint 2003 2025 ;;
  month <- randint 1 12 ;;
  day <- randint 1 28 ;;
  hour <- randint 0 23 ;;
  minute <- randint 0 59 ;;
  second <- randint 0 59 ;;
  ret (simple_synthetic i magnitude longitude latitude depth
         (Clock year month day hour minute second)).

(** [for i in range(n_synthetic)], counted from [i]. *)
Fixpoint simple_loop (templates : list Event) (i n : nat) : M (list Event) :=
  match n with
  | O => ret []
  | S n' =>
      synthetic <- simple_step templates i ;;
      synthetic_events <- simple_loop templates (S i) n' ;;
      ret (synthetic :: synthetic_events)
  end.

Definition generate_simple_synthetics : M Frame :=
  all_data <- read_events combined_dataset_csv ;;
  let templates := filter (fun e => Rleb 5.0 (magnitude e)) all_data in
  synthetic_events <- simple_loop templates 0 n_synthetic ;;
  let synthetics_df := range_index synthetic_events in
  to_csv synthetic_simple_csv synthetics_df ;;;
  ret synthetics_df.

(* ================================================================= *)
(** ** assemble_dataset.py and finalize_dataset.py *)

Definition fold_years : list (Z * Z) :=
  [(2003, 2005); (2006, 2008); (2009, 2011); (2012, 2014);
   (2015, 2017); (2018, 2020); (2021, 2025)]%Z.

Fixpoint enumerate_from {A} (k : Z) (l : list A) : list (Z * A) :=
  match l with
  | [] => []
  | x :: l' => (k, x) :: enumerate_from (k + 1)%Z l'
  end.

(** [cv_fold = -1], then one masked assignment per fold, in order. *)
Definition cv_fold_of (year : Z) : Z :=
  fold_left
    (fun fold entry =>
       let '(fold_idx, (start_year, end_year)) := entry in
       if ((start_year <=? year) && (year <=? end_year))%Z
       then fold_idx else fold)
    (enumerate_from 0 fold_years) (-1)%Z.

Definition mag_bins : list R := [3.0; 4.0; 5.0; 6.0; 7.0; 8.0].

(** [pd.cut(x, bins)]: the bin [(lo, hi]] holding [x], if any. *)
Fixpoint cut (bins : list R) (x : R) : option MagRange :=
  match bins with
  | [] => None
  | lo :: rest =>
      match rest with
      | [] => None
      | hi :: _ =>
          if Rltb lo x && Rleb x hi then Some (lo, hi) else cut rest x
      end
  end.

Definition with_calendar (e : Event) (y : Z) : Event :=
  {| id := id e;
     time := time e;
     magnitude := magnitude e;
     longitude := longitude e;
     latitude := latitude e;
     depth_km := depth_km e;
     is_synthetic := is_synthetic e;
     sample_weight := sample_weight e;
     method := method e;
     log_energy := log_energy e;
     rupture_length_km := rupture_length_km e;
     rupture_width_km := rupture_width_km e;
     rupture_area_km2 := rupture_area_km2 e;
     avg_slip_m := avg_slip_m e;
     segment_id := segment_id e;
     strike := strike e;
     dip := dip e;
     rake := rake e;
     year := Some y;
     cv_fold := Some (cv_fold_of y);
     mag_range := cut mag_bins (magnitude e) |}.

Section Assembly.

Variable to_datetime_year : Timestamp -> option Z.

(** An assembled row: the input row with its calendar columns. *)
Definition assembled_from (e o : Event) : Prop :=
  exists y, to_datetime_year (time e) = Some y /\ o = with_calendar e y.

(** The steps both scripts run on the concatenated table: the
    [datetime], [year], [cv_fold] and [mag_range] columns. *)
Definition add_columns (all_data : list Event) : M Frame :=
  years <- to_datetime to_datetime_year all_data ;;
  ret (range_index (map (fun ey => with_calendar (fst ey) (snd ey))
                        (combine all_data years))).

Definition assemble_dataset : M Frame :=
  real_data <- read_events processed_earthquakes_csv ;;
  bootstrap_data <- read_events synthetic_bootstrap_csv ;;
  physics_data <- read_events synthetic_physics_csv ;;
  all_data <- add_columns (real_data ++ bootstrap_data ++ physics_data) ;;
  to_csv combined_dataset_csv all_data ;;;
  ret all_data.

Definition finalize_dataset : M Frame :=
  real_data <- read_events processed_earthquakes_csv ;;
  bootstrap_data <- read_events synthetic_bootstrap_csv ;;
  physics_data <- read_events synthetic_physics_csv ;;
  simple_data <- read_events synthetic_simple_csv ;;
  all_data <- add_columns
    (real_data ++ bootstrap_data ++ physics_data ++ simple_data) ;;
  to_csv final_dataset_csv all_data ;;;
  ret all_data.

End Assembly.

(* ================================================================= *)
(** ** download_fault_data.py *)

(** The four rows of the list literal [fault_segments], each
    [coordinates] cell in its parsed form. *)
Definition fault_segments : list FaultSegment :=
  [ mkFaultSegment "NAF_Western" "North Anatolian Fault (Western Segment)"
      [(26.7, 40.4); (27.2, 40.5); (27.7, 40.7)] 275 85 180 85 15;
    mkFaultSegment "NAF_Central" "North Anatolian Fault (Central Marmara)"
      [(27.7, 40.7); (28.3, 40.8); (28.9, 40.9)] 270 80 175 70 17;
    mkFaultSegment "NAF_Eastern" "North Anatolian Fault (Eastern Marmara)"
      [(28.9, 40.9); (29.5, 40.7); (30.0, 40.6)] 265 75 170 65 15;
    mkFaultSegment "NAF_Southern" "North Anatolian Fault (Southern Branch)"
      [(27.5, 40.5); (28.2, 40.4); (28.9, 40.3); (29.5, 40.2)]
      260 80 165 120 12 ].

(** [pd.DataFrame(fault_segments).to_csv(fault_csv_path, index=False)] *)
Definition download_fault_data : M unit :=
  write_file marmara_faults_csv (FaultTable fault_segments).

(* ================================================================= *)
(** * Vocabulary of the statements *)

(** ** The b-value estimator *)

(** The spec's quantities, stated by recursion on the sample: the number
    of magnitudes at or above [m_min], and their sum. *)
Fixpoint count_at_least (m_min : R) (magnitudes : list R) : nat :=
  match magnitudes with
  | [] => 0
  | m :: rest =>
      if Rle_dec m_min m then S (count_at_least m_min rest)
      else count_at_least m_min rest
  end.

Fixpoint sum_at_least (m_min : R) (magnitudes : list R) : R :=
  match magnitudes with
  | [] => 0
  | m :: rest =>
      if Rle_dec m_min m then m + sum_at_least m_min rest
      else sum_at_least m_min rest
  end.

Definition spec_mean (m_min : R) (magnitudes : list R) : R :=
  sum_at_least m_min magnitudes / INR (count_at_least m_min magnitudes).

Definition spec_b (m_min : R) (magnitudes : list R) : R :=
  log10 (exp 1) / (spec_mean m_min magnitudes - m_min).

Definition spec_uncertainty (m_min : R) (magnitudes : list R) : R :=
  2.3 * spec_b m_min magnitudes
  / sqrt (INR (count_at_least m_min magnitudes)).

(** ** Worlds after a step *)

(** The word the [random] module delivers next, and the world after it
    was delivered; likewise for NumPy's generator. *)
Definition peek_py (w : World) : Z :=
  tape (py_random w) (cursor (py_random w)).

Definition advance_py (w : World) : World :=
  mkWorld (files w)
          (mkGenerator (tape (py_random w)) (S (cursor (py_random w))))
          (np_random w) (stdout w).

Definition peek_np (w : World) : NpDraw :=
  tape (np_random w) (cursor (np_random w)).

Definition advance_np (w : World) : World :=
  mkWorld (files w) (py_random w)
          (mkGenerator (tape (np_random w)) (S (cursor (np_random w))))
          (stdout w).

(** The world after [print(msg)]. *)
Definition say (msg : Message) (w : World) : World :=
  mkWorld (files w) (py_random w) (np_random w) (stdout w ++ [msg]).

(** The world after [path] was written. *)
Definition store (path : string) (c : FileContent) (w : World) : World :=
  mkWorld (fun p => if String.eqb p path then Some c else files w p)
          (py_random w) (np_random w) (stdout w).

(** ** The bootstrap strategy *)

(** The magnitude increase [random.uniform(1.5, 2.3)] made from one
    generator word. *)
Definition magnitude_increase_of (bits : Z) : R :=
  1.5 + (2.3 - 1.5) * unit_float bits.

(** The list the loop builds, as a function of the words the generator
    delivers from position [c] on. *)
Fixpoint bootstrap_events (words : nat -> Z) (c : nat)
  (template_events : Frame) : Frame :=
  match template_events with
  | [] => []
  | (label, event) :: rest =>
      (label, bootstrap_synthetic event (magnitude_increase_of (words c)))
        :: bootstrap_events words (S c) rest
  end.

(** The world after [n] words were delivered. *)
Definition skip_py (n : nat) (w : World) : World :=
  mkWorld (files w)
          (mkGenerator (tape (py_random w)) (cursor (py_random w) + n))
          (np_random w) (stdout w).

(** What the spec says of one output against its template. *)
Definition derived_from (template synthetic : nat * Event) : Prop :=
  let t := snd template in
  let s := snd synthetic in
  fst synthetic = fst template
  /\ time s = time t
  /\ longitude s = longitude t
  /\ latitude s = latitude t
  /\ depth_km s = depth_km t
  /\ id s = ("SYN_" ++ id t)%string
  /\ method s = "bootstrap"%string
  /\ sample_weight s = 0.3
  /\ is_synthetic s = 1%Z
  /\ exists dM u,
       0 <= u < 1 /\ dM = 1.5 + (2.3 - 1.5) * u
       /\ 1.5 <= dM <= 2.3
       /\ magnitude s = magnitude t + dM
       /\ log_energy s = option_map (fun le => le + 1.5 * dM) (log_energy t)
       /\ rupture_length_km s = Some (pow10 (-2.44 + 0.59 * magnitude s))
       /\ rupture_width_km s = Some (pow10 (-1.01 + 0.32 * magnitude s)).

(** The rest of the script once the loop has built [synthetic_events]. *)
Definition bootstrap_tail (synthetic_events : Frame) : M (option Frame) :=
  match synthetic_events with
  | [] => print NoSyntheticEvents ;;; ret None
  | _ :: _ =>
      synthetics_df <- sanity_checks synthetic_events ;;
      to_csv synthetic_bootstrap_csv synthetics_df ;;;
      ret (Some synthetics_df)
  end.

(** ** The validity filter *)

(** The spec's filter: keep the rows that are not unphysical. *)
Definition valid_rows (df : Frame) : Frame :=
  filter (fun r => negb (unphysical (snd r))) df.

(** The bounds a persisted event is to satisfy. *)
Definition physical (e : Event) : Prop :=
  0 <= depth_km e
  /\ exists l, rupture_length_km e = Some l /\ l <= 200.

(** What the sanity checks print. *)
Definition sanity_report (df : Frame) (w : World) : World :=
  match filter (fun r => unphysical (snd r)) df with
  | [] => w
  | invalid_events => say (WarnUnphysical (List.length invalid_events)) w
  end.

(** ** The physics strategy *)

(** [avg_slip] of the loop body. *)
Definition avg_slip_of (magnitude : R) : R :=
  pow10 (1.5 * magnitude + 9.1) / (mu * rupture_area_of magnitude * 1e6).

(** An event the loop can build at index [i] for [magnitude]. *)
Definition physics_made (fault_data : list FaultSegment) (i : nat)
  (magnitude : R) (e : Event) : Prop :=
  exists seg months_offset u lon lat,
    In seg fault_data
    /\ 0 <= u < 1
    /\ e = physics_synthetic i magnitude seg (avg_slip_of magnitude)
             months_offset (5 + (15 - 5) * u) lon lat.

(** The rest of the script once the loop has built [synthetic_events]. *)
Definition physics_tail (synthetic_events : list Event) : M (option Frame) :=
  match synthetic_events with
  | [] => print NoSyntheticEvents ;;; ret None
  | _ :: _ =>
      synthetics_df <- sanity_checks (range_index synthetic_events) ;;
      to_csv synthetic_physics_csv synthetics_df ;;;
      ret (Some synthetics_df)
  end.

(** The outcome of [segment_can_host_rupture] on a trace that parses. *)
Definition hosts (magnitude : R) (s : FaultSegment) : bool :=
  Rleb (rupture_length_of magnitude) (segment_length (coordinates s)).

(** [template_events] of the bootstrap script, and the list its loop
    builds from them in world [w]. *)
Definition templates_of (eq_data : list Event) : Frame :=
  filter (fun r => is_template (snd r)) (range_index eq_data).

Definition bootstrap_raw (w : World) (eq_data : list Event) : Frame :=
  bootstrap_events (tape (py_random w)) (cursor (py_random w))
                   (templates_of eq_data).

(** ** The simple strategy *)

(** An event the simple loop can build at index [i]. *)
Definition simple_made (templates : list Event) (i : nat) (e : Event)
  : Prop :=
  exists template u_m u_d lon lat stamp,
    In template templates
    /\ 0 <= u_m < 1 /\ 0 <= u_d < 1
    /\ 26.0 <= lon <= 30.5 /\ 39.5 <= lat <= 41.5
    /\ e = simple_synthetic i (6.5 + (7.3 - 6.5) * u_m) lon lat
             (5 + (20 - 5) * u_d) stamp.

(** [templates] of the simple script. *)
Definition simple_templates (all_data : list Event) : list Event :=
  filter (fun e => Rleb 5.0 (magnitude e)) all_data.

(** ** Runs that cannot be told apart *)

(** Two generators that will deliver the same words from now on. *)
Definition same_draws {A} (g1 g2 : Generator A) : Prop :=
  forall n, tape g1 (cursor g1 + n) = tape g2 (cursor g2 + n).

(** Two worlds with the same files and the same future of both hidden
    generators; what was printed before is not compared. *)
Definition same_world (w1 w2 : World) : Prop :=
  (forall p, files w1 p = files w2 p)
  /\ same_draws (py_random w1) (py_random w2)
  /\ same_draws (np_random w1) (np_random w2).

Definition same_outcome {A} (o1 o2 : Outcome A) : Prop :=
  match o1, o2 with
  | Returned a1 w1, Returned a2 w2 => a1 = a2 /\ same_world w1 w2
  | Raised e1 w1, Raised e2 w2 => e1 = e2 /\ same_world w1 w2
  | _, _ => False
  end.

Definition deterministic {A} (m : M A) : Prop :=
  forall w1 w2, same_world w1 w2 -> same_outcome (m w1) (m w2).

(* ================================================================= *)
(** * Example worlds *)

(** The sample of the spec's end-to-end example. *)
Definition spec_example_magnitudes : list R := [3.0; 3.1; 3.3; 3.6; 4.0; 4.5].

(** A fault trace along the meridian 27E, about 222 km long. *)

Definition meridian_trace : list (R * R) := [(27, 40); (27, 42)].

Definition meridian_segment : FaultSegment :=
  mkFaultSegment "MERIDIAN_27E" "Trace along 27E" meridian_trace
                 0 90 180 222 15.

(** A row as [prepare_marmara_catalog] writes it. *)
Definition catalog_event (name stamp : string) (y : Z)
  (m lon lat depth : R) : Event :=
  {| id := name;
     time := Stamp stamp;
     magnitude := m;
     longitude := lon;
     latitude := lat;
     depth_km := depth;
     is_synthetic := 0;
     sample_weight := 1.0;
     method := "real";
     log_energy := Some (1.5 * m + 4.8);
     rupture_length_km := None;
     rupture_width_km := None;
     rupture_area_km2 := None;
     avg_slip_m := None;
     segment_id := None;
     strike := None;
     dip := None;
     rake := None;
     year := Some y;
     cv_fold := None;
     mag_range := None |}.

Definition digit_of (c : ascii) : option Z :=
  let n := (Z.of_nat (nat_of_ascii c) - 48)%Z in
  if ((0 <=? n) && (n <=? 9))%Z then Some n else None.

(** A reader of ISO-like cells ["YYYY-..."], standing for
    [pd.to_datetime] in the examples. *)
Definition iso_year (t : Timestamp) : option Z :=
  match t with
  | Stamp (String a (String b (String c (String d _)))) =>
      match digit_of a, digit_of b, digit_of c, digit_of d with
      | Some a, Some b, Some c, Some d =>
          Some (1000 * a + 100 * b + 10 * c + d)%Z
      | _, _, _, _ => None
      end
  | Stamp _ => None
  | FromStart _ => None
  | Clock y _ _ _ _ _ => Some y
  end.

(** Catalogue rows: below the template band, at its floor, inside it
    with a negative depth, and near its top. *)
Definition quake_small : Event :=
  catalog_event "EQ_000001" "2005-06-01 08:30:00" 2005 4.2 27.9 40.6 9.

Definition quake_floor : Event :=
  catalog_event "EQ_000002" "2011-02-14 21:05:10" 2011 5.0 28.4 40.8 11.

Definition quake_airborne : Event :=
  catalog_event "EQ_000003" "2016-09-30 03:12:45" 2016 5.5 29.1 40.7 (-1).

(** The files of a fresh checkout after the catalogue and the fault
    table have been prepared. *)
Definition prepared_files (catalog : list Event)
  : string -> option FileContent :=
  fun p =>
    if String.eqb p processed_earthquakes_csv
    then Some (EventTable catalog)
    else if String.eqb p marmara_faults_csv
         then Some (FaultTable [meridian_segment])
         else None.

Definition constant_words (bits : Z) : Generator Z :=
  mkGenerator (fun _ => bits) 0.

Definition constant_draws (z : R) (bits : Z) : Generator NpDraw :=
  mkGenerator (fun _ => mkNpDraw z bits) 0.

(** A process started on [files_] whose [random] module delivers [bits]
    forever and whose NumPy generator delivers the variate 1. *)
Definition process (files_ : string -> option FileContent) (bits : Z)
  : World :=
  mkWorld files_ (constant_words bits) (constant_draws 1 0) [].

Definition prepared (catalog : list Event) (bits : Z) : World :=
  process (prepared_files catalog) bits.

(** The files the simple script needs. *)
Definition assembled_files (all_data : list Event)
  : string -> option FileContent :=
  fun p =>
    if String.eqb p combined_dataset_csv then Some (EventTable all_data)
    else None.

Definition quake_strong : Event :=
  catalog_event "EQ_000004" "2019-11-23 12:00:00" 2019 5.9 28.7 40.9 7.

(** The files the assembler reads. *)
Definition pipeline_files (real_data bootstrap_data physics_data
                           simple_data : list Event)
  : string -> option FileContent :=
  fun p =>
    if String.eqb p processed_earthquakes_csv
    then Some (EventTable real_data)
    else if String.eqb p synthetic_bootstrap_csv
    then Some (EventTable bootstrap_data)
    else if String.eqb p synthetic_physics_csv
    then Some (EventTable physics_data)
    else if String.eqb p synthetic_simple_csv
    then Some (EventTable simple_data)
    else None.

Definition small_pipeline : World :=
  process (pipeline_files [quake_small; quake_floor]
                          [bootstrap_synthetic quake_floor 1.5] [] [])
          0.

(** Prepared files with an empty fault table. *)
Definition unfaulted_files (catalog : list Event)
  : string -> option FileContent :=
  fun p =>
    if String.eqb p processed_earthquakes_csv
    then Some (EventTable catalog)
    else if String.eqb p marmara_faults_csv
         then Some (FaultTable [])
         else None.

(** The same files and draws as [prepared catalog bits], later in the
    life of the generators and after something was printed. *)
Definition prepared_later (catalog : list Event) (bits : Z) : World :=
  mkWorld (prepared_files catalog)
          (mkGenerator (fun _ => bits) 7)
          (mkGenerator (fun _ => mkNpDraw 1 0) 3)
          [NoSyntheticEvents].

(* ================================================================= *)
(** * Vocabulary of the further properties *)

(** ** Events of the physics and simple loops, with their draws *)

(** An event the physics loop builds at index [i] for [magnitude]: on a
    segment of the table that can host the rupture, at a vertex of its
    trace moved by the two jitters. *)
Definition physics_placed (fault_data : list FaultSegment) (i : nat)
  (magnitude : R) (e : Event) : Prop :=
  exists seg vertex u_month u_depth u_lon u_lat,
    In seg fault_data
    /\ hosts magnitude seg = true
    /\ In vertex (coordinates seg)
    /\ 0 <= u_month < 1 /\ 0 <= u_depth < 1
    /\ 0 <= u_lon < 1 /\ 0 <= u_lat < 1
    /\ e = physics_synthetic i magnitude seg (avg_slip_of magnitude)
             ((6 + (12 - 6) * u_month) * INR i) (5 + (15 - 5) * u_depth)
             (fst vertex + (- (0.045) + (0.045 - - (0.045)) * u_lon))
             (snd vertex + (- (0.045) + (0.045 - - (0.045)) * u_lat)).

(** The events of a run of the physics loop started at index [i0] over
    [magnitudes], with the loop indices [ks] at which they were built. *)
Definition physics_indexed (fault_data : list FaultSegment)
  (magnitudes : list R) (i0 : nat) (ks : list nat) (events : list Event)
  : Prop :=
  Forall2 (fun k e =>
             (i0 <= k)%nat
             /\ exists m, nth_error magnitudes (k - i0) = Some m
                          /\ physics_placed fault_data k m e)
          ks events.

Definition is_no_segment (msg : Message) : bool :=
  match msg with
  | WarnNoSegment _ _ => true
  | _ => false
  end.

(** An event the simple loop builds at index [i]. *)
Definition simple_placed (templates : list Event) (i : nat) (e : Event)
  : Prop :=
  exists template u_m u_lon u_lat u_d year month day hour minute second,
    In template templates
    /\ 0 <= u_m < 1 /\ 0 <= u_lon < 1 /\ 0 <= u_lat < 1 /\ 0 <= u_d < 1
    /\ (2003 <= year <= 2025)%Z /\ (1 <= month <= 12)%Z
    /\ (1 <= day <= 28)%Z /\ (0 <= hour <= 23)%Z
    /\ (0 <= minute <= 59)%Z /\ (0 <= second <= 59)%Z
    /\ e = simple_synthetic i (6.5 + (7.3 - 6.5) * u_m)
             (Rmax 26.0
                (Rmin 30.5
                   (longitude template + (- 0.3 + (0.3 - - 0.3) * u_lon))))
             (Rmax 39.5
                (Rmin 41.5
                   (latitude template + (- 0.2 + (0.2 - - 0.2) * u_lat))))
             (5 + (20 - 5) * u_d)
             (Clock year month day hour minute second).

(** A check that the strings of a list are pairwise different. *)
Fixpoint all_different (l : list string) : bool :=
  match l with
  | [] => true
  | s :: rest => negb (existsb (String.eqb s) rest) && all_different rest
  end.

Definition physics_id (k : nat) : string := "SYN_PHYS_" ++ format_03d (k + 1).
Definition simple_id (k : nat) : string := "SYN_SIMPLE_" ++ format_03d (k + 1).

(** ** Further example worlds *)

(** A fault row whose coordinates cell does not parse, and the files of
    a run that meets it after a good row. *)
Definition unparsed_segment : FaultSegment :=
  mkFaultSegment "NAF_X" "Unparsed trace" [] 270 80 180 50 15.

Definition unparsed_files (catalog : list Event)
  : string -> option FileContent :=
  fun p =>
    if String.eqb p processed_earthquakes_csv
    then Some (EventTable catalog)
    else if String.eqb p marmara_faults_csv
         then Some (FaultTable [meridian_segment; unparsed_segment])
         else None.

(** ** Templates and tables, as the spec words them *)

(** The template events of a catalogue: its rows with
    [5.0 <= magnitude < 6.0], in catalogue order, each with its row
    number from [k] on. *)
Fixpoint qualifying_from (k : nat) (catalog : list Event) : Frame :=
  match catalog with
  | [] => []
  | e :: rest =>
      if Rle_dec 5.0 (magnitude e)
      then if Rlt_dec (magnitude e) 6.0
           then (k, e) :: qualifying_from (S k) rest
           else qualifying_from (S k) rest
      else qualifying_from (S k) rest
  end.

Definition qualifying_templates (catalog : list Event) : Frame :=
  qualifying_from 0 catalog.

(** The rows of a table that carry the label [k]. *)
Definition rows_labelled (k : nat) (df : Frame) : Frame :=
  filter (fun r => Nat.eqb (fst r) k) df.

(** The table a strategy hands on; none is no row. *)
Definition returned_table (out : option Frame) : Frame :=
  match out with
  | Some df => df
  | None => []
  end.

(** A fault trace of some 5.6 km along a meridian, too short for any
    rupture of magnitude 6.5 or more, and the files of a run on it. *)
Definition short_trace : list (R * R) := [(27, 40); (27, 40.05)].

Definition short_segment : FaultSegment :=
  mkFaultSegment "NAF_S" "Short segment" short_trace 270 80 180 5 15.

Definition short_fault_files (catalog : list Event)
  : string -> option FileContent :=
  fun p =>
    if String.eqb p processed_earthquakes_csv
    then Some (EventTable catalog)
    else if String.eqb p marmara_faults_csv
         then Some (FaultTable [short_segment])
         else None.

(* ================================================================= *)
(** * Properties *)

(** ** Comparisons and elementary functions *)

Lemma Rltb_true (x y : R) : Rltb x y = true <-> x < y.
Proof. unfold Rltb; destruct (Rlt_dec x y); split; intros; try easy. Qed.

Lemma Rltb_false (x y : R) : Rltb x y = false <-> y <= x.
Proof.
  unfold Rltb; destruct (Rlt_dec x y); split; intros; try easy; lra.
Qed.

Lemma Rleb_true (x y : R) : Rleb x y = true <-> x <= y.
Proof. unfold Rleb; destruct (Rle_dec x y); split; intros; try easy. Qed.

Lemma Rleb_false (x y : R) : Rleb x y = false <-> y < x.
Proof.
  unfold Rleb; destruct (Rle_dec x y); split; intros; try easy; lra.
Qed.

Lemma ln10_pos : 0 < ln 10.
Proof. rewrite <- ln_1. apply ln_increasing; lra. Qed.

Lemma log10_nonpos (x : R) : 0 < x <= 1 -> log10 x <= 0.
Proof.
  intros [Hx Hx1]. unfold log10.
  assert (ln x <= 0).
  { destruct Hx1 as [Hlt| ->]; [|rewrite ln_1; lra].
    left. rewrite <- ln_1. apply ln_increasing; assumption. }
  pose proof ln10_pos.
  apply Rmult_le_reg_r with (ln 10); [assumption|].
  unfold Rdiv. rewrite Rmult_assoc, Rinv_l by lra. lra.
Qed.

Lemma pow10_pos (x : R) : 0 < pow10 x.
Proof. unfold pow10, Rpower. apply exp_pos. Qed.

Lemma pow10_le (x y : R) : x <= y -> pow10 x <= pow10 y.
Proof. intros. unfold pow10. apply Rle_Rpower; lra. Qed.

Lemma pow10_nat (n : nat) : pow10 (INR n) = 10 ^ n.
Proof. unfold pow10. apply Rpower_pow. lra. Qed.

Lemma pow10_4 : pow10 4 = 10000.
Proof.
  replace 4 with (INR 4) by (simpl; lra). rewrite pow10_nat. simpl. lra.
Qed.

Lemma unit_float_range (bits : Z) : 0 <= unit_float bits < 1.
Proof.
  unfold unit_float.
  assert (H : (0 <= bits mod 2 ^ 53 < 2 ^ 53)%Z)
    by (apply Z.mod_pos_bound; reflexivity).
  assert (Hp : 0 < IZR (2 ^ 53)) by (apply IZR_lt; reflexivity).
  destruct H as [H0 H1]. apply IZR_le in H0. apply IZR_lt in H1.
  split.
  - apply Rmult_le_reg_r with (IZR (2 ^ 53)); [assumption|].
    unfold Rdiv. rewrite Rmult_assoc, Rinv_l by lra. lra.
  - apply Rmult_lt_reg_r with (IZR (2 ^ 53)); [assumption|].
    unfold Rdiv. rewrite Rmult_assoc, Rinv_l by lra. lra.
Qed.

Lemma unit_float_0 : unit_float 0 = 0.
Proof. unfold unit_float. rewrite Z.mod_0_l by easy. lra. Qed.

Lemma below_lt (n : nat) (bits : Z) : (0 < n)%nat -> (below n bits < n)%nat.
Proof.
  intros Hn. unfold below.
  assert (0 <= bits mod Z.of_nat n < Z.of_nat n)%Z
    by (apply Z.mod_pos_bound; lia).
  lia.
Qed.

(* ================================================================= *)
(** ** The b-value estimator *)

Lemma length_filter_at_least (m_min : R) (magnitudes : list R) :
  List.length (filter (fun m => Rleb m_min m) magnitudes)
  = count_at_least m_min magnitudes.
Proof.
  induction magnitudes as [|m rest IH]; simpl; [reflexivity|].
  unfold Rleb at 1. destruct (Rle_dec m_min m); simpl; congruence.
Qed.

Lemma sum_filter_at_least (m_min : R) (magnitudes : list R) :
  fold_right Rplus 0 (filter (fun m => Rleb m_min m) magnitudes)
  = sum_at_least m_min magnitudes.
Proof.
  induction magnitudes as [|m rest IH]; simpl; [reflexivity|].
  unfold Rleb at 1. destruct (Rle_dec m_min m); simpl; congruence.
Qed.

(** C6. [estimate_b_value] is undetermined exactly when fewer than two
    magnitudes reach [m_min]; otherwise it returns
    [b = log10(e) / (mean - m_min)] and [2.3 * b / sqrt(n)], with [mean]
    and [n] taken over the magnitudes at or above [m_min]. *)
Theorem estimate_b_value_spec (magnitudes : list R) (m_min : R) :
  (estimate_b_value magnitudes m_min = None
   <-> (count_at_least m_min magnitudes < 2)%nat)
  /\ ((2 <= count_at_least m_min magnitudes)%nat ->
      estimate_b_value magnitudes m_min
      = Some (spec_b m_min magnitudes, spec_uncertainty m_min magnitudes)).
Proof.
  unfold estimate_b_value, spec_uncertainty, spec_b, spec_mean, mean.
  rewrite length_filter_at_least, sum_filter_at_least.
  destruct (Nat.ltb_spec (count_at_least m_min magnitudes) 2) as [Hlt|Hge].
  - split; [split; auto | intros; lia].
  - split; [split; [discriminate | intros; lia] | reflexivity].
Qed.

Lemma spec_example_count : count_at_least 3.0 spec_example_magnitudes = 6%nat.
Proof.
  unfold spec_example_magnitudes; simpl.
  repeat match goal with
         | |- context [Rle_dec ?a ?b] => destruct (Rle_dec a b); [|lra]
         end.
  reflexivity.
Qed.

Lemma estimate_b_value_spec_witness :
  estimate_b_value spec_example_magnitudes 3.0
  = Some (spec_b 3.0 spec_example_magnitudes,
          spec_uncertainty 3.0 spec_example_magnitudes).
Proof.
  apply (estimate_b_value_spec spec_example_magnitudes 3.0).
  rewrite spec_example_count. lia.
Defined.

(* ================================================================= *)
(** ** Running a script step by step *)

Lemma bind_ret {A B} (a : A) (k : A -> M B) (w : World) :
  bind (ret a) k w = k a w.
Proof. reflexivity. Qed.

Lemma bind_run {A B} (m : M A) (k : A -> M B) (w w' : World) (a : A) :
  m w = Returned a w' -> bind m k w = k a w'.
Proof. intros H. unfold bind. rewrite H. reflexivity. Qed.

Lemma bind_raised {A B} (m : M A) (k : A -> M B) (w w' : World) e :
  m w = Raised e w' -> bind m k w = Raised e w'.
Proof. intros H. unfold bind. rewrite H. reflexivity. Qed.

Lemma bind_returned_inv {A B} (m : M A) (k : A -> M B) (w w' : World) (b : B) :
  bind m k w = Returned b w' ->
  exists a w1, m w = Returned a w1 /\ k a w1 = Returned b w'.
Proof.
  unfold bind. destruct (m w) as [a w1|e w1]; [|discriminate].
  intros H. exists a, w1. split; [reflexivity | assumption].
Qed.

Lemma bind_random {B} (k : R -> M B) (w : World) :
  bind random k w = k (unit_float (peek_py w)) (advance_py w).
Proof. reflexivity. Qed.

Lemma bind_uniform {B} (a b : R) (k : R -> M B) (w : World) :
  bind (uniform a b) k w
  = k (a + (b - a) * unit_float (peek_py w)) (advance_py w).
Proof. reflexivity. Qed.

Lemma bind_print {B} (msg : Message) (k : unit -> M B) (w : World) :
  bind (print msg) k w = k tt (say msg w).
Proof. reflexivity. Qed.

Lemma bind_np_lognormal {B} (mean sigma : R) (k : R -> M B) (w : World) :
  bind (np_lognormal mean sigma) k w
  = k (exp (mean + sigma * gauss (peek_np w))) (advance_np w).
Proof. reflexivity. Qed.

Lemma bind_to_csv {B} (path : string) (df : Frame) (k : unit -> M B)
  (w : World) :
  bind (to_csv path df) k w = k tt (store path (EventTable (rows df)) w).
Proof. reflexivity. Qed.

Lemma bind_randbelow {B} (n : nat) (k : nat -> M B) (w : World) :
  (0 < n)%nat ->
  bind (randbelow n) k w = k (below n (peek_py w)) (advance_py w).
Proof. intros Hn. destruct n; [lia | reflexivity]. Qed.

Lemma bind_randint {B} (a b : Z) (k : Z -> M B) (w : World) :
  (a <= b)%Z ->
  bind (randint a b) k w
  = k (a + Z.of_nat (below (Z.to_nat (b - a + 1)) (peek_py w)))%Z
      (advance_py w).
Proof.
  intros Hab. unfold randint.
  unfold bind at 1. rewrite bind_randbelow by lia. reflexivity.
Qed.

Lemma bind_choice {A B} (seq : list A) (k : A -> M B) (w : World) :
  seq <> [] ->
  exists x, In x seq /\ bind (choice seq) k w = k x (advance_py w).
Proof.
  intros Hne. destruct seq as [|a seq']; [congruence|].
  unfold choice.
  destruct (nth_error (a :: seq') (below (List.length (a :: seq')) (peek_py w)))
    as [x|] eqn:E.
  - exists x. split; [eapply nth_error_In; eassumption|].
    unfold bind at 1. rewrite bind_randbelow by (simpl; lia).
    rewrite E. reflexivity.
  - apply nth_error_None in E.
    pose proof (below_lt (List.length (a :: seq')) (peek_py w)
                  ltac:(simpl; lia)). lia.
Qed.

Lemma bind_sample_one {A B} (population : list A) (k : A -> M B) (w : World) :
  population <> [] ->
  exists x, In x population
            /\ bind (sample_one population) k w = k x (advance_np w).
Proof.
  intros Hne. destruct population as [|a rest]; [congruence|].
  unfold sample_one.
  destruct (nth_error (a :: rest)
              (below (List.length (a :: rest)) (word (peek_np w))))
    as [x|] eqn:E.
  - exists x. split; [eapply nth_error_In; eassumption|].
    unfold bind at 1. unfold bind at 1. unfold np_next at 1.
    fold (peek_np w). rewrite E. reflexivity.
  - apply nth_error_None in E.
    pose proof (below_lt (List.length (a :: rest)) (word (peek_np w))
                  ltac:(simpl; lia)). lia.
Qed.

(* ================================================================= *)
(** ** The magnitude sampler *)

Lemma sample_magnitude_bounds (b_value u : R) :
  0 < b_value -> 0 <= u < 1 -> 6.5 <= sample_magnitude b_value u <= 7.3.
Proof.
  intros Hb Hu. unfold sample_magnitude. split.
  - apply Rmin_glb; [|lra].
    assert (Hl : log10 (1 - u) <= 0) by (apply log10_nonpos; lra).
    assert (log10 (1 - u) / b_value <= 0).
    { apply Rmult_le_reg_r with b_value; [assumption|].
      unfold Rdiv. rewrite Rmult_assoc, Rinv_l by lra. lra. }
    lra.
  - apply Rmin_r.
Qed.

Lemma sample_magnitude_cap (b_value u : R) : sample_magnitude b_value u <= 7.3.
Proof. apply Rmin_r. Qed.

Lemma draw_magnitudes_returns (n : nat) (b_value : R) (w : World) :
  exists magnitudes w',
    draw_magnitudes n b_value w = Returned magnitudes w'
    /\ List.length magnitudes = n
    /\ Forall (fun m => exists u, 0 <= u < 1 /\ m = sample_magnitude b_value u)
              magnitudes
    /\ files w' = files w /\ stdout w' = stdout w
    /\ np_random w' = np_random w
    /\ tape (py_random w') = tape (py_random w).
Proof.
  revert w. induction n as [|n IH]; intros w; simpl.
  - exists [], w. repeat split; auto.
  - rewrite bind_random.
    destruct (IH (advance_py w))
      as (ms & w' & Hrun & Hlen & Hall & Hf & Hs & Hn & Ht).
    rewrite (bind_run _ _ _ _ _ Hrun).
    eexists _, w'. split; [reflexivity|].
    repeat split; simpl; auto.
    constructor; [|assumption].
    eexists; split; [apply unit_float_range | reflexivity].
Qed.

(** C7. With a positive b-value, every magnitude
    [min(6.5 - log10(1 - u) / b, 7.3)] with [u] in [0, 1) lies between
    the floor 6.5 and the cap 7.3, and so does every magnitude the
    sampling loop of the physics strategy draws. *)
Theorem magnitude_sampler_bounds (b_value : R) :
  0 < b_value ->
  (forall u, 0 <= u < 1 -> 6.5 <= sample_magnitude b_value u <= 7.3)
  /\ (forall n w, exists magnitudes w',
        draw_magnitudes n b_value w = Returned magnitudes w'
        /\ List.length magnitudes = n
        /\ Forall (fun m => 6.5 <= m <= 7.3) magnitudes).
Proof.
  intros Hb. split.
  - intros u Hu. apply sample_magnitude_bounds; assumption.
  - intros n w.
    destruct (draw_magnitudes_returns n b_value w)
      as (ms & w' & Hrun & Hlen & Hall & _).
    exists ms, w'. repeat split; auto.
    eapply Forall_impl; [|exact Hall].
    intros m (u & Hu & ->). apply sample_magnitude_bounds; assumption.
Qed.

Lemma magnitude_sampler_bounds_witness :
  (forall u, 0 <= u < 1 -> 6.5 <= sample_magnitude 1.15 u <= 7.3)
  /\ (forall n w, exists magnitudes w',
        draw_magnitudes n 1.15 w = Returned magnitudes w'
        /\ List.length magnitudes = n
        /\ Forall (fun m => 6.5 <= m <= 7.3) magnitudes).
Proof. apply (magnitude_sampler_bounds 1.15). lra. Defined.

(* ================================================================= *)
(** ** The bootstrap loop *)

Lemma skip_py_0 (w : World) : skip_py 0 w = w.
Proof.
  destruct w as [f [t c] n s]. unfold skip_py; simpl.
  rewrite Nat.add_0_r. reflexivity.
Qed.

Lemma skip_py_S (n : nat) (w : World) :
  skip_py n (advance_py w) = skip_py (S n) w.
Proof.
  unfold skip_py, advance_py; simpl. do 2 f_equal. lia.
Qed.

Lemma bootstrap_loop_run (template_events : Frame) (w : World) :
  bootstrap_loop template_events w
  = Returned
      (bootstrap_events (tape (py_random w)) (cursor (py_random w))
         template_events)
      (skip_py (List.length template_events) w).
Proof.
  revert w.
  induction template_events as [|[label event] rest IH]; intros w; simpl.
  - rewrite skip_py_0. reflexivity.
  - rewrite bind_uniform. rewrite (bind_run _ _ _ _ _ (IH (advance_py w))).
    simpl. rewrite skip_py_S. reflexivity.
Qed.

Lemma bootstrap_synthetic_derived (label : nat) (event : Event) (bits : Z) :
  derived_from (label, event)
    (label, bootstrap_synthetic event (magnitude_increase_of bits)).
Proof.
  unfold derived_from; simpl. repeat split.
  exists (magnitude_increase_of bits), (unit_float bits).
  pose proof (unit_float_range bits).
  unfold magnitude_increase_of. repeat split; try lra; nra.
Qed.

Lemma bootstrap_events_derived (words : nat -> Z) (c : nat)
  (template_events : Frame) :
  Forall2 derived_from template_events
    (bootstrap_events words c template_events).
Proof.
  revert c. induction template_events as [|[label event] rest IH];
    intros c; simpl; constructor.
  - apply bootstrap_synthetic_derived.
  - apply IH.
Qed.

Lemma is_template_iff (e : Event) :
  is_template e = true <-> 5 <= magnitude e < 6.
Proof.
  unfold is_template. rewrite andb_true_iff, Rleb_true, Rltb_true.
  split; intros []; split; lra.
Qed.

Lemma to_datetime_returns (to_datetime_year : Timestamp -> option Z)
  (table : list Event) (w : World) :
  Forall (fun e => to_datetime_year (time e) <> None) table ->
  exists years,
    to_datetime to_datetime_year table w = Returned years w
    /\ List.length years = List.length table.
Proof.
  induction table as [|e rest IH]; intros Hall; simpl.
  - exists []. split; reflexivity.
  - inversion Hall as [|? ? He Hrest]; subst.
    destruct (IH Hrest) as (ys & Hrun & Hlen).
    destruct (to_datetime_year (time e)) as [y|]; [|congruence].
    exists (y :: ys). unfold to_datetime in Hrun.
    rewrite (bind_run _ _ _ _ _ Hrun).
    split; [reflexivity | simpl; congruence].
Qed.

Lemma read_events_run (path : string) (table : list Event) (w : World) :
  files w path = Some (EventTable table) ->
  read_events path w = Returned table w.
Proof.
  intros H. unfold read_events, bind, read_file. rewrite H. reflexivity.
Qed.

Lemma read_events_inv (path : string) (table : list Event) (w w' : World) :
  read_events path w = Returned table w' ->
  files w path = Some (EventTable table) /\ w' = w.
Proof.
  unfold read_events, bind, read_file.
  destruct (files w path) as [[t|t|b]|]; try discriminate.
  unfold ret. intros H. inversion H. auto.
Qed.

(* ================================================================= *)
(** ** The validity filter *)

Lemma unphysical_false (e : Event) :
  unphysical e = false
  <-> 0 <= depth_km e
      /\ forall l, rupture_length_km e = Some l -> l <= 200.
Proof.
  unfold unphysical. rewrite orb_false_iff, Rltb_false.
  destruct (rupture_length_km e) as [l|].
  - rewrite Rltb_false. split.
    + intros [Hd Hl]. split; [assumption|]. intros l' [= <-]. assumption.
    + intros [Hd Hl]. split; [assumption|]. apply Hl. reflexivity.
  - split; intros [Hd _]; split; auto; discriminate.
Qed.

Lemma physical_not_unphysical (e : Event) :
  physical e -> unphysical e = false.
Proof.
  intros [Hd (l & Hl & Hle)]. apply unphysical_false. split; [assumption|].
  intros l' Hl'. congruence.
Qed.

Lemma valid_rows_physical (df : Frame) :
  Forall (fun e => rupture_length_km e <> None) (rows df) ->
  Forall physical (rows (valid_rows df)).
Proof.
  unfold rows, valid_rows. induction df as [|[k e] df IH]; simpl; intros H.
  - constructor.
  - inversion H as [|? ? He Hrest]; subst. simpl in He.
    destruct (unphysical e) eqn:E; simpl; [apply IH; assumption|].
    constructor; [|apply IH; assumption].
    apply unphysical_false in E. destruct E as [Hd Hl].
    split; [assumption|].
    destruct (rupture_length_km e) as [l|]; [|congruence].
    exists l. split; [reflexivity | apply Hl; reflexivity].
Qed.

Lemma valid_rows_all (df : Frame) :
  Forall (fun e => unphysical e = false) (rows df) -> valid_rows df = df.
Proof.
  unfold rows, valid_rows. induction df as [|[k e] df IH]; simpl; intros H.
  - reflexivity.
  - inversion H as [|? ? He Hrest]; subst. simpl in He. rewrite He. simpl.
    f_equal. apply IH. assumption.
Qed.

Lemma filter_nil_forall {A} (f : A -> bool) (l : list A) :
  filter f l = [] -> Forall (fun x => f x = false) l.
Proof.
  induction l as [|x l IH]; simpl; intros H; [constructor|].
  destruct (f x) eqn:E; [discriminate|]. constructor; auto.
Qed.

Lemma isin_true (labels : list nat) (label : nat) :
  isin labels label = true <-> In label labels.
Proof.
  unfold isin. rewrite existsb_exists. split.
  - intros (x & Hx & Heq). apply Nat.eqb_eq in Heq. congruence.
  - intros H. exists label. split; [assumption | apply Nat.eqb_refl].
Qed.

Lemma NoDup_labels_inj (df : Frame) (r r' : nat * Event) :
  NoDup (map fst df) -> In r df -> In r' df -> fst r = fst r' -> r = r'.
Proof.
  induction df as [|x df IH]; simpl; intros Hnd Hr Hr' Heq; [tauto|].
  inversion Hnd as [|? ? Hx Hnd']; subst.
  destruct Hr as [->|Hr], Hr' as [->|Hr']; auto.
  - exfalso. apply Hx. rewrite Heq. apply in_map. assumption.
  - exfalso. apply Hx. rewrite <- Heq. apply in_map. assumption.
Qed.

(** Removing rows by index label removes exactly the invalid rows when
    labels are unique. *)
Lemma drop_by_label (df : Frame) :
  NoDup (map fst df) ->
  filter
    (fun r =>
       negb (isin (map fst (filter (fun r => unphysical (snd r)) df)) (fst r)))
    df
  = valid_rows df.
Proof.
  intros Hnd. unfold valid_rows. apply filter_ext_in. intros r Hr. f_equal.
  destruct (unphysical (snd r)) eqn:E.
  - apply isin_true. apply in_map. apply filter_In. auto.
  - destruct (isin _ (fst r)) eqn:E'; [|reflexivity].
    apply isin_true, in_map_iff in E'. destruct E' as (r' & Heq & Hr').
    apply filter_In in Hr'. destruct Hr' as [Hr' Hu].
    assert (r' = r) by (eapply NoDup_labels_inj; eauto). subst. congruence.
Qed.

Lemma sanity_checks_run (df : Frame) (w : World) :
  NoDup (map fst df) ->
  sanity_checks df w = Returned (valid_rows df) (sanity_report df w).
Proof.
  intros Hnd. unfold sanity_checks, sanity_report.
  destruct (filter (fun r => unphysical (snd r)) df) as [|x inv] eqn:E.
  - rewrite valid_rows_all; [reflexivity|].
    apply filter_nil_forall in E. unfold rows. apply Forall_map. exact E.
  - rewrite bind_print. rewrite <- E. rewrite drop_by_label by assumption.
    reflexivity.
Qed.

Lemma map_fst_range_index_from (k : nat) (l : list Event) :
  map fst (range_index_from k l) = seq k (List.length l).
Proof.
  revert k. induction l as [|e l IH]; intros k; simpl; [reflexivity|].
  rewrite IH. reflexivity.
Qed.

Lemma rows_range_index_from (k : nat) (l : list Event) :
  rows (range_index_from k l) = l.
Proof.
  unfold rows. revert k. induction l as [|e l IH]; intros k; simpl;
    [reflexivity|]. rewrite IH. reflexivity.
Qed.

Lemma range_index_NoDup (l : list Event) : NoDup (map fst (range_index l)).
Proof.
  unfold range_index. rewrite map_fst_range_index_from. apply seq_NoDup.
Qed.

Lemma NoDup_map_fst_filter (f : nat * Event -> bool) (df : Frame) :
  NoDup (map fst df) -> NoDup (map fst (filter f df)).
Proof.
  induction df as [|x df IH]; simpl; intros H; [constructor|].
  inversion H as [|? ? Hx Hnd]; subst.
  destruct (f x); simpl; [|auto].
  constructor; [|auto].
  intros Hin. apply Hx. apply in_map_iff in Hin.
  destruct Hin as (r & Heq & Hr). apply filter_In in Hr.
  rewrite <- Heq. apply in_map. tauto.
Qed.

Lemma map_fst_bootstrap_events (words : nat -> Z) (c : nat) (df : Frame) :
  map fst (bootstrap_events words c df) = map fst df.
Proof.
  revert c. induction df as [|[k e] df IH]; intros c; simpl; [reflexivity|].
  rewrite IH. reflexivity.
Qed.

Lemma bootstrap_events_have_length (words : nat -> Z) (c : nat) (df : Frame) :
  Forall (fun e => rupture_length_km e <> None)
         (rows (bootstrap_events words c df)).
Proof.
  unfold rows. revert c. induction df as [|[k e] df IH]; intros c; simpl;
    constructor; [discriminate | apply IH].
Qed.

(* ================================================================= *)
(** ** Rupture sizes under the area law *)

Lemma rupture_length_lt_200 (magnitude : R) :
  magnitude <= 7.3 -> rupture_length_of magnitude < 200.
Proof.
  intros H. unfold rupture_length_of, rupture_area_of.
  assert (Hp : pow10 (magnitude - 4.0) <= 10000).
  { rewrite <- pow10_4. apply pow10_le. lra. }
  pose proof (pow10_pos (magnitude - 4.0)).
  replace 200 with (sqrt (200 * 200)) by (apply sqrt_square; lra).
  apply sqrt_lt_1; lra.
Qed.

Lemma rupture_length_comm (magnitude : R) :
  rupture_length_of magnitude = sqrt (2 * pow10 (magnitude - 4.0)).
Proof.
  unfold rupture_length_of, rupture_area_of. f_equal. lra.
Qed.

(* ================================================================= *)
(** ** The physics loop *)

Lemma segment_can_host_inv (segment : FaultSegment) (L : R) (w w' : World)
  (ok : bool) :
  segment_can_host_rupture segment L w = Returned ok w' ->
  w' = w /\ coordinates segment <> []
  /\ ok = Rleb L (segment_length (coordinates segment)).
Proof.
  unfold segment_can_host_rupture.
  destruct (coordinates segment) as [|p rest]; [discriminate|].
  unfold ret. intros [= <- <-]. repeat split. discriminate.
Qed.

Lemma find_suitable_inv (fault_data : list FaultSegment) (L : R)
  (w w' : World) (suitable : list FaultSegment) :
  find_suitable_segments fault_data L w = Returned suitable w' ->
  w' = w
  /\ suitable
     = filter (fun s => Rleb L (segment_length (coordinates s))) fault_data
  /\ Forall (fun s => coordinates s <> []) fault_data.
Proof.
  revert suitable w'. induction fault_data as [|seg rest IH];
    intros suitable w' H; simpl in H.
  - inversion H. auto.
  - apply bind_returned_inv in H. destruct H as (ok & w1 & Hok & H).
    apply segment_can_host_inv in Hok. destruct Hok as (-> & Hne & ->).
    apply bind_returned_inv in H. destruct H as (s & w2 & Hs & H).
    apply IH in Hs. destruct Hs as (-> & -> & Hall).
    inversion H; subst. simpl. repeat split; auto.
Qed.

Lemma find_suitable_run (fault_data : list FaultSegment) (L : R) (w : World) :
  Forall (fun s => coordinates s <> []) fault_data ->
  find_suitable_segments fault_data L w
  = Returned
      (filter (fun s => Rleb L (segment_length (coordinates s))) fault_data) w.
Proof.
  induction 1 as [|seg rest Hne _ IH]; simpl; [reflexivity|].
  unfold segment_can_host_rupture at 1.
  destruct (coordinates seg) as [|p ps] eqn:E; [congruence|].
  rewrite bind_ret. rewrite (bind_run _ _ _ _ _ IH). reflexivity.
Qed.

Lemma physics_step_inv (fault_data : list FaultSegment) (i : nat)
  (magnitude : R) (w w' : World) (made : option Event) :
  physics_step fault_data i magnitude w = Returned made w' ->
  files w' = files w
  /\ forall e, made = Some e -> physics_made fault_data i magnitude e.
Proof.
  unfold physics_step. intros H.
  apply bind_returned_inv in H. destruct H as (suitable & w1 & Hs & H).
  apply find_suitable_inv in Hs. destruct Hs as (-> & Hs & Hall).
  destruct suitable as [|seg0 suitable'].
  - rewrite bind_print in H. inversion H; subst. split; [reflexivity|].
    discriminate.
  - match type of H with
    | bind (choice ?l) ?k ?w = _ =>
        destruct (bind_choice l k w ltac:(discriminate)) as (seg & Hin & Heq)
    end.
    rewrite Heq in H; clear Heq.
    rewrite bind_np_lognormal, !bind_uniform in H.
    assert (Hseg : In seg fault_data /\ coordinates seg <> []).
    { rewrite Hs in Hin. apply filter_In in Hin. destruct Hin as [Hin _].
      split; [assumption|]. rewrite Forall_forall in Hall. auto. }
    destruct Hseg as [Hfd Hne].
    assert (0 < List.length (coordinates seg))%nat
      by (destruct (coordinates seg); [congruence | simpl; lia]).
    rewrite bind_randint in H by lia.
    destruct (nth_error (coordinates seg) _) as [[lon lat]|]; [|discriminate].
    rewrite !bind_uniform in H. inversion H; subst.
    split; [reflexivity|]. intros e [= <-].
    eexists seg, _, _, _, _.
    split; [assumption|]. split; [apply unit_float_range|]. reflexivity.
Qed.

Lemma physics_loop_inv (fault_data : list FaultSegment) (i : nat)
  (magnitudes : list R) (w w' : World) (events : list Event) :
  physics_loop fault_data i magnitudes w = Returned events w' ->
  files w' = files w
  /\ Forall (fun e => exists i' m, In m magnitudes
                                   /\ physics_made fault_data i' m e) events.
Proof.
  revert i w events w'. induction magnitudes as [|m rest IH];
    intros i w events w' H; simpl in H.
  - inversion H; subst. split; [reflexivity | constructor].
  - apply bind_returned_inv in H. destruct H as (made & w1 & Hstep & H).
    apply physics_step_inv in Hstep. destruct Hstep as [Hf1 Hmade].
    apply bind_returned_inv in H. destruct H as (more & w2 & Hloop & H).
    apply IH in Hloop. destruct Hloop as [Hf2 Hall].
    inversion H; subst.
    split; [congruence|].
    assert (Hall' : Forall (fun e => exists i' m0, In m0 (m :: rest)
                              /\ physics_made fault_data i' m0 e) more).
    { eapply Forall_impl; [|exact Hall].
      intros e (i' & m0 & Hin & Hm). exists i', m0. split; [right|]; auto. }
    destruct made as [e|]; [|assumption].
    constructor; [|assumption].
    exists i, m. split; [left; reflexivity | auto].
Qed.

Lemma read_faults_inv (path : string) (table : list FaultSegment)
  (w w' : World) :
  read_faults path w = Returned table w' ->
  files w path = Some (FaultTable table) /\ w' = w.
Proof.
  unfold read_faults, bind, read_file.
  destruct (files w path) as [[t|t|b]|]; try discriminate.
  unfold ret. intros H. inversion H. auto.
Qed.

Lemma read_b_value_run (w : World) :
  exists b, read_b_value w = Returned b w.
Proof.
  unfold read_b_value.
  destruct (files w b_value_txt) as [[t|t|[b|]]|]; eexists; reflexivity.
Qed.

(** Every way the physics script can return: it read its inputs, drew
    [n_synthetics] magnitudes, ran the loop, and finished on the list the
    loop built. *)
Lemma generate_physics_inv (w w' : World) (out : option Frame) :
  generate_physics_snapshots w = Returned out w' ->
  exists fault_data b_value magnitudes w1 synthetic_events w2,
    files w marmara_faults_csv = Some (FaultTable fault_data)
    /\ read_b_value w = Returned b_value w
    /\ draw_magnitudes n_synthetics b_value w = Returned magnitudes w1
    /\ Forall (fun m => exists u, 0 <= u < 1
                                  /\ m = sample_magnitude b_value u) magnitudes
    /\ physics_loop fault_data 0 magnitudes w1 = Returned synthetic_events w2
    /\ files w2 = files w
    /\ Forall (fun e => exists i m, In m magnitudes
                                    /\ physics_made fault_data i m e)
              synthetic_events
    /\ physics_tail synthetic_events w2 = Returned out w'.
Proof.
  unfold generate_physics_snapshots. intros H.
  apply bind_returned_inv in H. destruct H as (fault_data & w0 & Hf & H).
  apply read_faults_inv in Hf. destruct Hf as [Hf ->].
  apply bind_returned_inv in H. destruct H as (eq_data & w0 & He & H).
  apply read_events_inv in He. destruct He as [He ->].
  destruct (read_b_value_run w) as (b & Hb).
  rewrite (bind_run _ _ _ _ _ Hb) in H.
  destruct (draw_magnitudes_returns n_synthetics b w)
    as (ms & w1 & Hm & _ & Hall & Hfiles & _).
  rewrite (bind_run _ _ _ _ _ Hm) in H.
  apply bind_returned_inv in H. destruct H as (evs & w2 & Hloop & H).
  pose proof (physics_loop_inv _ _ _ _ _ _ Hloop) as [Hf2 Hmade].
  exists fault_data, b, ms, w1, evs, w2.
  repeat split; auto. congruence.
Qed.

Lemma physics_made_bounds (fault_data : list FaultSegment) (i : nat)
  (m : R) (e : Event) :
  m <= 7.3 ->
  physics_made fault_data i m e ->
  5 <= depth_km e <= 15
  /\ magnitude e = m
  /\ rupture_length_km e = Some (sqrt (2 * pow10 (magnitude e - 4.0)))
  /\ sqrt (2 * pow10 (magnitude e - 4.0)) < 200
  /\ avg_slip_m e = Some (avg_slip_of m).
Proof.
  intros Hm (seg & mo & u & lon & lat & _ & Hu & ->). simpl.
  rewrite <- rupture_length_comm.
  pose proof (rupture_length_lt_200 m Hm).
  repeat split; auto; lra.
Qed.

(** *** The loop returns on every well-formed fault table *)

Lemma physics_step_run (fault_data : list FaultSegment) (i : nat)
  (magnitude : R) (w : World) :
  Forall (fun s => coordinates s <> []) fault_data ->
  exists made w',
    physics_step fault_data i magnitude w = Returned made w'
    /\ files w' = files w
    /\ (made = None <-> filter (hosts magnitude) fault_data = []).
Proof.
  intros Hall. unfold physics_step.
  rewrite (bind_run _ _ _ _ _ (find_suitable_run _ _ w Hall)).
  fold (hosts magnitude).
  destruct (filter (hosts magnitude) fault_data) as [|seg0 rest] eqn:E.
  - rewrite bind_print. eexists _, _. split; [reflexivity|].
    split; [reflexivity | tauto].
  - match goal with
    | |- context [bind (choice ?l) ?k ?w] =>
        destruct (bind_choice l k w ltac:(discriminate)) as (seg & Hin & Heq)
    end.
    rewrite Heq; clear Heq.
    rewrite bind_np_lognormal, !bind_uniform.
    assert (Hne : coordinates seg <> []).
    { rewrite <- E in Hin. apply filter_In in Hin.
      rewrite Forall_forall in Hall. apply Hall. tauto. }
    assert (Hlen : (0 < List.length (coordinates seg))%nat)
      by (destruct (coordinates seg); [congruence | simpl; lia]).
    rewrite bind_randint by lia.
    match goal with
    | |- context [nth_error (coordinates seg) ?k] =>
        destruct (nth_error (coordinates seg) k) as [[lon lat]|] eqn:En
    end.
    + rewrite !bind_uniform. eexists _, _. split; [reflexivity|].
      split; [reflexivity|]. split; discriminate.
    + exfalso. apply nth_error_None in En.
      match type of En with
      | (_ <= Z.to_nat (0 + Z.of_nat (below ?n ?b)))%nat =>
          pose proof (below_lt n b)
      end.
      lia.
Qed.

Lemma physics_loop_run (fault_data : list FaultSegment) (i : nat)
  (magnitudes : list R) (w : World) :
  Forall (fun s => coordinates s <> []) fault_data ->
  exists events w',
    physics_loop fault_data i magnitudes w = Returned events w'
    /\ files w' = files w
    /\ (Forall (fun m => filter (hosts m) fault_data <> []) magnitudes ->
        List.length events = List.length magnitudes).
Proof.
  intros Hall. revert i w.
  induction magnitudes as [|m rest IH]; intros i w; simpl.
  - exists [], w. repeat split; auto.
  - destruct (physics_step_run fault_data i m w Hall)
      as (made & w1 & Hstep & Hf1 & Hnone).
    rewrite (bind_run _ _ _ _ _ Hstep).
    destruct (IH (S i) w1) as (more & w2 & Hloop & Hf2 & Hlen).
    rewrite (bind_run _ _ _ _ _ Hloop).
    eexists _, w2. split; [reflexivity|]. split; [congruence|].
    intros Hhost. inversion Hhost as [|? ? Hm Hrest]; subst.
    destruct made as [e|]; [simpl; f_equal; auto|].
    exfalso. apply Hm. apply Hnone. reflexivity.
Qed.

(** *** A fault trace along a meridian *)

Lemma PI_gt_3 : 3 < PI.
Proof. pose proof PI2_3_2. lra. Qed.

Lemma meridian_trace_length : segment_length meridian_trace = PI / 90 * 6371.
Proof.
  unfold meridian_trace, segment_length, haversine_km, radians; simpl.
  pose proof PI_gt_3. pose proof PI_4.
  replace ((27 * PI / 180 - 27 * PI / 180) / 2) with 0 by lra.
  replace ((42 * PI / 180 - 40 * PI / 180) / 2) with (PI / 180) by lra.
  rewrite sin_0.
  replace (sin (PI / 180) * (sin (PI / 180) * 1)
           + cos (40 * PI / 180) * cos (42 * PI / 180) * (0 * (0 * 1)))
    with ((sin (PI / 180)) ^ 2) by (simpl; ring).
  rewrite sqrt_pow2 by (apply sin_ge_0; lra).
  rewrite asin_sin by lra.
  lra.
Qed.

Lemma meridian_segment_hosts (magnitude : R) :
  magnitude <= 7.3 -> hosts magnitude meridian_segment = true.
Proof.
  intros H. unfold hosts. apply Rleb_true.
  change (coordinates meridian_segment) with meridian_trace.
  rewrite meridian_trace_length.
  pose proof (rupture_length_lt_200 magnitude H). pose proof PI_gt_3. lra.
Qed.

(** *** How the two scripts finish *)

Lemma filter_none {A} (f : A -> bool) (l : list A) :
  Forall (fun x => f x = false) l -> filter f l = [].
Proof.
  induction 1 as [|x l Hx _ IH]; simpl; [reflexivity|].
  rewrite Hx. assumption.
Qed.

Lemma sanity_report_clean (df : Frame) (w : World) :
  Forall (fun e => unphysical e = false) (rows df) -> sanity_report df w = w.
Proof.
  intros H. unfold sanity_report. rewrite filter_none; [reflexivity|].
  unfold rows in H. rewrite Forall_map in H. exact H.
Qed.

Lemma physics_tail_some (synthetic_events : list Event) (w w' : World)
  (df : Frame) :
  physics_tail synthetic_events w = Returned (Some df) w' ->
  synthetic_events <> []
  /\ df = valid_rows (range_index synthetic_events)
  /\ w' = store synthetic_physics_csv (EventTable (rows df))
            (sanity_report (range_index synthetic_events) w).
Proof.
  unfold physics_tail. destruct synthetic_events as [|e rest].
  - rewrite bind_print. discriminate.
  - rewrite (bind_run _ _ _ _ _
               (sanity_checks_run _ w (range_index_NoDup (e :: rest)))).
    rewrite bind_to_csv. unfold ret. intros [= <- <-].
    split; [discriminate | split; reflexivity].
Qed.

(** Every event of the physics loop passes the sanity checks. *)
Lemma physics_events_physical (fault_data : list FaultSegment)
  (b_value : R) (magnitudes : list R) (events : list Event) :
  Forall (fun m => exists u, 0 <= u < 1 /\ m = sample_magnitude b_value u)
         magnitudes ->
  Forall (fun e => exists i m, In m magnitudes
                               /\ physics_made fault_data i m e) events ->
  Forall (fun e =>
            (5 <= depth_km e <= 15
             /\ magnitude e <= 7.3
             /\ rupture_length_km e
                = Some (sqrt (2 * pow10 (magnitude e - 4.0)))
             /\ sqrt (2 * pow10 (magnitude e - 4.0)) < 200)
            /\ avg_slip_m e = Some (avg_slip_of (magnitude e))
            /\ physical e) events.
Proof.
  intros Hm He. eapply Forall_impl; [|exact He].
  intros e (i & m & Hin & Hmade).
  rewrite Forall_forall in Hm. destruct (Hm m Hin) as (u & Hu & Hmu).
  assert (Hcap : m <= 7.3) by (rewrite Hmu; apply sample_magnitude_cap).
  destruct (physics_made_bounds _ _ _ _ Hcap Hmade)
    as (Hd & HM & Hl & Hlt & Hs).
  rewrite HM. rewrite HM in Hl, Hlt.
  repeat split; auto; try lra.
  eexists; split; [exact Hl | lra].
Qed.

(** What a physics run that returns a table has done. *)
Lemma generate_physics_some (w w' : World) (df : Frame) :
  generate_physics_snapshots w = Returned (Some df) w' ->
  exists fault_data b_value magnitudes w1 synthetic_events w2,
    physics_loop fault_data 0 magnitudes w1 = Returned synthetic_events w2
    /\ (files w marmara_faults_csv = Some (FaultTable fault_data)
        /\ read_b_value w = Returned b_value w
        /\ draw_magnitudes n_synthetics b_value w = Returned magnitudes w1)
    /\ files w2 = files w
    /\ synthetic_events <> []
    /\ Forall (fun e =>
                 (5 <= depth_km e <= 15
                  /\ magnitude e <= 7.3
                  /\ rupture_length_km e
                     = Some (sqrt (2 * pow10 (magnitude e - 4.0)))
                  /\ sqrt (2 * pow10 (magnitude e - 4.0)) < 200)
                 /\ avg_slip_m e = Some (avg_slip_of (magnitude e))
                 /\ physical e) synthetic_events
    /\ filter (fun r => unphysical (snd r)) (range_index synthetic_events) = []
    /\ sanity_checks (range_index synthetic_events) w2
       = Returned (range_index synthetic_events) w2
    /\ df = range_index synthetic_events
    /\ valid_rows (range_index synthetic_events)
       = range_index synthetic_events
    /\ w' = store synthetic_physics_csv (EventTable (rows df)) w2.
Proof.
  intros H. apply generate_physics_inv in H.
  destruct H as (fd & b & ms & w1 & evs & w2
                 & Hf & Hb & Hm & Hms & Hloop & Hf2 & Hmade & Htail).
  pose proof (physics_events_physical fd b ms evs Hms Hmade) as Hall.
  apply physics_tail_some in Htail. destruct Htail as (Hne & Hdf & Hw').
  assert (Hclean : Forall (fun e => unphysical e = false)
                          (rows (range_index evs))).
  { unfold range_index. rewrite rows_range_index_from.
    eapply Forall_impl; [|exact Hall].
    intros e (_ & _ & Hp). apply physical_not_unphysical. exact Hp. }
  rewrite (valid_rows_all _ Hclean) in Hdf. subst df.
  rewrite (sanity_report_clean _ _ Hclean) in Hw'.
  exists fd, b, ms, w1, evs, w2.
  repeat match goal with |- _ /\ _ => split end; auto.
  - apply filter_none. unfold rows in Hclean.
    rewrite Forall_map in Hclean. exact Hclean.
  - rewrite sanity_checks_run by apply range_index_NoDup.
    rewrite (valid_rows_all _ Hclean), (sanity_report_clean _ _ Hclean).
    reflexivity.
  - apply valid_rows_all. exact Hclean.
Qed.

(** C10. Every event the physics strategy returns has depth in [5, 15],
    magnitude at most 7.3 and rupture length
    [sqrt(2 * 10^(M - 4))] below 200 km; hence the sanity checks find no
    invalid event, print no warning and remove nothing: the returned
    table is the whole list the loop built. *)
Theorem physics_filter_unreachable (w w' : World) (df : Frame) :
  generate_physics_snapshots w = Returned (Some df) w' ->
  Forall (fun e =>
            5 <= depth_km e <= 15
            /\ magnitude e <= 7.3
            /\ rupture_length_km e
               = Some (sqrt (2 * pow10 (magnitude e - 4.0)))
            /\ sqrt (2 * pow10 (magnitude e - 4.0)) < 200) (rows df)
  /\ exists fault_data b_value magnitudes w1 synthetic_events w2,
       files w marmara_faults_csv = Some (FaultTable fault_data)
       /\ read_b_value w = Returned b_value w
       /\ draw_magnitudes n_synthetics b_value w = Returned magnitudes w1
       /\ physics_loop fault_data 0 magnitudes w1
          = Returned synthetic_events w2
       /\ filter (fun r => unphysical (snd r)) (range_index synthetic_events)
          = []
       /\ sanity_checks (range_index synthetic_events) w2
          = Returned (range_index synthetic_events) w2
       /\ df = range_index synthetic_events.
Proof.
  intros H. apply generate_physics_some in H.
  destruct H as (fd & b & ms & w1 & evs & w2 & Hloop & (Hf & Hb & Hm) & _ & _
                 & Hall & Hnone & Hsan & -> & _ & _).
  split.
  - unfold range_index. rewrite rows_range_index_from.
    eapply Forall_impl; [|exact Hall]. intros e (Hb' & _). exact Hb'.
  - exists fd, b, ms, w1, evs, w2. auto 10.
Qed.

Lemma read_faults_run (path : string) (table : list FaultSegment) (w : World) :
  files w path = Some (FaultTable table) ->
  read_faults path w = Returned table w.
Proof.
  intros H. unfold read_faults, bind, read_file. rewrite H. reflexivity.
Qed.

(** The physics script returns a full table whenever it can read its
    inputs and every fault trace parses and some segment can host every
    rupture up to magnitude 7.3. *)
Lemma generate_physics_returns (w : World) (fault_data : list FaultSegment)
  (eq_data : list Event) :
  files w marmara_faults_csv = Some (FaultTable fault_data) ->
  files w processed_earthquakes_csv = Some (EventTable eq_data) ->
  Forall (fun s => coordinates s <> []) fault_data ->
  (forall m, m <= 7.3 -> filter (hosts m) fault_data <> []) ->
  exists df w',
    generate_physics_snapshots w = Returned (Some df) w'
    /\ List.length df = n_synthetics.
Proof.
  intros Hf He Hparse Hhost. unfold generate_physics_snapshots.
  rewrite (bind_run _ _ _ _ _ (read_faults_run _ _ _ Hf)).
  rewrite (bind_run _ _ _ _ _ (read_events_run _ _ _ He)).
  destruct (read_b_value_run w) as (b & Hb).
  rewrite (bind_run _ _ _ _ _ Hb).
  destruct (draw_magnitudes_returns n_synthetics b w)
    as (ms & w1 & Hm & Hlen & Hall & _).
  rewrite (bind_run _ _ _ _ _ Hm).
  destruct (physics_loop_run fault_data 0 ms w1 Hparse)
    as (evs & w2 & Hloop & _ & Hlen2).
  rewrite (bind_run _ _ _ _ _ Hloop).
  assert (Hn : List.length evs = n_synthetics).
  { rewrite Hlen2; [assumption|].
    eapply Forall_impl; [|exact Hall].
    intros m (u & _ & ->). apply Hhost, sample_magnitude_cap. }
  pose proof (physics_loop_inv _ _ _ _ _ _ Hloop) as [_ Hmade].
  pose proof (physics_events_physical fault_data b ms evs Hall Hmade) as Hp.
  assert (Hclean : Forall (fun e => unphysical e = false)
                          (rows (range_index evs))).
  { unfold range_index. rewrite rows_range_index_from.
    eapply Forall_impl; [|exact Hp].
    intros e (_ & _ & Hph). apply physical_not_unphysical. exact Hph. }
  destruct evs as [|e evs']; [discriminate|].
  rewrite (bind_run _ _ _ _ _
             (sanity_checks_run _ w2 (range_index_NoDup (e :: evs')))).
  rewrite bind_to_csv. eexists _, _. split; [reflexivity|].
  rewrite (valid_rows_all _ Hclean).
  rewrite <- Hn. unfold range_index.
  rewrite <- (rows_range_index_from 0 (e :: evs')) at 2.
  unfold rows. rewrite length_map. reflexivity.
Qed.

(* ================================================================= *)
(** ** The physics script on the meridian segment *)

Lemma prepared_physics_returns (catalog : list Event) (bits : Z) :
  exists df w',
    generate_physics_snapshots (prepared catalog bits) = Returned (Some df) w'
    /\ List.length df = n_synthetics.
Proof.
  apply generate_physics_returns with (fault_data := [meridian_segment])
                                      (eq_data := catalog).
  - reflexivity.
  - reflexivity.
  - constructor; [discriminate | constructor].
  - intros m Hm. simpl. rewrite meridian_segment_hosts by assumption.
    discriminate.
Qed.

Lemma physics_filter_unreachable_witness :
  exists df w',
    generate_physics_snapshots (prepared [quake_floor] 0)
    = Returned (Some df) w'
    /\ Forall (fun e =>
                 5 <= depth_km e <= 15
                 /\ magnitude e <= 7.3
                 /\ rupture_length_km e
                    = Some (sqrt (2 * pow10 (magnitude e - 4.0)))
                 /\ sqrt (2 * pow10 (magnitude e - 4.0)) < 200) (rows df).
Proof.
  destruct (prepared_physics_returns [quake_floor] 0) as (df & w' & Hrun & _).
  exists df, w'. split; [exact Hrun|].
  exact (proj1 (physics_filter_unreachable _ _ _ Hrun)).
Defined.

(* ================================================================= *)
(** ** Slip of the physics events *)

Lemma avg_slip_of_pos (m : R) : 0 < avg_slip_of m.
Proof.
  unfold avg_slip_of, mu, rupture_area_of.
  pose proof (pow10_pos (1.5 * m + 9.1)). pose proof (pow10_pos (m - 4.0)).
  apply Rdiv_lt_0_compat; [assumption | nra].
Qed.

Lemma avg_slip_of_spec (m : R) :
  avg_slip_of m = pow10 (1.5 * m + 9.1) / (mu * (pow10 (m - 4.0) * 1e6)).
Proof. unfold avg_slip_of, rupture_area_of. f_equal. ring. Qed.

Lemma scatter_not_one : 1 < exp (0 + 0.3 * 1).
Proof.
  pose proof (exp_ineq1 (0 + 0.3 * 1) ltac:(lra)). lra.
Qed.

(** C2 (the code departs from it). In a run whose NumPy generator
    delivers the normal variate 1 at every draw, so that every scatter
    factor [np.random.lognormal(0, 0.3)] is [exp(0.3)], each of the 20
    stored [avg_slip_m] cells is [moment / (mu * area_m2)] itself and
    not that value times the scatter factor. *)
Theorem physics_slip_without_scatter :
  (forall k, gauss (tape (np_random (prepared [quake_floor] 0)) k) = 1)
  /\ exists df w',
       generate_physics_snapshots (prepared [quake_floor] 0)
       = Returned (Some df) w'
       /\ List.length df = 20%nat
       /\ Forall (fun e =>
                    let moment := pow10 (1.5 * magnitude e + 9.1) in
                    let area_m2 := pow10 (magnitude e - 4.0) * 1e6 in
                    avg_slip_m e = Some (moment / (mu * area_m2))
                    /\ avg_slip_m e
                       <> Some (moment / (mu * area_m2) * exp (0 + 0.3 * 1)))
                 (rows df).
Proof.
  split; [reflexivity|].
  destruct (prepared_physics_returns [quake_floor] 0) as (df & w' & Hrun & Hn).
  exists df, w'. split; [exact Hrun|]. split; [exact Hn|].
  apply generate_physics_some in Hrun.
  destruct Hrun as (fd & b & ms & w1 & evs & w2 & _ & _ & _ & _ & Hall
                    & _ & _ & -> & _ & _).
  unfold range_index. rewrite rows_range_index_from.
  eapply Forall_impl; [|exact Hall].
  intros e (_ & Hslip & _). cbv zeta.
  rewrite <- avg_slip_of_spec. split; [exact Hslip|].
  rewrite Hslip. intros [= Heq].
  pose proof (avg_slip_of_pos (magnitude e)). pose proof scatter_not_one.
  nra.
Qed.

(* ================================================================= *)
(** ** How the bootstrap script runs *)

Lemma to_datetime_inv (to_datetime_year : Timestamp -> option Z)
  (table : list Event) (w w' : World) (years : list Z) :
  to_datetime to_datetime_year table w = Returned years w' ->
  w' = w
  /\ Forall (fun e => to_datetime_year (time e) <> None) table
  /\ List.length years = List.length table.
Proof.
  revert years w'. induction table as [|e rest IH]; intros years w' H.
  - inversion H; subst. repeat split. constructor.
  - simpl in H. destruct (to_datetime_year (time e)) as [y|] eqn:E;
      [|discriminate].
    apply bind_returned_inv in H. destruct H as (ys & w1 & Hrest & H).
    apply IH in Hrest. destruct Hrest as (-> & Hall & Hlen).
    inversion H; subst. repeat split; simpl; [|congruence].
    constructor; [congruence | assumption].
Qed.

Lemma generate_bootstrap_run (to_datetime_year : Timestamp -> option Z)
  (w : World) (eq_data : list Event) :
  files w processed_earthquakes_csv = Some (EventTable eq_data) ->
  Forall (fun e => to_datetime_year (time e) <> None) eq_data ->
  generate_bootstrap_synthetics to_datetime_year w
  = bootstrap_tail (bootstrap_raw w eq_data)
                   (skip_py (List.length (templates_of eq_data)) w).
Proof.
  intros Hfile Hparse. unfold generate_bootstrap_synthetics.
  rewrite (bind_run _ _ _ _ _ (read_events_run _ _ _ Hfile)).
  destruct (to_datetime_returns to_datetime_year eq_data w Hparse)
    as (ys & Hrun & _).
  rewrite (bind_run _ _ _ _ _ Hrun).
  fold (templates_of eq_data).
  rewrite (bind_run _ _ _ _ _ (bootstrap_loop_run (templates_of eq_data) w)).
  reflexivity.
Qed.

Lemma generate_bootstrap_inv (to_datetime_year : Timestamp -> option Z)
  (w w' : World) (out : option Frame) :
  generate_bootstrap_synthetics to_datetime_year w = Returned out w' ->
  exists eq_data,
    files w processed_earthquakes_csv = Some (EventTable eq_data)
    /\ Forall (fun e => to_datetime_year (time e) <> None) eq_data
    /\ bootstrap_tail (bootstrap_raw w eq_data)
                      (skip_py (List.length (templates_of eq_data)) w)
       = Returned out w'.
Proof.
  intros H. pose proof H as H0. unfold generate_bootstrap_synthetics in H.
  apply bind_returned_inv in H. destruct H as (eq_data & w0 & He & H).
  apply read_events_inv in He. destruct He as [He ->].
  apply bind_returned_inv in H. destruct H as (ys & w0 & Hy & _).
  apply to_datetime_inv in Hy. destruct Hy as (-> & Hparse & _).
  exists eq_data. split; [assumption|]. split; [assumption|].
  rewrite <- (generate_bootstrap_run to_datetime_year w eq_data He Hparse).
  exact H0.
Qed.

Lemma bootstrap_raw_NoDup (w : World) (eq_data : list Event) :
  NoDup (map fst (bootstrap_raw w eq_data)).
Proof.
  unfold bootstrap_raw. rewrite map_fst_bootstrap_events.
  apply NoDup_map_fst_filter, range_index_NoDup.
Qed.

Lemma bootstrap_tail_some (raw : Frame) (w w' : World) (df : Frame) :
  NoDup (map fst raw) ->
  bootstrap_tail raw w = Returned (Some df) w' ->
  raw <> []
  /\ df = valid_rows raw
  /\ w' = store synthetic_bootstrap_csv (EventTable (rows df))
            (sanity_report raw w).
Proof.
  intros Hnd. unfold bootstrap_tail. destruct raw as [|r rest].
  - rewrite bind_print. discriminate.
  - rewrite (bind_run _ _ _ _ _ (sanity_checks_run _ w Hnd)).
    rewrite bind_to_csv. unfold ret. intros [= <- <-].
    split; [discriminate | split; reflexivity].
Qed.

Lemma bootstrap_tail_run (raw : Frame) (w : World) :
  NoDup (map fst raw) ->
  bootstrap_tail raw w
  = match raw with
    | [] => Returned None (say NoSyntheticEvents w)
    | _ :: _ =>
        Returned (Some (valid_rows raw))
          (store synthetic_bootstrap_csv (EventTable (rows (valid_rows raw)))
                 (sanity_report raw w))
    end.
Proof.
  intros Hnd. unfold bootstrap_tail. destruct raw as [|r rest].
  - rewrite bind_print. reflexivity.
  - rewrite (bind_run _ _ _ _ _ (sanity_checks_run _ w Hnd)).
    rewrite bind_to_csv. reflexivity.
Qed.

(* ================================================================= *)
(** ** How the simple script runs *)

Lemma clamp_range (lo hi x : R) : lo <= hi -> lo <= Rmax lo (Rmin hi x) <= hi.
Proof.
  intros H. split; [apply Rmax_l|].
  apply Rmax_lub; [assumption | apply Rmin_l].
Qed.

Lemma simple_step_run (templates : list Event) (i : nat) (w : World) :
  templates <> [] ->
  exists e w',
    simple_step templates i w = Returned e w'
    /\ files w' = files w
    /\ simple_made templates i e.
Proof.
  intros Hne. unfold simple_step.
  match goal with
  | |- context [bind (sample_one ?l) ?k ?w] =>
      destruct (bind_sample_one l k w Hne) as (template & Hin & Heq)
  end.
  rewrite Heq; clear Heq.
  rewrite !bind_uniform.
  do 6 (rewrite bind_randint by lia).
  eexists _, _. split; [reflexivity|]. split; [reflexivity|].
  eexists template, _, _, _, _, _.
  split; [assumption|].
  split; [apply unit_float_range|]. split; [apply unit_float_range|].
  split; [apply clamp_range; lra|]. split; [apply clamp_range; lra|].
  reflexivity.
Qed.

Lemma simple_loop_run (templates : list Event) (i n : nat) (w : World) :
  templates <> [] ->
  exists events w',
    simple_loop templates i n w = Returned events w'
    /\ files w' = files w
    /\ List.length events = n
    /\ Forall (fun e => exists i', simple_made templates i' e) events.
Proof.
  intros Hne. revert i w. induction n as [|n IH]; intros i w; simpl.
  - exists [], w. repeat split; auto.
  - destruct (simple_step_run templates i w Hne) as (e & w1 & He & Hf1 & Hm).
    rewrite (bind_run _ _ _ _ _ He).
    destruct (IH (S i) w1) as (evs & w2 & Hloop & Hf2 & Hlen & Hall).
    rewrite (bind_run _ _ _ _ _ Hloop).
    eexists _, w2. split; [reflexivity|].
    split; [congruence|]. split; [simpl; congruence|].
    constructor; [exists i; assumption | assumption].
Qed.

Lemma simple_loop_raises (i n : nat) (w : World) :
  exists x, simple_loop [] i (S n) w = Raised x w.
Proof. eexists. reflexivity. Qed.

Lemma generate_simple_inv (w w' : World) (df : Frame) :
  generate_simple_synthetics w = Returned df w' ->
  exists all_data synthetic_events w1,
    files w combined_dataset_csv = Some (EventTable all_data)
    /\ simple_templates all_data <> []
    /\ simple_loop (simple_templates all_data) 0 n_synthetic w
       = Returned synthetic_events w1
    /\ files w1 = files w
    /\ List.length synthetic_events = n_synthetic
    /\ Forall (fun e => exists i, simple_made (simple_templates all_data) i e)
              synthetic_events
    /\ df = range_index synthetic_events
    /\ w' = store synthetic_simple_csv (EventTable (rows df)) w1.
Proof.
  unfold generate_simple_synthetics. intros H.
  apply bind_returned_inv in H. destruct H as (all_data & w0 & Ha & H).
  apply read_events_inv in Ha. destruct Ha as [Ha ->].
  fold (simple_templates all_data) in H.
  destruct (simple_templates all_data) as [|t ts] eqn:E.
  - destruct (simple_loop_raises 0 9 w) as (x & Hx).
    unfold n_synthetic in H. rewrite (bind_raised _ _ _ _ _ Hx) in H.
    discriminate.
  - destruct (simple_loop_run (t :: ts) 0 n_synthetic w ltac:(discriminate))
      as (evs & w1 & Hloop & Hf & Hlen & Hall).
    rewrite (bind_run _ _ _ _ _ Hloop) in H. rewrite bind_to_csv in H.
    unfold ret in H. inversion H; subst.
    exists all_data, evs, w1. rewrite E.
    repeat split; auto. discriminate.
Qed.

Lemma generate_simple_returns (w : World) (all_data : list Event) :
  files w combined_dataset_csv = Some (EventTable all_data) ->
  simple_templates all_data <> [] ->
  exists df w',
    generate_simple_synthetics w = Returned df w'
    /\ List.length df = n_synthetic.
Proof.
  intros Ha Hne. unfold generate_simple_synthetics.
  rewrite (bind_run _ _ _ _ _ (read_events_run _ _ _ Ha)).
  fold (simple_templates all_data).
  destruct (simple_loop_run (simple_templates all_data) 0 n_synthetic w Hne)
    as (evs & w1 & Hloop & Hf & Hlen & Hall).
  rewrite (bind_run _ _ _ _ _ Hloop). rewrite bind_to_csv.
  eexists _, _. split; [reflexivity|].
  rewrite <- Hlen. unfold range_index.
  rewrite <- (rows_range_index_from 0 evs) at 2.
  unfold rows. rewrite length_map. reflexivity.
Qed.

Lemma simple_made_physical (templates : list Event) (i : nat) (e : Event) :
  simple_made templates i e -> physical e.
Proof.
  intros (t & um & ud & lon & lat & ts & _ & Hm & Hd & _ & _ & ->).
  split; simpl; [lra|].
  eexists. split; [reflexivity|].
  left. apply (rupture_length_lt_200 (6.5 + (7.3 - 6.5) * um)). nra.
Qed.

(* ================================================================= *)
(** ** The validity filter in the three strategies *)

Lemma files_store_same (path : string) (c : FileContent) (w : World) :
  files (store path c w) path = Some c.
Proof. simpl. rewrite String.eqb_refl. reflexivity. Qed.

(** C1. Whatever table a strategy returns is the table it wrote to its
    output file; every event in it has [depth_km >= 0] and
    [rupture_length_km <= 200]; and it is [valid_rows] of the list the
    strategy's loop built, with the same [valid_rows] for the three
    strategies.  (The bootstrap and physics scripts run the sanity
    checks; the simple script writes its loop's list as it is, and that
    list is its own [valid_rows] because every event the simple loop
    builds is within the bounds.) *)
Theorem validity_filter_all_strategies
  (to_datetime_year : Timestamp -> option Z) :
  (forall w w' df,
      generate_bootstrap_synthetics to_datetime_year w
      = Returned (Some df) w' ->
      files w' synthetic_bootstrap_csv = Some (EventTable (rows df))
      /\ Forall physical (rows df)
      /\ exists eq_data raw w1,
           files w processed_earthquakes_csv = Some (EventTable eq_data)
           /\ bootstrap_loop (templates_of eq_data) w = Returned raw w1
           /\ df = valid_rows raw)
  /\ (forall w w' df,
         generate_physics_snapshots w = Returned (Some df) w' ->
         files w' synthetic_physics_csv = Some (EventTable (rows df))
         /\ Forall physical (rows df)
         /\ exists fault_data b_value magnitudes w1 raw w2,
              (files w marmara_faults_csv = Some (FaultTable fault_data)
               /\ read_b_value w = Returned b_value w
               /\ draw_magnitudes n_synthetics b_value w
                  = Returned magnitudes w1)
              /\ physics_loop fault_data 0 magnitudes w1 = Returned raw w2
              /\ df = valid_rows (range_index raw))
  /\ (forall w w' df,
         generate_simple_synthetics w = Returned df w' ->
         files w' synthetic_simple_csv = Some (EventTable (rows df))
         /\ Forall physical (rows df)
         /\ exists all_data raw w1,
              files w combined_dataset_csv = Some (EventTable all_data)
              /\ simple_loop (simple_templates all_data) 0 n_synthetic w
                 = Returned raw w1
              /\ df = valid_rows (range_index raw)).
Proof.
  split; [|split].
  - intros w w' df H. apply generate_bootstrap_inv in H.
    destruct H as (eq_data & Hfile & Hparse & Htail).
    apply bootstrap_tail_some in Htail; [|apply bootstrap_raw_NoDup].
    destruct Htail as (Hne & -> & ->).
    split; [apply files_store_same|].
    split; [apply valid_rows_physical, bootstrap_events_have_length|].
    exists eq_data. eexists _, _. split; [assumption|].
    split; [apply bootstrap_loop_run | reflexivity].
  - intros w w' df H. apply generate_physics_some in H.
    destruct H as (fd & b & ms & w1 & evs & w2 & Hloop & Hf & _ & _ & Hall
                   & _ & _ & -> & Hvalid & ->).
    split; [apply files_store_same|]. split.
    + unfold range_index. rewrite rows_range_index_from.
      eapply Forall_impl; [|exact Hall]. intros e (_ & _ & Hp). exact Hp.
    + exists fd, b, ms, w1, evs, w2. rewrite Hvalid. auto.
  - intros w w' df H. apply generate_simple_inv in H.
    destruct H as (all_data & evs & w1 & Ha & _ & Hloop & _ & _ & Hall
                   & -> & ->).
    assert (Hp : Forall physical (rows (range_index evs))).
    { unfold range_index. rewrite rows_range_index_from.
      eapply Forall_impl; [|exact Hall].
      intros e (i & Hm). eapply simple_made_physical; eassumption. }
    split; [apply files_store_same|]. split; [exact Hp|].
    exists all_data, evs, w1. split; [assumption|]. split; [assumption|].
    symmetry. apply valid_rows_all.
    eapply Forall_impl; [|exact Hp].
    intros e. apply physical_not_unphysical.
Qed.

(** *** Example runs *)

Lemma pow10_2 : pow10 2 = 100.
Proof.
  replace 2 with (INR 2) by (simpl; lra). rewrite pow10_nat. simpl. lra.
Qed.

Lemma bootstrap_synthetic_physical (event : Event) (dM : R) :
  0 <= depth_km event -> magnitude event + dM <= 7.5 ->
  physical (bootstrap_synthetic event dM).
Proof.
  intros Hd Hm. split; [exact Hd|]. simpl.
  eexists. split; [reflexivity|].
  apply Rle_trans with (pow10 2); [apply pow10_le; lra|].
  rewrite pow10_2. lra.
Qed.

Lemma unit_float_half : unit_float (2 ^ 52) = 1 / 2.
Proof.
  unfold unit_float.
  replace (2 ^ 52 mod 2 ^ 53)%Z with (2 ^ 52)%Z by reflexivity.
  replace (2 ^ 53)%Z with (2 * 2 ^ 52)%Z by reflexivity.
  rewrite mult_IZR.
  assert (0 < IZR (2 ^ 52)) by (apply IZR_lt; reflexivity).
  field. lra.
Qed.

Lemma magnitude_increase_of_0 : magnitude_increase_of 0 = 1.5.
Proof. unfold magnitude_increase_of. rewrite unit_float_0. lra. Qed.

Lemma magnitude_increase_of_half : magnitude_increase_of (2 ^ 52) = 1.9.
Proof. unfold magnitude_increase_of. rewrite unit_float_half. lra. Qed.

Lemma templates_of_one (e : Event) :
  5 <= magnitude e < 6 -> templates_of [e] = [(0%nat, e)].
Proof.
  intros H. unfold templates_of; simpl.
  rewrite (proj2 (is_template_iff e) H). reflexivity.
Qed.

Lemma templates_of_none (e : Event) :
  magnitude e < 5 -> templates_of [e] = [].
Proof.
  intros H. unfold templates_of, is_template; simpl.
  rewrite (proj2 (Rleb_false _ _)) by lra. reflexivity.
Qed.

Lemma iso_year_parses_examples :
  Forall (fun e => iso_year (time e) <> None)
         [quake_small; quake_floor; quake_airborne].
Proof. repeat constructor; discriminate. Qed.

(** The bootstrap script on a catalogue of one template at the floor
    magnitude 5.0, with a generator that delivers [bits] forever. *)
Lemma bootstrap_of_floor (bits : Z) :
  exists w',
    generate_bootstrap_synthetics iso_year (prepared [quake_floor] bits)
    = Returned
        (Some [(0%nat,
                bootstrap_synthetic quake_floor (magnitude_increase_of bits))])
        w'
    /\ files w' synthetic_bootstrap_csv
       = Some (EventTable
                 [bootstrap_synthetic quake_floor
                    (magnitude_increase_of bits)]).
Proof.
  set (synthetic :=
         bootstrap_synthetic quake_floor (magnitude_increase_of bits)).
  assert (Ht : templates_of [quake_floor] = [(0%nat, quake_floor)])
    by (apply templates_of_one; simpl; lra).
  rewrite generate_bootstrap_run with (eq_data := [quake_floor]);
    [|reflexivity|repeat constructor; discriminate].
  assert (Hraw : bootstrap_raw (prepared [quake_floor] bits) [quake_floor]
                 = [(0%nat, synthetic)]).
  { unfold bootstrap_raw. rewrite Ht. reflexivity. }
  rewrite Hraw, Ht.
  rewrite bootstrap_tail_run by (repeat constructor; simpl; tauto).
  assert (Hv : valid_rows [(0%nat, synthetic)] = [(0%nat, synthetic)]).
  { apply valid_rows_all. repeat constructor.
    apply physical_not_unphysical, bootstrap_synthetic_physical; simpl.
    - lra.
    - pose proof (unit_float_range bits). unfold magnitude_increase_of. nra. }
  rewrite Hv. eexists. split; [reflexivity|]. apply files_store_same.
Qed.

Lemma simple_of_floor (bits : Z) :
  exists df w',
    generate_simple_synthetics (process (assembled_files [quake_floor]) bits)
    = Returned df w'
    /\ List.length df = n_synthetic.
Proof.
  apply generate_simple_returns with (all_data := [quake_floor]).
  - reflexivity.
  - unfold simple_templates; simpl.
    rewrite (proj2 (Rleb_true _ _)) by lra. discriminate.
Qed.

Lemma validity_filter_all_strategies_witness :
  exists df_b w_b df_p w_p df_s w_s,
    (generate_bootstrap_synthetics iso_year (prepared [quake_floor] 0)
     = Returned (Some df_b) w_b
     /\ files w_b synthetic_bootstrap_csv = Some (EventTable (rows df_b))
     /\ Forall physical (rows df_b))
    /\ (generate_physics_snapshots (prepared [quake_floor] 0)
        = Returned (Some df_p) w_p
        /\ files w_p synthetic_physics_csv = Some (EventTable (rows df_p))
        /\ Forall physical (rows df_p))
    /\ (generate_simple_synthetics (process (assembled_files [quake_floor]) 0)
        = Returned df_s w_s
        /\ files w_s synthetic_simple_csv = Some (EventTable (rows df_s))
        /\ Forall physical (rows df_s)).
Proof.
  destruct (bootstrap_of_floor 0) as (w_b & Hb & _).
  destruct (prepared_physics_returns [quake_floor] 0) as (df_p & w_p & Hp & _).
  destruct (simple_of_floor 0) as (df_s & w_s & Hs & _).
  destruct (validity_filter_all_strategies iso_year) as (Tb & Tp & Ts).
  eexists _, w_b, df_p, w_p, df_s, w_s.
  split; [|split].
  - split; [exact Hb|]. destruct (Tb _ _ _ Hb) as (H1 & H2 & _). auto.
  - split; [exact Hp|]. destruct (Tp _ _ _ Hp) as (H1 & H2 & _). auto.
  - split; [exact Hs|]. destruct (Ts _ _ _ Hs) as (H1 & H2 & _). auto.
Defined.

(* ================================================================= *)
(** ** Magnitudes of the bootstrap events *)

Lemma bootstrap_events_magnitudes (words : nat -> Z) (c : nat)
  (template_events : Frame) :
  Forall (fun r => 5 <= magnitude (snd r) < 6) template_events ->
  Forall (fun r => 6.5 <= magnitude (snd r) < 8.3)
         (bootstrap_events words c template_events).
Proof.
  intros H. revert c.
  induction H as [|[label event] rest Hm _ IH]; intros c; simpl;
    constructor; [|apply IH].
  simpl in *. pose proof (unit_float_range (words c)).
  unfold magnitude_increase_of. nra.
Qed.

(** C9 as stated fails at its lower end: the template of magnitude 5.0
    with the draw [u = 0] is scaled to magnitude 6.5 exactly, which is
    not strictly above 6.5. *)
Lemma bootstrap_magnitude_reaches_floor :
  5 <= magnitude quake_floor < 6
  /\ exists raw w',
       bootstrap_loop (templates_of [quake_floor]) (prepared [quake_floor] 0)
       = Returned raw w'
       /\ raw <> []
       /\ Forall (fun r => magnitude (snd r) = 6.5
                           /\ ~ (6.5 < magnitude (snd r) < 8.3)) raw.
Proof.
  split; [simpl; lra|].
  rewrite templates_of_one by (simpl; lra).
  rewrite bootstrap_loop_run. eexists _, _. split; [reflexivity|].
  split; [discriminate|].
  repeat constructor; simpl; rewrite magnitude_increase_of_0; lra.
Qed.

(** C9, amended. For templates with 5.0 <= magnitude < 6.0 every event
    the bootstrap loop builds has 6.5 <= magnitude < 8.3; and such a
    magnitude can exceed 7.3, the cap of the other two strategies. *)
Theorem bootstrap_magnitude_range :
  (forall template_events w,
      Forall (fun r => 5 <= magnitude (snd r) < 6) template_events ->
      exists raw w',
        bootstrap_loop template_events w = Returned raw w'
        /\ List.length raw = List.length template_events
        /\ Forall (fun r => 6.5 <= magnitude (snd r) < 8.3) raw)
  /\ exists raw w',
       bootstrap_loop (templates_of [quake_strong])
                      (prepared [quake_strong] (2 ^ 52))
       = Returned raw w'
       /\ raw <> []
       /\ Forall (fun r => 7.3 < magnitude (snd r)) raw.
Proof.
  split.
  - intros template_events w H. rewrite bootstrap_loop_run.
    eexists _, _. split; [reflexivity|]. split.
    + eapply eq_sym, Forall2_length, bootstrap_events_derived.
    + apply bootstrap_events_magnitudes. exact H.
  - rewrite templates_of_one by (simpl; lra).
    rewrite bootstrap_loop_run. eexists _, _. split; [reflexivity|].
    split; [discriminate|].
    repeat constructor.
    change (7.3 < magnitude quake_strong + magnitude_increase_of (2 ^ 52)).
    rewrite magnitude_increase_of_half. simpl. lra.
Qed.

Lemma bootstrap_magnitude_range_witness :
  exists raw w',
    bootstrap_loop [(0%nat, quake_floor)] (prepared [quake_floor] 0)
    = Returned raw w'
    /\ List.length raw = 1%nat
    /\ Forall (fun r => 6.5 <= magnitude (snd r) < 8.3) raw.
Proof.
  apply (proj1 bootstrap_magnitude_range [(0%nat, quake_floor)]
               (prepared [quake_floor] 0)).
  repeat constructor; simpl; lra.
Defined.

(* ================================================================= *)
(** ** The assembler *)

Section AssemblyFacts.

Variable to_datetime_year : Timestamp -> option Z.

Lemma to_datetime_years (table : list Event) (w w' : World) (years : list Z) :
  to_datetime to_datetime_year table w = Returned years w' ->
  Forall2 (fun e y => to_datetime_year (time e) = Some y) table years.
Proof.
  revert years w'. induction table as [|e rest IH]; intros years w' H.
  - inversion H; subst. constructor.
  - simpl in H. destruct (to_datetime_year (time e)) as [y|] eqn:E;
      [|discriminate].
    apply bind_returned_inv in H. destruct H as (ys & w1 & Hrest & H).
    apply IH in Hrest. inversion H; subst. constructor; assumption.
Qed.

Lemma calendar_rows (table : list Event) (years : list Z) :
  Forall2 (fun e y => to_datetime_year (time e) = Some y) table years ->
  Forall2 (assembled_from to_datetime_year) table
    (map (fun ey => with_calendar (fst ey) (snd ey)) (combine table years)).
Proof.
  induction 1 as [|e y rest ys Hy _ IH]; simpl; constructor.
  - exists y. auto.
  - exact IH.
Qed.

Lemma add_columns_inv (all_data : list Event) (w w' : World) (out : Frame) :
  add_columns to_datetime_year all_data w = Returned out w' ->
  w' = w
  /\ Forall2 (assembled_from to_datetime_year) all_data (rows out)
  /\ List.length out = List.length all_data.
Proof.
  unfold add_columns. intros H.
  apply bind_returned_inv in H. destruct H as (ys & w1 & Hy & H).
  pose proof (to_datetime_years _ _ _ _ Hy) as Hys.
  apply to_datetime_inv in Hy. destruct Hy as (-> & _ & _).
  inversion H; subst. split; [reflexivity|].
  unfold range_index. rewrite rows_range_index_from.
  pose proof (calendar_rows _ _ Hys) as Hrows.
  split; [exact Hrows|].
  rewrite <- (rows_range_index_from 0 (map _ (combine all_data ys))) in Hrows.
  apply Forall2_length in Hrows. unfold rows in Hrows.
  rewrite length_map in Hrows. congruence.
Qed.

Lemma add_columns_run (all_data : list Event) (w : World) :
  Forall (fun e => to_datetime_year (time e) <> None) all_data ->
  exists out, add_columns to_datetime_year all_data w = Returned out w.
Proof.
  intros H. unfold add_columns.
  destruct (to_datetime_returns to_datetime_year all_data w H)
    as (ys & Hrun & _).
  rewrite (bind_run _ _ _ _ _ Hrun). eexists. reflexivity.
Qed.

Lemma assemble_dataset_inv (w w' : World) (out : Frame) :
  assemble_dataset to_datetime_year w = Returned out w' ->
  exists real_data bootstrap_data physics_data,
    files w processed_earthquakes_csv = Some (EventTable real_data)
    /\ files w synthetic_bootstrap_csv = Some (EventTable bootstrap_data)
    /\ files w synthetic_physics_csv = Some (EventTable physics_data)
    /\ Forall2 (assembled_from to_datetime_year)
         (real_data ++ bootstrap_data ++ physics_data) (rows out)
    /\ List.length out
       = List.length (real_data ++ bootstrap_data ++ physics_data)
    /\ w' = store combined_dataset_csv (EventTable (rows out)) w.
Proof.
  unfold assemble_dataset. intros H.
  apply bind_returned_inv in H. destruct H as (real & w0 & Hr & H).
  apply read_events_inv in Hr. destruct Hr as [Hr ->].
  apply bind_returned_inv in H. destruct H as (boot & w0 & Hb & H).
  apply read_events_inv in Hb. destruct Hb as [Hb ->].
  apply bind_returned_inv in H. destruct H as (phys & w0 & Hp & H).
  apply read_events_inv in Hp. destruct Hp as [Hp ->].
  apply bind_returned_inv in H. destruct H as (all & w0 & Ha & H).
  apply add_columns_inv in Ha. destruct Ha as (-> & Hall & Hlen).
  rewrite bind_to_csv in H. inversion H; subst.
  exists real, boot, phys. auto 10.
Qed.

Lemma finalize_dataset_inv (w w' : World) (out : Frame) :
  finalize_dataset to_datetime_year w = Returned out w' ->
  exists real_data bootstrap_data physics_data simple_data,
    files w processed_earthquakes_csv = Some (EventTable real_data)
    /\ files w synthetic_bootstrap_csv = Some (EventTable bootstrap_data)
    /\ files w synthetic_physics_csv = Some (EventTable physics_data)
    /\ files w synthetic_simple_csv = Some (EventTable simple_data)
    /\ Forall2 (assembled_from to_datetime_year)
         (real_data ++ bootstrap_data ++ physics_data ++ simple_data)
         (rows out)
    /\ List.length out
       = List.length
           (real_data ++ bootstrap_data ++ physics_data ++ simple_data)
    /\ w' = store final_dataset_csv (EventTable (rows out)) w.
Proof.
  unfold finalize_dataset. intros H.
  apply bind_returned_inv in H. destruct H as (real & w0 & Hr & H).
  apply read_events_inv in Hr. destruct Hr as [Hr ->].
  apply bind_returned_inv in H. destruct H as (boot & w0 & Hb & H).
  apply read_events_inv in Hb. destruct Hb as [Hb ->].
  apply bind_returned_inv in H. destruct H as (phys & w0 & Hp & H).
  apply read_events_inv in Hp. destruct Hp as [Hp ->].
  apply bind_returned_inv in H. destruct H as (simp & w0 & Hs & H).
  apply read_events_inv in Hs. destruct Hs as [Hs ->].
  apply bind_returned_inv in H. destruct H as (all & w0 & Ha & H).
  apply add_columns_inv in Ha. destruct Ha as (-> & Hall & Hlen).
  rewrite bind_to_csv in H. inversion H; subst.
  exists real, boot, phys, simp. auto 10.
Qed.

Lemma assemble_dataset_returns (w : World)
  (real_data bootstrap_data physics_data : list Event) :
  files w processed_earthquakes_csv = Some (EventTable real_data) ->
  files w synthetic_bootstrap_csv = Some (EventTable bootstrap_data) ->
  files w synthetic_physics_csv = Some (EventTable physics_data) ->
  Forall (fun e => to_datetime_year (time e) <> None)
         (real_data ++ bootstrap_data ++ physics_data) ->
  exists out w', assemble_dataset to_datetime_year w = Returned out w'.
Proof.
  intros Hr Hb Hp Hparse. unfold assemble_dataset.
  rewrite (bind_run _ _ _ _ _ (read_events_run _ _ _ Hr)).
  rewrite (bind_run _ _ _ _ _ (read_events_run _ _ _ Hb)).
  rewrite (bind_run _ _ _ _ _ (read_events_run _ _ _ Hp)).
  destruct (add_columns_run _ w Hparse) as (out & Hout).
  rewrite (bind_run _ _ _ _ _ Hout). rewrite bind_to_csv.
  eexists _, _. reflexivity.
Qed.

Lemma finalize_dataset_returns (w : World)
  (real_data bootstrap_data physics_data simple_data : list Event) :
  files w processed_earthquakes_csv = Some (EventTable real_data) ->
  files w synthetic_bootstrap_csv = Some (EventTable bootstrap_data) ->
  files w synthetic_physics_csv = Some (EventTable physics_data) ->
  files w synthetic_simple_csv = Some (EventTable simple_data) ->
  Forall (fun e => to_datetime_year (time e) <> None)
         (real_data ++ bootstrap_data ++ physics_data ++ simple_data) ->
  exists out w', finalize_dataset to_datetime_year w = Returned out w'.
Proof.
  intros Hr Hb Hp Hs Hparse. unfold finalize_dataset.
  rewrite (bind_run _ _ _ _ _ (read_events_run _ _ _ Hr)).
  rewrite (bind_run _ _ _ _ _ (read_events_run _ _ _ Hb)).
  rewrite (bind_run _ _ _ _ _ (read_events_run _ _ _ Hp)).
  rewrite (bind_run _ _ _ _ _ (read_events_run _ _ _ Hs)).
  destruct (add_columns_run _ w Hparse) as (out & Hout).
  rewrite (bind_run _ _ _ _ _ Hout). rewrite bind_to_csv.
  eexists _, _. reflexivity.
Qed.

Lemma assemble_dataset_missing_bootstrap (w : World)
  (real_data : list Event) :
  files w processed_earthquakes_csv = Some (EventTable real_data) ->
  files w synthetic_bootstrap_csv = None ->
  assemble_dataset to_datetime_year w
  = Raised (FileNotFoundError synthetic_bootstrap_csv) w.
Proof.
  intros Hr Hb. unfold assemble_dataset.
  rewrite (bind_run _ _ _ _ _ (read_events_run _ _ _ Hr)).
  unfold bind at 1. unfold read_events, bind, read_file. rewrite Hb.
  reflexivity.
Qed.

(** C8. On every set of input tables it can read, [assemble_dataset]
    (three inputs) and [finalize_dataset] (four inputs) return a table
    with as many rows as the input tables have together; row by row and
    in order it is the concatenation of the inputs, each row with its
    calendar columns added: nothing is duplicated or dropped; and this
    table is the one written out. *)
Theorem assembler_keeps_every_event :
  (forall w real_data bootstrap_data physics_data,
      files w processed_earthquakes_csv = Some (EventTable real_data) ->
      files w synthetic_bootstrap_csv = Some (EventTable bootstrap_data) ->
      files w synthetic_physics_csv = Some (EventTable physics_data) ->
      Forall (fun e => to_datetime_year (time e) <> None)
             (real_data ++ bootstrap_data ++ physics_data) ->
      exists out w',
        assemble_dataset to_datetime_year w = Returned out w'
        /\ List.length out
           = (List.length real_data + List.length bootstrap_data
              + List.length physics_data)%nat
        /\ Forall2 (assembled_from to_datetime_year)
             (real_data ++ bootstrap_data ++ physics_data) (rows out)
        /\ files w' combined_dataset_csv = Some (EventTable (rows out)))
  /\ (forall w real_data bootstrap_data physics_data simple_data,
         files w processed_earthquakes_csv = Some (EventTable real_data) ->
         files w synthetic_bootstrap_csv = Some (EventTable bootstrap_data) ->
         files w synthetic_physics_csv = Some (EventTable physics_data) ->
         files w synthetic_simple_csv = Some (EventTable simple_data) ->
         Forall (fun e => to_datetime_year (time e) <> None)
                (real_data ++ bootstrap_data ++ physics_data ++ simple_data) ->
         exists out w',
           finalize_dataset to_datetime_year w = Returned out w'
           /\ List.length out
              = (List.length real_data + List.length bootstrap_data
                 + List.length physics_data + List.length simple_data)%nat
           /\ Forall2 (assembled_from to_datetime_year)
                (real_data ++ bootstrap_data ++ physics_data ++ simple_data)
                (rows out)
           /\ files w' final_dataset_csv = Some (EventTable (rows out))).
Proof.
  split.
  - intros w real boot phys Hr Hb Hp Hparse.
    destruct (assemble_dataset_returns w real boot phys Hr Hb Hp Hparse)
      as (out & w' & H).
    exists out, w'. split; [exact H|].
    apply assemble_dataset_inv in H.
    destruct H as (real' & boot' & phys' & Hr' & Hb' & Hp' & Hall & Hlen & ->).
    assert (real' = real) by congruence.
    assert (boot' = boot) by congruence.
    assert (phys' = phys) by congruence.
    subst. split; [rewrite Hlen, !length_app; lia|].
    split; [exact Hall | apply files_store_same].
  - intros w real boot phys simp Hr Hb Hp Hs Hparse.
    destruct (finalize_dataset_returns w real boot phys simp
                Hr Hb Hp Hs Hparse) as (out & w' & H).
    exists out, w'. split; [exact H|].
    apply finalize_dataset_inv in H.
    destruct H as (real' & boot' & phys' & simp' & Hr' & Hb' & Hp' & Hs'
                   & Hall & Hlen & ->).
    assert (real' = real) by congruence.
    assert (boot' = boot) by congruence.
    assert (phys' = phys) by congruence.
    assert (simp' = simp) by congruence.
    subst. split; [rewrite Hlen, !length_app; lia|].
    split; [exact Hall | apply files_store_same].
Qed.

End AssemblyFacts.

(** *** Example: assembling a small pipeline *)

Lemma small_pipeline_parses :
  Forall (fun e => iso_year (time e) <> None)
         ([quake_small; quake_floor]
            ++ [bootstrap_synthetic quake_floor 1.5] ++ [] ++ []).
Proof. repeat constructor; discriminate. Qed.

Lemma assembler_keeps_every_event_witness :
  (exists out w',
      assemble_dataset iso_year small_pipeline = Returned out w'
      /\ List.length out = (2 + 1 + 0)%nat
      /\ Forall2 (assembled_from iso_year)
           ([quake_small; quake_floor]
              ++ [bootstrap_synthetic quake_floor 1.5] ++ []) (rows out)
      /\ files w' combined_dataset_csv = Some (EventTable (rows out)))
  /\ (exists out w',
         finalize_dataset iso_year small_pipeline = Returned out w'
         /\ List.length out = (2 + 1 + 0 + 0)%nat
         /\ Forall2 (assembled_from iso_year)
              ([quake_small; quake_floor]
                 ++ [bootstrap_synthetic quake_floor 1.5] ++ [] ++ [])
              (rows out)
         /\ files w' final_dataset_csv = Some (EventTable (rows out))).
Proof.
  split.
  - apply (proj1 (assembler_keeps_every_event iso_year) small_pipeline
             [quake_small; quake_floor]
             [bootstrap_synthetic quake_floor 1.5] []).
    + reflexivity.
    + reflexivity.
    + reflexivity.
    + exact small_pipeline_parses.
  - apply (proj2 (assembler_keeps_every_event iso_year) small_pipeline
             [quake_small; quake_floor]
             [bootstrap_synthetic quake_floor 1.5] [] []).
    + reflexivity.
    + reflexivity.
    + reflexivity.
    + reflexivity.
    + exact small_pipeline_parses.
Defined.

(* ================================================================= *)
(** ** Strategies that end with no event *)

Lemma hosts_false_iff (m : R) (s : FaultSegment) :
  hosts m s = false
  <-> segment_length (coordinates s) < rupture_length_of m.
Proof. unfold hosts. apply Rleb_false. Qed.

Lemma too_short_none_hosts (fault_data : list FaultSegment) (m : R) :
  Forall (fun s => segment_length (coordinates s) < rupture_length_of m)
         fault_data ->
  filter (hosts m) fault_data = [].
Proof.
  intros H. apply filter_none. eapply Forall_impl; [|exact H].
  intros s Hs. apply hosts_false_iff. exact Hs.
Qed.

Lemma physics_loop_unhosted (fault_data : list FaultSegment) (i : nat)
  (magnitudes : list R) (w : World) :
  Forall (fun s => coordinates s <> []) fault_data ->
  Forall (fun m => filter (hosts m) fault_data = []) magnitudes ->
  exists w',
    physics_loop fault_data i magnitudes w = Returned [] w'
    /\ files w' = files w.
Proof.
  intros Hall Hnone. revert i w.
  induction Hnone as [|m rest Hm _ IH]; intros i w; simpl.
  - exists w. split; reflexivity.
  - destruct (physics_step_run fault_data i m w Hall)
      as (made & w1 & Hstep & Hf1 & Hiff).
    rewrite (bind_run _ _ _ _ _ Hstep).
    destruct (IH (S i) w1) as (w2 & Hloop & Hf2).
    rewrite (bind_run _ _ _ _ _ Hloop).
    rewrite (proj2 Hiff Hm).
    exists w2. split; [reflexivity | congruence].
Qed.

Lemma generate_physics_unhosted (w w1 : World)
  (fault_data : list FaultSegment) (eq_data : list Event) (b_value : R)
  (magnitudes : list R) :
  files w marmara_faults_csv = Some (FaultTable fault_data) ->
  files w processed_earthquakes_csv = Some (EventTable eq_data) ->
  Forall (fun s => coordinates s <> []) fault_data ->
  read_b_value w = Returned b_value w ->
  draw_magnitudes n_synthetics b_value w = Returned magnitudes w1 ->
  Forall (fun m =>
            Forall (fun s => segment_length (coordinates s)
                             < rupture_length_of m) fault_data)
         magnitudes ->
  exists w2,
    generate_physics_snapshots w = Returned None (say NoSyntheticEvents w2)
    /\ files w2 = files w.
Proof.
  intros Hf He Hparse Hb Hm Hshort. unfold generate_physics_snapshots.
  rewrite (bind_run _ _ _ _ _ (read_faults_run _ _ _ Hf)).
  rewrite (bind_run _ _ _ _ _ (read_events_run _ _ _ He)).
  rewrite (bind_run _ _ _ _ _ Hb).
  rewrite (bind_run _ _ _ _ _ Hm).
  destruct (draw_magnitudes_returns n_synthetics b_value w)
    as (ms' & w1' & Hm' & _ & _ & Hf1 & _).
  rewrite Hm in Hm'. injection Hm' as <- <-.
  assert (Hnone : Forall (fun m => filter (hosts m) fault_data = [])
                         magnitudes).
  { eapply Forall_impl; [|exact Hshort].
    intros m Hs. apply too_short_none_hosts. exact Hs. }
  destruct (physics_loop_unhosted fault_data 0 magnitudes w1 Hparse Hnone)
    as (w2 & Hloop & Hf2).
  rewrite (bind_run _ _ _ _ _ Hloop). rewrite bind_print.
  exists w2. split; [reflexivity | congruence].
Qed.

Lemma rupture_length_mono (m m' : R) :
  m <= m' -> rupture_length_of m <= rupture_length_of m'.
Proof.
  intros H. unfold rupture_length_of, rupture_area_of.
  apply sqrt_le_1_alt.
  pose proof (pow10_le (m - 4.0) (m' - 4.0) ltac:(lra)). lra.
Qed.

Lemma generate_physics_too_short (w : World)
  (fault_data : list FaultSegment) (eq_data : list Event) (b_value : R) :
  files w marmara_faults_csv = Some (FaultTable fault_data) ->
  files w processed_earthquakes_csv = Some (EventTable eq_data) ->
  Forall (fun s => coordinates s <> []) fault_data ->
  read_b_value w = Returned b_value w ->
  0 < b_value ->
  Forall (fun s => segment_length (coordinates s) < rupture_length_of 6.5)
         fault_data ->
  exists w2,
    generate_physics_snapshots w = Returned None (say NoSyntheticEvents w2)
    /\ files w2 = files w.
Proof.
  intros Hf He Hparse Hb Hpos Hshort.
  destruct (draw_magnitudes_returns n_synthetics b_value w)
    as (ms & w1 & Hm & _ & Hall & _).
  apply (generate_physics_unhosted w w1 fault_data eq_data b_value ms
           Hf He Hparse Hb Hm).
  eapply Forall_impl; [|exact Hall].
  intros m (u & Hu & ->).
  pose proof (sample_magnitude_bounds b_value u Hpos Hu) as [Hlo _].
  pose proof (rupture_length_mono _ _ Hlo).
  eapply Forall_impl; [|exact Hshort].
  intros s Hs. cbv beta in Hs. lra.
Qed.

Lemma physics_tail_none_inv (synthetic_events : list Event) (w w' : World) :
  physics_tail synthetic_events w = Returned None w' ->
  synthetic_events = [] /\ w' = say NoSyntheticEvents w.
Proof.
  unfold physics_tail. destruct synthetic_events as [|e rest].
  - rewrite bind_print. unfold ret. intros [= <-]. split; reflexivity.
  - rewrite (bind_run _ _ _ _ _
               (sanity_checks_run _ w (range_index_NoDup (e :: rest)))).
    rewrite bind_to_csv. discriminate.
Qed.

Lemma generate_physics_none_inv (w w' : World) :
  generate_physics_snapshots w = Returned None w' ->
  exists fault_data b_value magnitudes w1 w2,
    files w marmara_faults_csv = Some (FaultTable fault_data)
    /\ read_b_value w = Returned b_value w
    /\ draw_magnitudes n_synthetics b_value w = Returned magnitudes w1
    /\ physics_loop fault_data 0 magnitudes w1 = Returned [] w2
    /\ w' = say NoSyntheticEvents w2
    /\ files w' = files w.
Proof.
  intros H. apply generate_physics_inv in H.
  destruct H as (fd & b & ms & w1 & evs & w2
                 & Hf & Hb & Hm & _ & Hloop & Hf2 & _ & Htail).
  apply physics_tail_none_inv in Htail. destruct Htail as [-> ->].
  exists fd, b, ms, w1, w2. repeat split; auto.
Qed.

Lemma generate_bootstrap_none_inv
  (to_datetime_year : Timestamp -> option Z) (w w' : World) :
  generate_bootstrap_synthetics to_datetime_year w = Returned None w' ->
  w' = say NoSyntheticEvents w
  /\ exists eq_data,
       files w processed_earthquakes_csv = Some (EventTable eq_data)
       /\ templates_of eq_data = [].
Proof.
  intros H. apply generate_bootstrap_inv in H.
  destruct H as (eq_data & Hf & _ & Htail).
  rewrite bootstrap_tail_run in Htail by apply bootstrap_raw_NoDup.
  unfold bootstrap_raw in Htail.
  destruct (templates_of eq_data) as [|[k e] ts] eqn:E.
  - simpl in Htail. rewrite skip_py_0 in Htail. injection Htail as <-.
    split; [reflexivity|]. exists eq_data. auto.
  - simpl in Htail. discriminate.
Qed.

Lemma generate_bootstrap_all_removed
  (to_datetime_year : Timestamp -> option Z) (w : World)
  (eq_data : list Event) :
  files w processed_earthquakes_csv = Some (EventTable eq_data) ->
  Forall (fun e => to_datetime_year (time e) <> None) eq_data ->
  templates_of eq_data <> [] ->
  valid_rows (bootstrap_raw w eq_data) = [] ->
  exists w',
    generate_bootstrap_synthetics to_datetime_year w = Returned (Some []) w'
    /\ files w' synthetic_bootstrap_csv = Some (EventTable [])
    /\ exists n, In (WarnUnphysical n) (stdout w').
Proof.
  intros Hfile Hparse Hne Hvalid.
  rewrite (generate_bootstrap_run _ _ _ Hfile Hparse).
  rewrite bootstrap_tail_run by apply bootstrap_raw_NoDup.
  destruct (bootstrap_raw w eq_data) as [|r raw] eqn:E.
  - exfalso. apply Hne. unfold bootstrap_raw in E.
    destruct (templates_of eq_data) as [|[k e] ts]; [reflexivity|].
    discriminate.
  - rewrite Hvalid. eexists. split; [reflexivity|].
    split; [apply files_store_same|].
    unfold sanity_report.
    destruct (filter (fun r0 => unphysical (snd r0)) (r :: raw))
      as [|x inv] eqn:Ei.
    + exfalso. apply filter_nil_forall in Ei.
      assert (Hall : valid_rows (r :: raw) = r :: raw).
      { apply valid_rows_all. unfold rows. apply Forall_map. exact Ei. }
      rewrite Hall in Hvalid. discriminate.
    + eexists. simpl. apply in_or_app. right. left. reflexivity.
Qed.

(** C4 as stated fails: on a prepared catalogue without any template the
    bootstrap script prints its message and returns [None]; it writes no
    table, so nothing is handed to the assembler, which then raises
    [FileNotFoundError] on the missing bootstrap file. *)
Lemma bootstrap_without_templates_yields_no_table :
  exists w',
    generate_bootstrap_synthetics iso_year (prepared [quake_small] 0)
    = Returned None w'
    /\ stdout w' = [NoSyntheticEvents]
    /\ files w' synthetic_bootstrap_csv = None
    /\ files w' synthetic_bootstrap_csv <> Some (EventTable [])
    /\ assemble_dataset iso_year w'
       = Raised (FileNotFoundError synthetic_bootstrap_csv) w'.
Proof.
  rewrite generate_bootstrap_run with (eq_data := [quake_small]);
    [|reflexivity|repeat constructor; discriminate].
  unfold bootstrap_raw.
  rewrite templates_of_none by (simpl; lra).
  eexists. split; [reflexivity|].
  split; [reflexivity|]. split; [reflexivity|]. split; [discriminate|].
  apply assemble_dataset_missing_bootstrap with (real_data := [quake_small]);
    reflexivity.
Qed.

(** C4, amended. When the loop of the bootstrap or physics script builds
    no event, the script prints [NoSyntheticEvents], returns [None]
    without raising and leaves every file as it was, so no table is
    handed on.  For the bootstrap script this is every run on a
    catalogue without a template; for the physics script it is every
    run in which each magnitude drawn asks for a rupture longer than
    every fault trace, and so every run on a positive b-value whose
    traces are all too short for magnitude 6.5.  Conversely, whenever
    either script returns [None] it has printed that message last and
    written nothing.  The assembler raises [FileNotFoundError] when the
    bootstrap table is missing.  When the bootstrap loop builds events
    and the sanity checks remove all of them, the script warns, writes
    an empty table and returns it, and the assembler takes an empty
    bootstrap table as an input like any other.  The simple script
    returns [n_synthetic] events whenever it returns. *)
Theorem empty_result_handling (to_datetime_year : Timestamp -> option Z) :
  (forall w eq_data,
      files w processed_earthquakes_csv = Some (EventTable eq_data) ->
      Forall (fun e => to_datetime_year (time e) <> None) eq_data ->
      templates_of eq_data = [] ->
      generate_bootstrap_synthetics to_datetime_year w
      = Returned None (say NoSyntheticEvents w))
  /\ (forall w w1 fault_data eq_data b_value magnitudes,
         files w marmara_faults_csv = Some (FaultTable fault_data) ->
         files w processed_earthquakes_csv = Some (EventTable eq_data) ->
         Forall (fun s => coordinates s <> []) fault_data ->
         read_b_value w = Returned b_value w ->
         draw_magnitudes n_synthetics b_value w = Returned magnitudes w1 ->
         Forall (fun m =>
                   Forall (fun s => segment_length (coordinates s)
                                    < rupture_length_of m) fault_data)
                magnitudes ->
         exists w2,
           generate_physics_snapshots w
           = Returned None (say NoSyntheticEvents w2)
           /\ files w2 = files w)
  /\ (forall w fault_data eq_data b_value,
         files w marmara_faults_csv = Some (FaultTable fault_data) ->
         files w processed_earthquakes_csv = Some (EventTable eq_data) ->
         Forall (fun s => coordinates s <> []) fault_data ->
         read_b_value w = Returned b_value w ->
         0 < b_value ->
         Forall (fun s => segment_length (coordinates s)
                          < rupture_length_of 6.5) fault_data ->
         exists w2,
           generate_physics_snapshots w
           = Returned None (say NoSyntheticEvents w2)
           /\ files w2 = files w)
  /\ (forall w w',
         generate_physics_snapshots w = Returned None w' ->
         files w' = files w
         /\ exists w2, w' = say NoSyntheticEvents w2)
  /\ (forall w w',
         generate_bootstrap_synthetics to_datetime_year w = Returned None w' ->
         w' = say NoSyntheticEvents w)
  /\ (forall w eq_data,
         files w processed_earthquakes_csv = Some (EventTable eq_data) ->
         Forall (fun e => to_datetime_year (time e) <> None) eq_data ->
         templates_of eq_data <> [] ->
         valid_rows (bootstrap_raw w eq_data) = [] ->
         exists w',
           generate_bootstrap_synthetics to_datetime_year w
           = Returned (Some []) w'
           /\ files w' synthetic_bootstrap_csv = Some (EventTable [])
           /\ exists n, In (WarnUnphysical n) (stdout w'))
  /\ (forall w real_data,
         files w processed_earthquakes_csv = Some (EventTable real_data) ->
         files w synthetic_bootstrap_csv = None ->
         assemble_dataset to_datetime_year w
         = Raised (FileNotFoundError synthetic_bootstrap_csv) w)
  /\ (forall w real_data physics_data,
         files w processed_earthquakes_csv = Some (EventTable real_data) ->
         files w synthetic_bootstrap_csv = Some (EventTable []) ->
         files w synthetic_physics_csv = Some (EventTable physics_data) ->
         Forall (fun e => to_datetime_year (time e) <> None)
                (real_data ++ physics_data) ->
         exists out w',
           assemble_dataset to_datetime_year w = Returned out w'
           /\ List.length out
              = (List.length real_data + List.length physics_data)%nat)
  /\ (forall w w' df,
         generate_simple_synthetics w = Returned df w' ->
         List.length df = n_synthetic).
Proof.
  split; [|split; [|split; [|split; [|split; [|split; [|split; [|split]]]]]]].
  - intros w eq_data Hfile Hparse Hnone.
    rewrite (generate_bootstrap_run _ _ _ Hfile Hparse).
    unfold bootstrap_raw. rewrite Hnone. simpl.
    rewrite bind_print, skip_py_0. reflexivity.
  - intros w w1 fd eq_data b ms. apply generate_physics_unhosted.
  - intros w fd eq_data b. apply generate_physics_too_short.
  - intros w w' H. apply generate_physics_none_inv in H.
    destruct H as (fd & b & ms & w1 & w2 & _ & _ & _ & _ & Hw' & Hf).
    split; [exact Hf|]. exists w2. exact Hw'.
  - intros w w' H.
    apply (generate_bootstrap_none_inv to_datetime_year w w' H).
  - intros w eq_data. apply generate_bootstrap_all_removed.
  - intros w real_data. apply assemble_dataset_missing_bootstrap.
  - intros w real phys Hr Hb Hp Hparse.
    destruct (assemble_dataset_returns to_datetime_year w real [] phys
                Hr Hb Hp Hparse) as (out & w' & H).
    exists out, w'. split; [exact H|].
    apply assemble_dataset_inv in H.
    destruct H as (real' & boot' & phys' & Hr' & Hb' & Hp' & _ & Hlen & _).
    rewrite Hlen.
    assert (real' = real) by congruence.
    assert (boot' = []) by congruence.
    assert (phys' = phys) by congruence.
    subst. rewrite !length_app. simpl. lia.
  - intros w w' df H. apply generate_simple_inv in H.
    destruct H as (all_data & evs & w1 & _ & _ & _ & _ & Hlen & _ & -> & _).
    rewrite <- Hlen. unfold range_index.
    rewrite <- (rows_range_index_from 0 evs) at 2.
    unfold rows. rewrite length_map. reflexivity.
Qed.

Lemma airborne_all_removed (bits : Z) :
  valid_rows (bootstrap_raw (prepared [quake_airborne] bits) [quake_airborne])
  = [].
Proof.
  unfold bootstrap_raw. rewrite templates_of_one by (simpl; lra).
  unfold valid_rows, unphysical; simpl.
  rewrite (proj2 (Rltb_true _ _)) by lra. reflexivity.
Qed.

Lemma short_trace_length : segment_length short_trace = PI / 3600 * 6371.
Proof.
  unfold short_trace, segment_length, haversine_km, radians; simpl.
  pose proof PI_gt_3. pose proof PI_4.
  replace ((27 * PI / 180 - 27 * PI / 180) / 2) with 0 by lra.
  replace ((40.05 * PI / 180 - 40 * PI / 180) / 2) with (PI / 7200) by lra.
  rewrite sin_0.
  replace (sin (PI / 7200) * (sin (PI / 7200) * 1)
           + cos (40 * PI / 180) * cos (40.05 * PI / 180) * (0 * (0 * 1)))
    with ((sin (PI / 7200)) ^ 2) by (simpl; ring).
  rewrite sqrt_pow2 by (apply sin_ge_0; lra).
  rewrite asin_sin by lra.
  lra.
Qed.

Lemma short_segment_too_short :
  Forall (fun s => segment_length (coordinates s) < rupture_length_of 6.5)
         [short_segment].
Proof.
  constructor; [|constructor].
  change (coordinates short_segment) with short_trace.
  rewrite short_trace_length. pose proof PI_4.
  unfold rupture_length_of, rupture_area_of.
  assert (Hp : 100 <= pow10 (6.5 - 4.0)).
  { rewrite <- pow10_2. apply pow10_le. lra. }
  assert (Hs : sqrt (10 * 10) <= sqrt (pow10 (6.5 - 4.0) * 2))
    by (apply sqrt_le_1_alt; lra).
  rewrite sqrt_square in Hs by lra. lra.
Qed.

Lemma empty_result_handling_witness :
  generate_bootstrap_synthetics iso_year (prepared [quake_small] 0)
  = Returned None (say NoSyntheticEvents (prepared [quake_small] 0))
  /\ (exists w2,
         generate_physics_snapshots (process (unfaulted_files [quake_floor]) 0)
         = Returned None (say NoSyntheticEvents w2)
         /\ files w2 = files (process (unfaulted_files [quake_floor]) 0))
  /\ (exists w2,
         generate_physics_snapshots
           (process (short_fault_files [quake_floor]) 0)
         = Returned None (say NoSyntheticEvents w2)
         /\ files w2 = files (process (short_fault_files [quake_floor]) 0))
  /\ (exists w',
         generate_physics_snapshots
           (process (short_fault_files [quake_floor]) 0)
         = Returned None w'
         /\ files w' = files (process (short_fault_files [quake_floor]) 0)
         /\ exists w2, w' = say NoSyntheticEvents w2)
  /\ (exists w',
         generate_bootstrap_synthetics iso_year (prepared [quake_small] 0)
         = Returned None w'
         /\ w' = say NoSyntheticEvents (prepared [quake_small] 0))
  /\ (exists w',
         generate_bootstrap_synthetics iso_year (prepared [quake_airborne] 0)
         = Returned (Some []) w'
         /\ files w' synthetic_bootstrap_csv = Some (EventTable [])
         /\ exists n, In (WarnUnphysical n) (stdout w'))
  /\ assemble_dataset iso_year (prepared [quake_small] 0)
     = Raised (FileNotFoundError synthetic_bootstrap_csv)
              (prepared [quake_small] 0)
  /\ (exists out w',
         assemble_dataset iso_year
           (process (pipeline_files [quake_small] [] [] []) 0)
         = Returned out w'
         /\ List.length out = (1 + 0)%nat)
  /\ (exists df w',
         generate_simple_synthetics
           (process (assembled_files [quake_floor]) 0) = Returned df w'
         /\ List.length df = n_synthetic).
Proof.
  destruct (empty_result_handling iso_year)
    as (T1 & T2 & T3 & T4 & T5 & T6 & T7 & T8 & T9).
  assert (H1 : generate_bootstrap_synthetics iso_year (prepared [quake_small] 0)
               = Returned None
                   (say NoSyntheticEvents (prepared [quake_small] 0))).
  { apply (T1 (prepared [quake_small] 0) [quake_small]).
    - reflexivity.
    - repeat constructor; discriminate.
    - apply templates_of_none; simpl; lra. }
  assert (H3 : exists w2,
             generate_physics_snapshots
               (process (short_fault_files [quake_floor]) 0)
             = Returned None (say NoSyntheticEvents w2)
             /\ files w2
                = files (process (short_fault_files [quake_floor]) 0)).
  { apply (T3 (process (short_fault_files [quake_floor]) 0)
              [short_segment] [quake_floor] 1.15).
    - reflexivity.
    - reflexivity.
    - constructor; [discriminate | constructor].
    - reflexivity.
    - lra.
    - exact short_segment_too_short. }
  split; [exact H1|]. split.
  { destruct (draw_magnitudes_returns n_synthetics 1.15
                (process (unfaulted_files [quake_floor]) 0))
      as (ms & w1 & Hm & _).
    apply (T2 (process (unfaulted_files [quake_floor]) 0) w1 []
              [quake_floor] 1.15 ms).
    - reflexivity.
    - reflexivity.
    - constructor.
    - reflexivity.
    - exact Hm.
    - apply Forall_forall. intros m _. constructor. }
  split; [exact H3|]. split.
  { destruct H3 as (w2 & Hrun & Hf).
    exists (say NoSyntheticEvents w2). split; [exact Hrun|].
    exact (T4 _ _ Hrun). }
  split.
  { eexists. split; [exact H1|]. exact (T5 _ _ H1). }
  split.
  { apply (T6 (prepared [quake_airborne] 0) [quake_airborne]).
    - reflexivity.
    - repeat constructor; discriminate.
    - rewrite templates_of_one by (simpl; lra). discriminate.
    - apply airborne_all_removed. }
  split.
  { apply (T7 (prepared [quake_small] 0) [quake_small]); reflexivity. }
  split.
  { apply (T8 (process (pipeline_files [quake_small] [] [] []) 0)
              [quake_small] []).
    - reflexivity.
    - reflexivity.
    - reflexivity.
    - repeat constructor; discriminate. }
  destruct (simple_of_floor 0) as (df & w' & H & _).
  exists df, w'. split; [exact H | exact (T9 _ _ _ H)].
Defined.

(* ================================================================= *)
(** ** What a run depends on *)

Lemma det_ret {A} (a : A) : deterministic (ret a).
Proof. intros w1 w2 H. simpl. auto. Qed.

Lemma det_raise {A} (e : Exception) : deterministic (@raise A e).
Proof. intros w1 w2 H. simpl. auto. Qed.

Lemma det_bind {A B} (m : M A) (k : A -> M B) :
  deterministic m -> (forall a, deterministic (k a)) ->
  deterministic (bind m k).
Proof.
  intros Hm Hk w1 w2 H. unfold bind. specialize (Hm w1 w2 H).
  destruct (m w1) as [a1 w1'|e1 w1'], (m w2) as [a2 w2'|e2 w2'];
    simpl in Hm; try contradiction.
  - destruct Hm as [<- Hw]. apply Hk. exact Hw.
  - exact Hm.
Qed.

Lemma det_print (msg : Message) : deterministic (print msg).
Proof. intros w1 w2 (Hf & Hp & Hn). simpl. repeat split; auto. Qed.

Lemma det_read_file (path : string) : deterministic (read_file path).
Proof.
  intros w1 w2 H. pose proof H as (Hf & _). unfold read_file.
  rewrite <- (Hf path). destruct (files w1 path); simpl; auto.
Qed.

Lemma det_write_file (path : string) (c : FileContent) :
  deterministic (write_file path c).
Proof.
  intros w1 w2 (Hf & Hp & Hn). simpl. repeat split; auto.
  intros p. simpl. destruct (String.eqb p path); auto.
Qed.

Lemma same_draws_head {A} (g1 g2 : Generator A) :
  same_draws g1 g2 -> tape g1 (cursor g1) = tape g2 (cursor g2).
Proof. intros H. specialize (H 0%nat). rewrite !Nat.add_0_r in H. exact H. Qed.

Lemma same_draws_tail {A} (g1 g2 : Generator A) :
  same_draws g1 g2 ->
  same_draws (mkGenerator (tape g1) (S (cursor g1)))
             (mkGenerator (tape g2) (S (cursor g2))).
Proof.
  intros H n. simpl. specialize (H (S n)).
  rewrite !Nat.add_succ_r in H. exact H.
Qed.

Lemma det_next_word : deterministic next_word.
Proof.
  intros w1 w2 (Hf & Hp & Hn). simpl.
  split; [apply same_draws_head; assumption|].
  repeat split; auto. apply same_draws_tail. assumption.
Qed.

Lemma det_np_next : deterministic np_next.
Proof.
  intros w1 w2 (Hf & Hp & Hn). simpl.
  split; [apply same_draws_head; assumption|].
  repeat split; auto. apply same_draws_tail. assumption.
Qed.

Ltac det_step :=
  first
    [ apply det_ret
    | apply det_raise
    | apply det_print
    | apply det_read_file
    | apply det_write_file
    | apply det_next_word
    | apply det_np_next
    | assumption
    | apply det_bind; [|intros ?]
    | match goal with
      | |- deterministic (match ?x with _ => _ end) => destruct x
      | |- deterministic (if ?x then _ else _) => destruct x
      | |- deterministic (let '(_, _) := ?x in _) => destruct x
      end ].

Ltac det := repeat det_step.

Lemma det_random : deterministic random.
Proof. unfold random. det. Qed.

Lemma det_uniform (a b : R) : deterministic (uniform a b).
Proof. unfold uniform. det; try apply det_random. Qed.

Lemma det_randbelow (n : nat) : deterministic (randbelow n).
Proof. unfold randbelow. det. Qed.

Lemma det_randint (a b : Z) : deterministic (randint a b).
Proof. unfold randint. det; try apply det_randbelow. Qed.

Lemma det_choice {A} (seq : list A) : deterministic (choice seq).
Proof. unfold choice. det; try apply det_randbelow. Qed.

Lemma det_np_lognormal (mean sigma : R) :
  deterministic (np_lognormal mean sigma).
Proof. unfold np_lognormal. det. Qed.

Lemma det_sample_one {A} (population : list A) :
  deterministic (sample_one population).
Proof. unfold sample_one. det. Qed.

Lemma det_read_events (path : string) : deterministic (read_events path).
Proof. unfold read_events. det. Qed.

Lemma det_read_faults (path : string) : deterministic (read_faults path).
Proof. unfold read_faults. det. Qed.

Lemma det_to_csv (path : string) (df : Frame) : deterministic (to_csv path df).
Proof. unfold to_csv. det. Qed.

Lemma det_to_datetime (to_datetime_year : Timestamp -> option Z)
  (table : list Event) :
  deterministic (to_datetime to_datetime_year table).
Proof.
  induction table as [|e rest IH]; simpl; [apply det_ret|].
  fold (to_datetime to_datetime_year rest). det.
Qed.

Lemma det_sanity_checks (df : Frame) : deterministic (sanity_checks df).
Proof. unfold sanity_checks. det. Qed.

Lemma det_bootstrap_loop (template_events : Frame) :
  deterministic (bootstrap_loop template_events).
Proof.
  induction template_events as [|[label event] rest IH]; simpl; det;
    try apply det_uniform.
Qed.

Lemma det_generate_bootstrap (to_datetime_year : Timestamp -> option Z) :
  deterministic (generate_bootstrap_synthetics to_datetime_year).
Proof.
  unfold generate_bootstrap_synthetics.
  apply det_bind; [apply det_read_events | intros eq_data].
  apply det_bind; [apply det_to_datetime | intros _].
  apply det_bind; [apply det_bootstrap_loop | intros synthetic_events].
  destruct synthetic_events; det;
    try apply det_sanity_checks; try apply det_to_csv.
Qed.

Lemma det_draw_magnitudes (n : nat) (b_value : R) :
  deterministic (draw_magnitudes n b_value).
Proof. induction n as [|n IH]; simpl; det; try apply det_random. Qed.

Lemma det_find_suitable (fault_data : list FaultSegment) (L : R) :
  deterministic (find_suitable_segments fault_data L).
Proof.
  induction fault_data as [|seg rest IH]; simpl; det;
    try (unfold segment_can_host_rupture; det).
Qed.

Lemma det_physics_step (fault_data : list FaultSegment) (i : nat) (m : R) :
  deterministic (physics_step fault_data i m).
Proof.
  unfold physics_step.
  apply det_bind; [apply det_find_suitable | intros suitable].
  destruct suitable as [|seg0 rest]; [det|].
  apply det_bind; [apply det_choice | intros seg].
  apply det_bind; [apply det_np_lognormal | intros sv].
  apply det_bind; [apply det_uniform | intros u].
  apply det_bind; [apply det_uniform | intros depth].
  apply det_bind; [apply det_randint | intros k].
  destruct (nth_error (coordinates seg) (Z.to_nat k)) as [[lon lat]|]; [|det].
  apply det_bind; [apply det_uniform | intros dlon].
  apply det_bind; [apply det_uniform | intros dlat].
  apply det_ret.
Qed.

Lemma det_physics_loop (fault_data : list FaultSegment) (i : nat)
  (magnitudes : list R) :
  deterministic (physics_loop fault_data i magnitudes).
Proof.
  revert i. induction magnitudes as [|m rest IH]; intros i; simpl;
    [apply det_ret|].
  apply det_bind; [apply det_physics_step | intros made].
  apply det_bind; [apply IH | intros more]. apply det_ret.
Qed.

Lemma det_read_b_value : deterministic read_b_value.
Proof.
  intros w1 w2 H. pose proof H as (Hf & _). unfold read_b_value.
  rewrite <- (Hf b_value_txt).
  destruct (files w1 b_value_txt) as [[t|t|[b|]]|]; simpl; auto.
Qed.

Lemma det_generate_physics : deterministic generate_physics_snapshots.
Proof.
  unfold generate_physics_snapshots.
  apply det_bind; [apply det_read_faults | intros fault_data].
  apply det_bind; [apply det_read_events | intros eq_data].
  apply det_bind; [apply det_read_b_value | intros b_value].
  apply det_bind; [apply det_draw_magnitudes | intros magnitudes].
  apply det_bind; [apply det_physics_loop | intros synthetic_events].
  destruct synthetic_events; det;
    try apply det_sanity_checks; try apply det_to_csv.
Qed.

Lemma det_simple_step (templates : list Event) (i : nat) :
  deterministic (simple_step templates i).
Proof.
  unfold simple_step.
  apply det_bind; [apply det_sample_one | intros template].
  do 4 (apply det_bind; [apply det_uniform | intros ?]).
  do 6 (apply det_bind; [apply det_randint | intros ?]).
  apply det_ret.
Qed.

Lemma det_simple_loop (templates : list Event) (i n : nat) :
  deterministic (simple_loop templates i n).
Proof.
  revert i. induction n as [|n IH]; intros i; simpl; [apply det_ret|].
  apply det_bind; [apply det_simple_step | intros e].
  apply det_bind; [apply IH | intros more]. apply det_ret.
Qed.

Lemma det_generate_simple : deterministic generate_simple_synthetics.
Proof.
  unfold generate_simple_synthetics.
  apply det_bind; [apply det_read_events | intros all_data].
  apply det_bind; [apply det_simple_loop | intros synthetic_events].
  apply det_bind; [apply det_to_csv | intros _]. apply det_ret.
Qed.

(** C3 as stated fails. No script takes a seed or a random source: its
    inputs are its files, and its draws come from the generator hidden in
    Python's [random] module (and NumPy's).  Two runs of the bootstrap
    script on the same files, started on different states of that
    generator, return and write different event sets. *)
Lemma bootstrap_depends_on_hidden_generator :
  files (prepared [quake_floor] 0) = files (prepared [quake_floor] (2 ^ 52))
  /\ exists df1 w1 df2 w2,
       generate_bootstrap_synthetics iso_year (prepared [quake_floor] 0)
       = Returned (Some df1) w1
       /\ generate_bootstrap_synthetics iso_year
            (prepared [quake_floor] (2 ^ 52))
          = Returned (Some df2) w2
       /\ Forall (fun e => magnitude e = 6.5) (rows df1)
       /\ Forall (fun e => magnitude e = 6.9) (rows df2)
       /\ df1 <> df2
       /\ files w1 synthetic_bootstrap_csv <> files w2 synthetic_bootstrap_csv.
Proof.
  split; [reflexivity|].
  destruct (bootstrap_of_floor 0) as (w1 & H1 & F1).
  destruct (bootstrap_of_floor (2 ^ 52)) as (w2 & H2 & F2).
  assert (M1 : magnitude (bootstrap_synthetic quake_floor
                            (magnitude_increase_of 0)) = 6.5).
  { simpl. rewrite magnitude_increase_of_0. lra. }
  assert (M2 : magnitude (bootstrap_synthetic quake_floor
                            (magnitude_increase_of (2 ^ 52))) = 6.9).
  { change (magnitude quake_floor + magnitude_increase_of (2 ^ 52) = 6.9).
    rewrite magnitude_increase_of_half. simpl. lra. }
  revert H1 F1 H2 F2 M1 M2.
  generalize (bootstrap_synthetic quake_floor (magnitude_increase_of 0)).
  generalize (bootstrap_synthetic quake_floor
                (magnitude_increase_of (2 ^ 52))).
  intros e2 e1 H1 F1 H2 F2 M1 M2.
  exists [(0%nat, e1)], w1, [(0%nat, e2)], w2.
  split; [exact H1|]. split; [exact H2|].
  split; [repeat constructor; exact M1|].
  split; [repeat constructor; exact M2|].
  split.
  - intros Heq. assert (e1 = e2) by congruence. subst. lra.
  - rewrite F1, F2. intros Heq. assert (e1 = e2) by congruence. subst. lra.
Qed.

(** C3, amended. The outcome of each strategy is determined by the files
    it starts on and by the states of the two process-wide generators:
    two runs that start with the same files and with generators that
    will deliver the same draws return the same table (or raise the same
    exception) and leave the same files, whatever else differs. *)
Theorem strategies_determined_by_generator_state
  (to_datetime_year : Timestamp -> option Z) (w1 w2 : World) :
  same_world w1 w2 ->
  same_outcome (generate_bootstrap_synthetics to_datetime_year w1)
               (generate_bootstrap_synthetics to_datetime_year w2)
  /\ same_outcome (generate_physics_snapshots w1)
                  (generate_physics_snapshots w2)
  /\ same_outcome (generate_simple_synthetics w1)
                  (generate_simple_synthetics w2).
Proof.
  intros H. split; [|split].
  - apply det_generate_bootstrap. exact H.
  - apply det_generate_physics. exact H.
  - apply det_generate_simple. exact H.
Qed.

Lemma strategies_determined_by_generator_state_witness :
  same_outcome
    (generate_bootstrap_synthetics iso_year (prepared [quake_floor] 0))
    (generate_bootstrap_synthetics iso_year (prepared_later [quake_floor] 0))
  /\ same_outcome
       (generate_physics_snapshots (prepared [quake_floor] 0))
       (generate_physics_snapshots (prepared_later [quake_floor] 0))
  /\ same_outcome
       (generate_simple_synthetics (prepared [quake_floor] 0))
       (generate_simple_synthetics (prepared_later [quake_floor] 0)).
Proof.
  apply (strategies_determined_by_generator_state iso_year
           (prepared [quake_floor] 0) (prepared_later [quake_floor] 0)).
  split; [|split]; intros n; reflexivity.
Defined.

(* ================================================================= *)
(** * Further properties of the scripts *)

(** ** Cross-validation folds and magnitude bins *)

Ltac decide_leb :=
  repeat match goal with
         | |- context [(?a <=? ?b)%Z] =>
             first [ rewrite (proj2 (Z.leb_le a b)) by lia
                   | rewrite (proj2 (Z.leb_gt a b)) by lia ]
         end.

Lemma cv_fold_of_cases (year : Z) :
  cv_fold_of year
  = (if (year <? 2003)%Z then -1
     else if (year <=? 2005)%Z then 0
     else if (year <=? 2008)%Z then 1
     else if (year <=? 2011)%Z then 2
     else if (year <=? 2014)%Z then 3
     else if (year <=? 2017)%Z then 4
     else if (year <=? 2020)%Z then 5
     else if (year <=? 2025)%Z then 6
     else -1)%Z.
Proof.
  unfold cv_fold_of, fold_years.
  cbn [enumerate_from fold_left].
  assert (H : (year < 2003 \/ 2003 <= year <= 2005 \/ 2006 <= year <= 2008
               \/ 2009 <= year <= 2011 \/ 2012 <= year <= 2014
               \/ 2015 <= year <= 2017 \/ 2018 <= year <= 2020
               \/ 2021 <= year <= 2025 \/ 2025 < year)%Z) by lia.
  destruct (Z.ltb_spec year 2003);
    repeat match goal with
           | |- context [(year <=? ?b)%Z] => destruct (Z.leb_spec year b)
           end; try lia; decide_leb; reflexivity.
Qed.

(** X1. The fold of a year is the position of the period of
    [fold_years] that contains it, and -1 when no period does: folds lie
    in -1..6, the fold is -1 exactly for years before 2003 or after
    2025, and for each entry [(start, end)] at position [k] the fold is
    [k] exactly when [start <= year <= end]. *)
Theorem cv_fold_of_period (year : Z) :
  (-1 <= cv_fold_of year <= 6)%Z
  /\ (cv_fold_of year = (-1)%Z <-> (year < 2003 \/ 2025 < year)%Z)
  /\ Forall (fun entry =>
               cv_fold_of year = fst entry
               <-> (fst (snd entry) <= year <= snd (snd entry))%Z)
            (enumerate_from 0 fold_years).
Proof.
  rewrite cv_fold_of_cases. unfold fold_years.
  cbn [enumerate_from Z.add Pos.add Pos.succ].
  destruct (Z.ltb_spec year 2003);
    repeat match goal with
           | |- context [(year <=? ?b)%Z] => destruct (Z.leb_spec year b)
           end;
    (split; [lia|]); (split; [lia|]);
    repeat (apply Forall_cons; [cbn [fst snd]; lia|]); apply Forall_nil.
Qed.
(** X2. [pd.cut] over [mag_bins] puts a magnitude [x] in the bin
    [(lo, lo + 1]] with [lo < x <= lo + 1], [lo] one of 3..7, and in no
    bin exactly when [x <= 3] or [x > 8]: a magnitude of exactly 3.0 is
    left out of the summary, and so is a bootstrap magnitude above 8. *)
Theorem cut_mag_bins (x : R) :
  (cut mag_bins x = None <-> x <= 3 \/ 8 < x)
  /\ forall lo hi,
       cut mag_bins x = Some (lo, hi) <->
       (lo < x <= hi /\ hi = lo + 1 /\ In lo [3; 4; 5; 6; 7]).
Proof.
  unfold cut, mag_bins, Rltb, Rleb.
  repeat match goal with
         | |- context [Rlt_dec ?a ?b] => destruct (Rlt_dec a b)
         | |- context [Rle_dec ?a ?b] => destruct (Rle_dec a b)
         end; simpl; try lra;
    (split; [split; [try discriminate; intros; lra
                    | intros; try reflexivity; exfalso; lra]|]);
    intros lo hi; (split; [intros [= <- <-]; repeat split; try lra; tauto|]);
    intros (Hx & -> & Hin);
    repeat (destruct Hin as [<-|Hin]; [try (exfalso; lra); try (f_equal; f_equal; lra)|]);
    try contradiction; try discriminate.
Qed.

(** ** Great-circle distance and trace length *)

Lemma asin_nonneg (y : R) : 0 <= y -> 0 <= asin y.
Proof.
  intros Hy. pose proof PI_RGT_0.
  destruct (Rle_dec 1 y) as [H1|H1].
  - unfold asin. destruct (Rle_dec y (-1)); [lra|].
    destruct (Rle_dec 1 y); [lra | contradiction].
  - rewrite asin_atan by lra.
    assert (Hs : 0 < sqrt (1 - y²)).
    { apply sqrt_lt_R0. unfold Rsqr. nra. }
    assert (Hq : 0 <= y / sqrt (1 - y²)).
    { apply Rmult_le_pos; [assumption|]. left. apply Rinv_0_lt_compat.
      assumption. }
    destruct Hq as [Hq|Hq].
    + left. rewrite <- atan_0. apply atan_increasing. assumption.
    + rewrite <- Hq. rewrite atan_0. lra.
Qed.

Lemma asin_ge_arg (y : R) : 0 <= y <= 1 -> y <= asin y.
Proof.
  intros Hy. pose proof (asin_nonneg y ltac:(lra)) as Ht.
  pose proof (sin_asin y ltac:(lra)) as Hsin.
  destruct Ht as [Ht|Ht].
  - pose proof (sin_lt_x (asin y) Ht). lra.
  - rewrite <- Ht in Hsin. rewrite sin_0 in Hsin. lra.
Qed.

Lemma haversine_km_same (p : R * R) : haversine_km p p = 0.
Proof.
  unfold haversine_km.
  replace ((radians (snd p) - radians (snd p)) / 2) with 0 by lra.
  replace ((radians (fst p) - radians (fst p)) / 2) with 0 by lra.
  rewrite sin_0.
  replace (0 ^ 2 + cos (radians (snd p)) * cos (radians (snd p)) * 0 ^ 2)
    with 0 by (simpl; ring).
  rewrite sqrt_0, asin_0. ring.
Qed.

Lemma sin_sq_swap (a b : R) : sin ((a - b) / 2) ^ 2 = sin ((b - a) / 2) ^ 2.
Proof.
  replace ((a - b) / 2) with (- ((b - a) / 2)) by lra.
  rewrite sin_neg. simpl. ring.
Qed.

Lemma haversine_km_sym (p q : R * R) : haversine_km p q = haversine_km q p.
Proof.
  unfold haversine_km.
  rewrite (sin_sq_swap (radians (snd q)) (radians (snd p))).
  rewrite (sin_sq_swap (radians (fst q)) (radians (fst p))).
  rewrite (Rmult_comm (cos (radians (snd p))) (cos (radians (snd q)))).
  reflexivity.
Qed.

Lemma haversine_km_nonneg (p q : R * R) : 0 <= haversine_km p q.
Proof.
  unfold haversine_km.
  match goal with
  | |- 0 <= 2 * asin (sqrt ?a) * 6371 =>
      pose proof (asin_nonneg (sqrt a) (sqrt_pos a))
  end.
  nra.
Qed.

(** X3. The distance between two vertices is the same in both
    directions, zero between a vertex and itself, and never negative. *)
Theorem haversine_km_metric (p q : R * R) :
  haversine_km p p = 0
  /\ haversine_km p q = haversine_km q p
  /\ 0 <= haversine_km p q.
Proof.
  split; [apply haversine_km_same|].
  split; [apply haversine_km_sym | apply haversine_km_nonneg].
Qed.

Lemma segment_length_nonneg (coords : list (R * R)) :
  0 <= segment_length coords.
Proof.
  induction coords as [|p rest IH]; simpl; [lra|].
  destruct rest as [|q rest']; [lra|].
  pose proof (haversine_km_nonneg p q). lra.
Qed.

Lemma segment_length_snoc (l : list (R * R)) (p q : R * R) :
  segment_length ((l ++ [p]) ++ [q])
  = segment_length (l ++ [p]) + haversine_km p q.
Proof.
  induction l as [|a l IH].
  - simpl. lra.
  - change (((a :: l) ++ [p]) ++ [q]) with (a :: ((l ++ [p]) ++ [q])).
    change ((a :: l) ++ [p]) with (a :: (l ++ [p])).
    destruct l as [|b l'].
    + simpl. lra.
    + change (((b :: l') ++ [p]) ++ [q]) with (b :: ((l' ++ [p]) ++ [q])) in *.
      change ((b :: l') ++ [p]) with (b :: (l' ++ [p])) in *.
      change (segment_length (a :: b :: (l' ++ [p]) ++ [q]))
        with (haversine_km a b + segment_length (b :: (l' ++ [p]) ++ [q])).
      change (segment_length (a :: b :: l' ++ [p]))
        with (haversine_km a b + segment_length (b :: l' ++ [p])).
      rewrite IH. lra.
Qed.

Lemma segment_length_rev (coords : list (R * R)) :
  segment_length (rev coords) = segment_length coords.
Proof.
  induction coords as [|p rest IH]; [reflexivity|].
  destruct rest as [|q rest'].
  - reflexivity.
  - change (rev (p :: q :: rest')) with ((rev rest' ++ [q]) ++ [p]).
    rewrite segment_length_snoc.
    change (rev rest' ++ [q]) with (rev (q :: rest')).
    rewrite IH.
    change (segment_length (p :: q :: rest'))
      with (haversine_km p q + segment_length (q :: rest')).
    rewrite (haversine_km_sym q p). lra.
Qed.

Lemma pow10_lt (x y : R) : x < y -> pow10 x < pow10 y.
Proof. intros. unfold pow10. apply Rpower_lt; lra. Qed.

Lemma pow10_plus (x y : R) : pow10 (x + y) = pow10 x * pow10 y.
Proof. unfold pow10. apply Rpower_plus. Qed.

Lemma pow10_le_inv (x y : R) : pow10 x <= pow10 y -> x <= y.
Proof.
  intros H. destruct (Rle_dec x y) as [Hle|Hnle]; [assumption|].
  pose proof (pow10_lt y x ltac:(lra)). lra.
Qed.

Lemma log10_pow10 (x : R) : log10 (pow10 x) = x.
Proof.
  unfold log10, pow10. rewrite ln_Rpower.
  pose proof ln10_pos. field. lra.
Qed.

Lemma pow10_log10 (x : R) : 0 < x -> pow10 (log10 x) = x.
Proof.
  intros Hx. unfold log10, pow10, Rpower.
  pose proof ln10_pos.
  replace (ln x / ln 10 * ln 10) with (ln x) by (field; lra).
  apply exp_ln. assumption.
Qed.

Lemma rupture_area_pos (m : R) : 0 < rupture_area_of m.
Proof. apply pow10_pos. Qed.

Lemma rupture_length_pos (m : R) : 0 < rupture_length_of m.
Proof.
  unfold rupture_length_of. apply sqrt_lt_R0.
  pose proof (rupture_area_pos m). lra.
Qed.

Lemma rupture_length_increasing (m m' : R) :
  m < m' -> rupture_length_of m < rupture_length_of m'.
Proof.
  intros H. unfold rupture_length_of, rupture_area_of.
  pose proof (pow10_pos (m - 4.0)).
  pose proof (pow10_lt (m - 4.0) (m' - 4.0) ltac:(lra)).
  apply sqrt_lt_1; lra.
Qed.

(** X4. On a trace that parses, [segment_can_host_rupture] answers
    without touching the world; the answer is true exactly when the
    rupture is no longer than the trace, stays true for every shorter
    rupture, is the same for the trace listed in the opposite direction,
    and is false for any positive length on a trace of a single
    vertex. *)
Theorem segment_can_host_rupture_geometry (segment : FaultSegment) (L : R)
  (w : World) :
  coordinates segment <> [] ->
  exists ok,
    segment_can_host_rupture segment L w = Returned ok w
    /\ (ok = true <-> L <= segment_length (coordinates segment))
    /\ (forall L', L' <= L -> ok = true ->
                   segment_can_host_rupture segment L' w = Returned true w)
    /\ (forall segment',
           coordinates segment' = rev (coordinates segment) ->
           segment_can_host_rupture segment' L w = Returned ok w)
    /\ (List.length (coordinates segment) = 1%nat -> 0 < L -> ok = false).
Proof.
  intros Hne.
  exists (Rleb L (segment_length (coordinates segment))).
  assert (Hrun : forall s l,
             coordinates s <> [] ->
             segment_can_host_rupture s l w
             = Returned (Rleb l (segment_length (coordinates s))) w).
  { intros s l Hs. unfold segment_can_host_rupture.
    destruct (coordinates s); [congruence | reflexivity]. }
  split; [apply Hrun; assumption|].
  split; [apply Rleb_true|].
  split; [|split].
  - intros L' HL Hok. rewrite Hrun by assumption. f_equal.
    apply Rleb_true. apply Rleb_true in Hok. lra.
  - intros segment' Hrev. rewrite Hrun.
    + rewrite Hrev, segment_length_rev. reflexivity.
    + rewrite Hrev. intros Hnil. apply Hne.
      rewrite <- (rev_involutive (coordinates segment)), Hnil. reflexivity.
  - intros Hone HL. apply Rleb_false.
    destruct (coordinates segment) as [|p [|q rest]]; simpl in *;
      try discriminate; lra.
Qed.

Lemma segment_can_host_rupture_geometry_witness :
  exists ok,
    segment_can_host_rupture meridian_segment 50 (prepared [] 0)
    = Returned ok (prepared [] 0)
    /\ (ok = true <-> 50 <= segment_length (coordinates meridian_segment)).
Proof.
  destruct (segment_can_host_rupture_geometry meridian_segment 50
              (prepared [] 0) ltac:(discriminate))
    as (ok & Hrun & Hiff & _).
  exists ok. split; assumption.
Defined.

(** X5. Under the area law of the physics and simple strategies the
    rupture area is [10^(M - 4)] (its decimal logarithm is [M - 4]), the
    length times the width gives back the area, and the length grows
    strictly with the magnitude. *)
Theorem area_law_dimensions (m : R) :
  log10 (rupture_area_of m) = m - 4
  /\ rupture_length_of m * (rupture_length_of m / 2) = rupture_area_of m
  /\ 0 < rupture_length_of m
  /\ forall m', m < m' -> rupture_length_of m < rupture_length_of m'.
Proof.
  split; [unfold rupture_area_of; rewrite log10_pow10; lra|].
  split.
  - unfold rupture_length_of. pose proof (rupture_area_pos m).
    replace (sqrt (rupture_area_of m * 2) * (sqrt (rupture_area_of m * 2) / 2))
      with (sqrt (rupture_area_of m * 2) * sqrt (rupture_area_of m * 2) / 2)
      by lra.
    rewrite sqrt_sqrt by lra. lra.
  - split; [apply rupture_length_pos|].
    intros m'. apply rupture_length_increasing.
Qed.

Lemma area_law_dimensions_witness :
  rupture_length_of 6.5 < rupture_length_of 7.3.
Proof.
  apply (proj2 (proj2 (proj2 (area_law_dimensions 6.5))) 7.3). lra.
Defined.

(** ** Wells-Coppersmith lengths and the 200 km check *)

Lemma pow10_pow (x : R) (n : nat) : pow10 x ^ n = pow10 (INR n * x).
Proof.
  induction n as [|n IH].
  - simpl. replace (0 * x) with 0 by ring. unfold pow10.
    rewrite Rpower_O; lra.
  - rewrite S_INR. replace ((INR n + 1) * x) with (x + INR n * x) by ring.
    rewrite pow10_plus, <- IH. simpl. ring.
Qed.

Lemma pow10_028_lt_2 : pow10 0.28 < 2.
Proof.
  destruct (Rlt_dec (pow10 0.28) 2) as [H|H]; [assumption|].
  exfalso.
  assert (Hle : 2 ^ 25 <= pow10 0.28 ^ 25) by (apply pow_incr; lra).
  rewrite pow10_pow in Hle.
  replace (INR 25 * 0.28) with (INR 7) in Hle by (simpl; lra).
  rewrite pow10_nat in Hle. simpl in Hle. lra.
Qed.

Lemma pow10_third_gt_2 : 2 < pow10 (1 / 3).
Proof.
  destruct (Rlt_dec 2 (pow10 (1 / 3))) as [H|H]; [assumption|].
  exfalso. pose proof (pow10_pos (1 / 3)).
  assert (Hle : pow10 (1 / 3) ^ 3 <= 2 ^ 3) by (apply pow_incr; lra).
  rewrite pow10_pow in Hle.
  replace (INR 3 * (1 / 3)) with (INR 1) in Hle by (simpl; lra).
  rewrite pow10_nat in Hle. simpl in Hle. lra.
Qed.

Lemma log10_200_bounds : 2.28 < log10 200 < 2.339.
Proof.
  split.
  - apply Rnot_le_lt. intros H. apply pow10_le in H.
    rewrite pow10_log10 in H by lra.
    replace 2.28 with (2 + 0.28) in H by lra.
    rewrite pow10_plus, pow10_2 in H.
    pose proof pow10_028_lt_2. lra.
  - apply Rnot_le_lt. intros H. apply pow10_le in H.
    rewrite pow10_log10 in H by lra.
    replace 2.339 with (2 + 0.339) in H by lra.
    rewrite pow10_plus, pow10_2 in H.
    pose proof pow10_third_gt_2.
    pose proof (pow10_le (1 / 3) 0.339 ltac:(lra)). lra.
Qed.

Lemma wells_coppersmith_over_200 (m : R) :
  200 < pow10 (-2.44 + 0.59 * m) <-> (log10 200 + 2.44) / 0.59 < m.
Proof.
  rewrite <- (pow10_log10 200) at 1 by lra. split.
  - intros H. apply Rnot_le_lt. intros Hle.
    assert (-2.44 + 0.59 * m <= log10 200) by lra.
    pose proof (pow10_le _ _ H0). lra.
  - intros H. apply pow10_lt. lra.
Qed.

(** X6. The sanity check removes a bootstrap event exactly when its
    template has a negative depth or its scaled magnitude exceeds
    [(log10(200) + 2.44) / 0.59], a limit between 8.0 and 8.1.  Hence no
    draw can cost a template of non-negative depth and magnitude at most
    5.7 its event, while a magnitude 5.9 template with the draw
    [dM = 2.2] loses it. *)
Theorem bootstrap_length_check :
  (forall event dM,
      unphysical (bootstrap_synthetic event dM) = true
      <-> depth_km event < 0
          \/ (log10 200 + 2.44) / 0.59 < magnitude event + dM)
  /\ 8 < (log10 200 + 2.44) / 0.59 < 8.1
  /\ (forall event bits,
         0 <= depth_km event -> magnitude event <= 5.7 ->
         unphysical (bootstrap_synthetic event (magnitude_increase_of bits))
         = false)
  /\ unphysical (bootstrap_synthetic quake_strong 2.2) = true.
Proof.
  assert (Hiff : forall event dM,
             unphysical (bootstrap_synthetic event dM) = true
             <-> depth_km event < 0
                 \/ (log10 200 + 2.44) / 0.59 < magnitude event + dM).
  { intros event dM. unfold unphysical. simpl.
    rewrite orb_true_iff, !Rltb_true, wells_coppersmith_over_200.
    reflexivity. }
  assert (Hlim : 8 < (log10 200 + 2.44) / 0.59 < 8.1).
  { pose proof log10_200_bounds as [Hlo Hhi]. split.
    - apply Rmult_lt_reg_r with 0.59; [lra|].
      unfold Rdiv. rewrite Rmult_assoc, Rinv_l by lra. lra.
    - apply Rmult_lt_reg_r with 0.59; [lra|].
      unfold Rdiv. rewrite Rmult_assoc, Rinv_l by lra. lra. }
  split; [exact Hiff|]. split; [exact Hlim|]. split.
  - intros event bits Hd Hm.
    destruct (unphysical (bootstrap_synthetic event
                            (magnitude_increase_of bits))) eqn:E;
      [|reflexivity].
    apply Hiff in E. pose proof (unit_float_range bits).
    unfold magnitude_increase_of in E. destruct E as [E|E]; [lra | nra].
  - apply Hiff. right. simpl. lra.
Qed.

Lemma bootstrap_length_check_witness :
  unphysical (bootstrap_synthetic quake_floor (magnitude_increase_of 0))
  = false.
Proof.
  apply (proj1 (proj2 (proj2 bootstrap_length_check)) quake_floor 0%Z);
    simpl; lra.
Defined.

(** ** Slip of the physics events *)



(** ** The magnitude sampler as a function of the draw *)

Lemma log10_le (x y : R) : 0 < x -> x <= y -> log10 x <= log10 y.
Proof.
  intros Hx [Hlt|<-]; [|lra]. unfold log10. pose proof ln10_pos.
  pose proof (ln_increasing x y Hx Hlt).
  apply Rmult_le_compat_r; [|lra]. left. apply Rinv_0_lt_compat. assumption.
Qed.

Lemma div_le_pos (x y b : R) : 0 < b -> x <= y -> x / b <= y / b.
Proof.
  intros Hb H. apply Rmult_le_compat_r; [|assumption].
  left. apply Rinv_0_lt_compat. assumption.
Qed.

(** X8. For a positive b-value the sampled magnitude is a
    non-decreasing function of the draw [u]: it is the floor 6.5 at
    [u = 0], and it is the cap 7.3 exactly for the draws
    [u >= 1 - 10^(-0.8 b)], so the cap is a clamp that collects all the
    probability of the tail beyond 7.3. *)
Theorem sample_magnitude_shape (b_value : R) :
  0 < b_value ->
  sample_magnitude b_value 0 = 6.5
  /\ (forall u1 u2, 0 <= u1 <= u2 -> u2 < 1 ->
        sample_magnitude b_value u1 <= sample_magnitude b_value u2)
  /\ (forall u, 0 <= u < 1 ->
        (sample_magnitude b_value u = 7.3
         <-> 1 - pow10 (-0.8 * b_value) <= u)).
Proof.
  intros Hb. split; [|split].
  - unfold sample_magnitude. replace (1 - 0) with 1 by lra.
    unfold log10. rewrite ln_1.
    replace (6.5 - 0 / ln 10 / b_value) with 6.5 by (unfold Rdiv; ring).
    apply Rmin_left. lra.
  - intros u1 u2 H1 H2. unfold sample_magnitude.
    apply Rle_min_compat_r.
    pose proof (log10_le (1 - u2) (1 - u1) ltac:(lra) ltac:(lra)) as Hl.
    pose proof (div_le_pos _ _ b_value Hb Hl). lra.
  - intros u Hu. unfold sample_magnitude.
    assert (Hcap : Rmin (6.5 - log10 (1 - u) / b_value) 7.3 = 7.3
                   <-> 7.3 <= 6.5 - log10 (1 - u) / b_value).
    { split.
      - intros H. rewrite <- H at 1. apply Rmin_l.
      - intros H. apply Rmin_right. exact H. }
    rewrite Hcap.
    assert (Hdiv : log10 (1 - u) / b_value * b_value = log10 (1 - u))
      by (field; lra).
    split.
    + intros H.
      assert (Hlog : log10 (1 - u) <= -0.8 * b_value) by nra.
      assert (Hp : pow10 (log10 (1 - u)) <= pow10 (-0.8 * b_value))
        by (apply pow10_le; exact Hlog).
      rewrite pow10_log10 in Hp by lra. lra.
    + intros H.
      assert (Hp : 1 - u <= pow10 (-0.8 * b_value)) by lra.
      rewrite <- (pow10_log10 (1 - u)) in Hp by lra.
      apply pow10_le_inv in Hp. nra.
Qed.

Lemma sample_magnitude_shape_witness :
  sample_magnitude 1.15 0 = 6.5
  /\ sample_magnitude 1.15 0.25 <= sample_magnitude 1.15 0.5.
Proof.
  destruct (sample_magnitude_shape 1.15 ltac:(lra)) as (H0 & Hmono & _).
  split; [exact H0|]. apply Hmono; lra.
Defined.

(** ** More on the b-value estimator *)

Lemma estimate_b_value_by_counts (magnitudes : list R) (m_min : R) :
  estimate_b_value magnitudes m_min
  = if (count_at_least m_min magnitudes <? 2)%nat then None
    else Some (spec_b m_min magnitudes, spec_uncertainty m_min magnitudes).
Proof.
  unfold estimate_b_value, spec_uncertainty, spec_b, spec_mean, mean.
  rewrite length_filter_at_least, sum_filter_at_least. reflexivity.
Qed.

Lemma log10_e_pos : 0 < log10 (exp 1).
Proof.
  unfold log10. rewrite ln_exp. pose proof ln10_pos.
  apply Rdiv_lt_0_compat; lra.
Qed.

Lemma sum_at_least_lower (m_min : R) (magnitudes : list R) :
  INR (count_at_least m_min magnitudes) * m_min
  <= sum_at_least m_min magnitudes.
Proof.
  induction magnitudes as [|m rest IH]; simpl; [lra|].
  destruct (Rle_dec m_min m); [|exact IH].
  rewrite S_INR. lra.
Qed.

Lemma sum_at_least_strict (m_min : R) (magnitudes : list R) :
  Exists (fun m => m_min < m) magnitudes ->
  INR (count_at_least m_min magnitudes) * m_min
  < sum_at_least m_min magnitudes.
Proof.
  induction magnitudes as [|m rest IH]; intros H; [inversion H|].
  simpl. pose proof (sum_at_least_lower m_min rest) as Hlow.
  inversion H as [? ? Hm|? ? Hrest]; subst.
  - destruct (Rle_dec m_min m); [|lra]. rewrite S_INR. lra.
  - specialize (IH Hrest).
    destruct (Rle_dec m_min m); [|exact IH]. rewrite S_INR. lra.
Qed.

(** X9. When at least two magnitudes reach [m_min] and one of them
    exceeds it, the estimator returns a positive b-value with a positive
    uncertainty. *)
Theorem estimate_b_value_positive (magnitudes : list R) (m_min : R) :
  (2 <= count_at_least m_min magnitudes)%nat ->
  Exists (fun m => m_min < m) magnitudes ->
  exists b_value uncertainty,
    estimate_b_value magnitudes m_min = Some (b_value, uncertainty)
    /\ 0 < b_value /\ 0 < uncertainty.
Proof.
  intros Hn Hex. rewrite estimate_b_value_by_counts.
  destruct (Nat.ltb_spec (count_at_least m_min magnitudes) 2); [lia|].
  eexists _, _. split; [reflexivity|].
  assert (Hc : 0 < INR (count_at_least m_min magnitudes))
    by (apply lt_0_INR; lia).
  assert (Hmean : 0 < spec_mean m_min magnitudes - m_min).
  { unfold spec_mean. pose proof (sum_at_least_strict m_min magnitudes Hex).
    apply Rmult_lt_reg_r with (INR (count_at_least m_min magnitudes));
      [assumption|].
    replace ((sum_at_least m_min magnitudes
              / INR (count_at_least m_min magnitudes) - m_min)
             * INR (count_at_least m_min magnitudes))
      with (sum_at_least m_min magnitudes
            - INR (count_at_least m_min magnitudes) * m_min)
      by (field; lra).
    lra. }
  assert (Hb : 0 < spec_b m_min magnitudes).
  { unfold spec_b. apply Rdiv_lt_0_compat; [apply log10_e_pos | assumption]. }
  split; [assumption|]. unfold spec_uncertainty.
  apply Rdiv_lt_0_compat; [lra|]. apply sqrt_lt_R0. assumption.
Qed.

Lemma estimate_b_value_positive_witness :
  exists b_value uncertainty,
    estimate_b_value spec_example_magnitudes 3.0 = Some (b_value, uncertainty)
    /\ 0 < b_value /\ 0 < uncertainty.
Proof.
  apply (estimate_b_value_positive spec_example_magnitudes 3.0).
  - rewrite spec_example_count. lia.
  - unfold spec_example_magnitudes. apply Exists_cons_tl, Exists_cons_hd. lra.
Defined.

Lemma count_sum_filter (m_min : R) (magnitudes : list R) :
  count_at_least m_min magnitudes
  = List.length (filter (fun m => Rleb m_min m) magnitudes)
  /\ sum_at_least m_min magnitudes
     = fold_right Rplus 0 (filter (fun m => Rleb m_min m) magnitudes).
Proof.
  rewrite length_filter_at_least, sum_filter_at_least. split; reflexivity.
Qed.

Lemma fold_right_Rplus_perm (l l' : list R) :
  Permutation l l' -> fold_right Rplus 0 l = fold_right Rplus 0 l'.
Proof.
  induction 1; simpl; lra.
Qed.

Lemma count_at_least_shift (c m_min : R) (magnitudes : list R) :
  count_at_least (m_min + c) (map (fun m => m + c) magnitudes)
  = count_at_least m_min magnitudes.
Proof.
  induction magnitudes as [|m rest IH]; simpl; [reflexivity|].
  destruct (Rle_dec (m_min + c) (m + c)), (Rle_dec m_min m);
    try lra; congruence.
Qed.

Lemma sum_at_least_shift (c m_min : R) (magnitudes : list R) :
  sum_at_least (m_min + c) (map (fun m => m + c) magnitudes)
  = sum_at_least m_min magnitudes
    + INR (count_at_least m_min magnitudes) * c.
Proof.
  induction magnitudes as [|m rest IH]; simpl; [lra|].
  destruct (Rle_dec (m_min + c) (m + c)), (Rle_dec m_min m); try lra.
  rewrite IH, S_INR. lra.
Qed.

(** X10. The estimate depends only on the magnitudes at or above
    [m_min], not on their order nor on the smaller ones; and it is
    unchanged when every magnitude and [m_min] are shifted by the same
    amount. *)
Theorem estimate_b_value_invariance (m_min : R) :
  (forall magnitudes magnitudes',
      Permutation (filter (fun m => Rleb m_min m) magnitudes)
                  (filter (fun m => Rleb m_min m) magnitudes') ->
      estimate_b_value magnitudes m_min = estimate_b_value magnitudes' m_min)
  /\ (forall magnitudes c,
         estimate_b_value (map (fun m => m + c) magnitudes) (m_min + c)
         = estimate_b_value magnitudes m_min).
Proof.
  split.
  - intros l l' Hperm. rewrite !estimate_b_value_by_counts.
    unfold spec_uncertainty, spec_b, spec_mean.
    destruct (count_sum_filter m_min l) as [-> ->].
    destruct (count_sum_filter m_min l') as [-> ->].
    rewrite (Permutation_length Hperm), (fold_right_Rplus_perm _ _ Hperm).
    reflexivity.
  - intros l c. rewrite !estimate_b_value_by_counts.
    unfold spec_uncertainty, spec_b, spec_mean.
    rewrite count_at_least_shift, sum_at_least_shift.
    destruct (Nat.ltb_spec (count_at_least m_min l) 2); [reflexivity|].
    assert (Hc : 0 < INR (count_at_least m_min l)) by (apply lt_0_INR; lia).
    replace ((sum_at_least m_min l + INR (count_at_least m_min l) * c)
             / INR (count_at_least m_min l) - (m_min + c))
      with (sum_at_least m_min l / INR (count_at_least m_min l) - m_min)
      by (field; lra).
    reflexivity.
Qed.

Lemma estimate_b_value_invariance_witness :
  estimate_b_value [2.0; 4.5; 3.6] 3.0 = estimate_b_value [3.6; 4.5] 3.0.
Proof.
  apply (proj1 (estimate_b_value_invariance 3.0)).
  simpl. unfold Rleb.
  repeat match goal with
         | |- context [Rle_dec ?a ?b] =>
             destruct (Rle_dec a b); try (exfalso; lra)
         end.
  apply perm_swap.
Defined.

(** ** What the sanity checks keep, remove and print *)

Lemma filter_partition_length {A} (f : A -> bool) (l : list A) :
  (List.length (filter f l) + List.length (filter (fun x => negb (f x)) l)
   = List.length l)%nat.
Proof.
  induction l as [|x l IH]; simpl; [reflexivity|].
  destruct (f x); simpl; lia.
Qed.

Lemma valid_rows_NoDup (df : Frame) :
  NoDup (map fst df) -> NoDup (map fst (valid_rows df)).
Proof. apply NoDup_map_fst_filter. Qed.

Lemma valid_rows_clean (df : Frame) :
  Forall (fun e => unphysical e = false) (rows (valid_rows df)).
Proof.
  unfold rows, valid_rows. apply Forall_map. apply Forall_forall.
  intros r Hr. apply filter_In in Hr. destruct Hr as [_ Hr].
  destruct (unphysical (snd r)); [discriminate | reflexivity].
Qed.

(** X11. On a table with unique index labels the sanity checks return
    the rows that are not unphysical, in their order and with nothing
    else; they print one warning whose count is the number of rows
    removed, and nothing when no row is removed; they leave the files
    alone; and run again on their own result they change nothing and
    print nothing. *)
Theorem sanity_checks_accounting (df : Frame) (w : World) :
  NoDup (map fst df) ->
  exists out w',
    sanity_checks df w = Returned out w'
    /\ out = filter (fun r => negb (unphysical (snd r))) df
    /\ (forall r, In r out <-> In r df /\ unphysical (snd r) = false)
    /\ stdout w'
       = stdout w
           ++ (if (List.length df - List.length out =? 0)%nat then []
               else [WarnUnphysical (List.length df - List.length out)])
    /\ files w' = files w
    /\ sanity_checks out w' = Returned out w'.
Proof.
  intros Hnd. exists (valid_rows df), (sanity_report df w).
  split; [apply sanity_checks_run; assumption|].
  split; [reflexivity|]. split.
  { intros r. unfold valid_rows. rewrite filter_In.
    destruct (unphysical (snd r)); simpl; intuition congruence. }
  assert (Hlen : (List.length df - List.length (valid_rows df)
                  = List.length (filter (fun r => unphysical (snd r)) df))%nat).
  { pose proof (filter_partition_length (fun r => unphysical (snd r)) df).
    unfold valid_rows. lia. }
  rewrite Hlen. split; [|split].
  - unfold sanity_report.
    destruct (filter (fun r => unphysical (snd r)) df) as [|x inv];
      simpl; [rewrite app_nil_r|]; reflexivity.
  - unfold sanity_report.
    destruct (filter (fun r => unphysical (snd r)) df); reflexivity.
  - rewrite sanity_checks_run by (apply valid_rows_NoDup; assumption).
    rewrite (valid_rows_all _ (valid_rows_clean df)).
    rewrite (sanity_report_clean _ _ (valid_rows_clean df)). reflexivity.
Qed.

Lemma sanity_checks_accounting_witness :
  exists out w',
    sanity_checks [(0%nat, quake_airborne); (1%nat, quake_floor)]
                  (prepared [] 0)
    = Returned out w'
    /\ files w' = files (prepared [] 0).
Proof.
  destruct (sanity_checks_accounting
              [(0%nat, quake_airborne); (1%nat, quake_floor)] (prepared [] 0))
    as (out & w' & Hrun & _ & _ & _ & Hf & _).
  - repeat constructor; simpl; intuition discriminate.
  - exists out, w'. split; assumption.
Defined.

(** ** Where the physics strategy puts its events *)

Lemma physics_step_placed (fault_data : list FaultSegment) (i : nat)
  (magnitude : R) (w w' : World) (made : option Event) :
  physics_step fault_data i magnitude w = Returned made w' ->
  files w' = files w
  /\ Forall (fun s => coordinates s <> []) fault_data
  /\ match made with
     | Some e => physics_placed fault_data i magnitude e
                 /\ stdout w' = stdout w
     | None => stdout w'
               = stdout w
                   ++ [WarnNoSegment magnitude (rupture_length_of magnitude)]
               /\ filter (hosts magnitude) fault_data = []
     end.
Proof.
  unfold physics_step. intros H.
  apply bind_returned_inv in H. destruct H as (suitable & w1 & Hs & H).
  apply find_suitable_inv in Hs. destruct Hs as (-> & Hs & Hall).
  fold (hosts magnitude) in Hs.
  destruct suitable as [|seg0 suitable'].
  - rewrite bind_print in H. inversion H; subst.
    split; [reflexivity|]. split; [assumption|].
    split; [reflexivity | symmetry; assumption].
  - match type of H with
    | bind (choice ?l) ?k ?w = _ =>
        destruct (bind_choice l k w ltac:(discriminate)) as (seg & Hin & Heq)
    end.
    rewrite Heq in H; clear Heq.
    rewrite bind_np_lognormal, !bind_uniform in H.
    rewrite Hs in Hin. apply filter_In in Hin. destruct Hin as [Hfd Hhost].
    assert (Hne : coordinates seg <> [])
      by (rewrite Forall_forall in Hall; auto).
    assert (0 < List.length (coordinates seg))%nat
      by (destruct (coordinates seg); [congruence | simpl; lia]).
    rewrite bind_randint in H by lia.
    match type of H with
    | context [nth_error (coordinates seg) ?k] =>
        destruct (nth_error (coordinates seg) k) as [[lon lat]|] eqn:En;
          [|discriminate]
    end.
    rewrite !bind_uniform in H. inversion H; subst.
    split; [reflexivity|]. split; [assumption|].
    split; [|reflexivity].
    exists seg, (lon, lat). eexists _, _, _, _.
    split; [assumption|]. split; [assumption|].
    split; [eapply nth_error_In; eassumption|].
    repeat (split; [apply unit_float_range|]).
    reflexivity.
Qed.

Lemma physics_loop_indexed (fault_data : list FaultSegment) (i : nat)
  (magnitudes : list R) (w w' : World) (events : list Event) :
  physics_loop fault_data i magnitudes w = Returned events w' ->
  exists ks msgs,
    physics_indexed fault_data magnitudes i ks events
    /\ Forall (fun k => (k < i + List.length magnitudes)%nat) ks
    /\ StronglySorted lt ks
    /\ stdout w' = stdout w ++ msgs
    /\ forallb is_no_segment msgs = true
    /\ (List.length events + List.length msgs
        = List.length magnitudes)%nat
    /\ files w' = files w.
Proof.
  revert i w events w'. induction magnitudes as [|m rest IH];
    intros i w events w' H; simpl in H.
  - inversion H; subst. exists [], [].
    repeat split; try constructor. rewrite app_nil_r. reflexivity.
  - apply bind_returned_inv in H. destruct H as (made & w1 & Hstep & H).
    apply physics_step_placed in Hstep. destruct Hstep as (Hf1 & _ & Hmade).
    apply bind_returned_inv in H. destruct H as (more & w2 & Hloop & H).
    apply IH in Hloop.
    destruct Hloop as (ks & msgs & Hidx & Hlt & Hsort & Hout & Hmsg
                       & Hlen & Hf2).
    inversion H; subst.
    assert (Hidx' : physics_indexed fault_data (m :: rest) i ks more).
    { unfold physics_indexed in *. eapply Forall2_impl; [|exact Hidx].
      intros k e (Hk & m0 & Hnth & Hp). split; [lia|].
      exists m0. split; [|assumption].
      replace (k - i)%nat with (S (k - S i)) by lia. exact Hnth. }
    assert (Hlt' : Forall (fun k => (k < i + List.length (m :: rest))%nat) ks).
    { eapply Forall_impl; [|exact Hlt]. intros k Hk. cbv beta in Hk. simpl in *. lia. }
    assert (Hge : Forall (fun k => (S i <= k)%nat) ks).
    { unfold physics_indexed in Hidx. clear - Hidx.
      induction Hidx as [|k e ks es [Hk _] _ IHf]; constructor; auto. }
    destruct made as [e|].
    + destruct Hmade as [Hp Hs1].
      exists (i :: ks), msgs.
      split; [constructor; [|exact Hidx']|].
      { split; [lia|]. exists m. rewrite Nat.sub_diag. auto. }
      split; [constructor; [simpl; lia | exact Hlt']|].
      split.
      { constructor; [assumption|].
        eapply Forall_impl; [|exact Hge]. intros k Hk. cbv beta in *. lia. }
      split; [congruence|]. split; [assumption|].
      split; [simpl; lia | congruence].
    + destruct Hmade as [Hs1 _].
      exists ks, (WarnNoSegment m (rupture_length_of m) :: msgs).
      split; [exact Hidx'|]. split; [exact Hlt'|]. split; [assumption|].
      split; [rewrite Hout, Hs1, <- app_assoc; reflexivity|].
      split; [simpl; assumption|].
      split; [simpl; lia | congruence].
Qed.

Lemma all_different_NoDup (l : list string) :
  all_different l = true -> NoDup l.
Proof.
  induction l as [|s rest IH]; simpl; intros H; [constructor|].
  apply andb_true_iff in H. destruct H as [Hs Hrest].
  constructor; [|apply IH; assumption].
  intros Hin. apply negb_true_iff in Hs.
  assert (existsb (String.eqb s) rest = true).
  { apply existsb_exists. exists s. split; [assumption|].
    apply String.eqb_refl. }
  congruence.
Qed.

Lemma injective_on_range {A} (f : nat -> A) (n : nat) :
  NoDup (map f (seq 0 n)) ->
  forall a b, (a < n)%nat -> (b < n)%nat -> f a = f b -> a = b.
Proof.
  intros Hnd a b Ha Hb Heq.
  apply (proj1 (NoDup_nth (map f (seq 0 n)) (f 0%nat)) Hnd a b).
  - rewrite length_map, length_seq. assumption.
  - rewrite length_map, length_seq. assumption.
  - rewrite !map_nth, !seq_nth by assumption. simpl. exact Heq.
Qed.

Lemma NoDup_map_sorted {A} (f : nat -> A) (n : nat) (ks : list nat) :
  NoDup (map f (seq 0 n)) ->
  StronglySorted lt ks -> Forall (fun k => (k < n)%nat) ks ->
  NoDup (map f ks).
Proof.
  intros Hnd Hsort. induction Hsort as [|k ks Hs IH Hlt]; intros Hn;
    simpl; [constructor|].
  inversion Hn as [|? ? Hk Hks]; subst.
  constructor; [|apply IH; assumption].
  intros Hin. apply in_map_iff in Hin. destruct Hin as (k' & Heq & Hk').
  rewrite Forall_forall in Hlt, Hks.
  pose proof (Hlt k' Hk'). pose proof (Hks k' Hk').
  pose proof (injective_on_range f n Hnd k' k ltac:(assumption)
                ltac:(assumption) Heq).
  lia.
Qed.

Lemma physics_ids_different : NoDup (map physics_id (seq 0 n_synthetics)).
Proof. apply all_different_NoDup. vm_compute. reflexivity. Qed.

Lemma physics_placed_facts (fault_data : list FaultSegment) (k : nat)
  (m : R) (e : Event) :
  physics_placed fault_data k m e ->
  id e = physics_id k
  /\ (exists days,
         time e = FromStart days /\ 180 * INR k <= days <= 360 * INR k)
  /\ exists seg vertex,
       In seg fault_data /\ In vertex (coordinates seg)
       /\ segment_id e = Some (fs_segment_id seg)
       /\ strike e = Some (fs_strike seg)
       /\ dip e = Some (fs_dip seg)
       /\ rake e = Some (fs_rake seg)
       /\ (exists l, rupture_length_km e = Some l
                     /\ l <= segment_length (coordinates seg))
       /\ Rabs (longitude e - fst vertex) <= 0.045
       /\ Rabs (latitude e - snd vertex) <= 0.045.
Proof.
  intros (seg & vertex & um & ud & ulon & ulat & Hseg & Hhost & Hv
          & Hum & Hud & Hulon & Hulat & ->).
  split; [reflexivity|]. split.
  - eexists. split; [reflexivity|]. pose proof (pos_INR k). nra.
  - exists seg, vertex. simpl.
    repeat (split; [first [assumption | reflexivity]|]).
    split.
    + eexists. split; [reflexivity|]. apply Rleb_true. exact Hhost.
    + split; apply Rabs_le; lra.
Qed.

(** X12. Every event the physics strategy returns sits on a segment of
    the fault table that is at least as long as its rupture, carries
    that segment's id, strike, dip and rake, and has its epicentre within
    0.045 degrees, in each axis, of a vertex of that segment's trace.
    The events are listed by increasing loop index [k < 20]; an event
    built at index [k] has id [SYN_PHYS_<k+1>] and an origin time between
    [180 k] and [360 k] days after the start date; ids are pairwise
    different. *)
Theorem physics_events_placement (w w' : World) (df : Frame) :
  generate_physics_snapshots w = Returned (Some df) w' ->
  exists fault_data ks,
    files w marmara_faults_csv = Some (FaultTable fault_data)
    /\ StronglySorted lt ks
    /\ Forall (fun k => (k < n_synthetics)%nat) ks
    /\ Forall2 (fun k e =>
                  id e = physics_id k
                  /\ exists days,
                       time e = FromStart days
                       /\ 180 * INR k <= days <= 360 * INR k)
               ks (rows df)
    /\ NoDup (map id (rows df))
    /\ Forall (fun e =>
                 exists seg vertex,
                   In seg fault_data /\ In vertex (coordinates seg)
                   /\ segment_id e = Some (fs_segment_id seg)
                   /\ strike e = Some (fs_strike seg)
                   /\ dip e = Some (fs_dip seg)
                   /\ rake e = Some (fs_rake seg)
                   /\ (exists l, rupture_length_km e = Some l
                                 /\ l <= segment_length (coordinates seg))
                   /\ Rabs (longitude e - fst vertex) <= 0.045
                   /\ Rabs (latitude e - snd vertex) <= 0.045)
              (rows df).
Proof.
  intros H. apply generate_physics_some in H.
  destruct H as (fd & b & ms & w1 & evs & w2 & Hloop & (Hf & Hb & Hm) & _ & _
                 & _ & _ & _ & -> & _ & _).
  destruct (draw_magnitudes_returns n_synthetics b w)
    as (ms' & w1' & Hm' & Hlen & _).
  rewrite Hm in Hm'. injection Hm' as <- <-.
  apply physics_loop_indexed in Hloop.
  destruct Hloop as (ks & msgs & Hidx & Hlt & Hsort & _).
  unfold range_index. rewrite rows_range_index_from.
  exists fd, ks. split; [assumption|]. split; [assumption|].
  assert (Hlt' : Forall (fun k => (k < n_synthetics)%nat) ks).
  { eapply Forall_impl; [|exact Hlt]. intros k Hk. simpl in Hk. lia. }
  split; [assumption|].
  assert (Hids : Forall2 (fun k e => id e = physics_id k) ks evs).
  { unfold physics_indexed in Hidx. eapply Forall2_impl; [|exact Hidx].
    intros k e (_ & m & _ & Hp).
    apply (physics_placed_facts fd k m e Hp). }
  split; [|split].
  - unfold physics_indexed in Hidx. eapply Forall2_impl; [|exact Hidx].
    intros k e (_ & m & _ & Hp).
    destruct (physics_placed_facts fd k m e Hp) as (Hid & Ht & _). auto.
  - assert (Hmap : map id evs = map physics_id ks).
    { clear - Hids. induction Hids as [|k e ks evs Hke _ IH]; simpl;
        [reflexivity|]. rewrite Hke, IH. reflexivity. }
    rewrite Hmap.
    apply (NoDup_map_sorted physics_id n_synthetics ks
             physics_ids_different Hsort Hlt').
  - unfold physics_indexed in Hidx. clear - Hidx.
    induction Hidx as [|k e ks evs (_ & m & _ & Hp) _ IH]; constructor;
      [|exact IH].
    apply (physics_placed_facts fd k m e Hp).
Qed.

Lemma physics_events_placement_witness :
  exists df w' fault_data,
    generate_physics_snapshots (prepared [quake_floor] 0)
    = Returned (Some df) w'
    /\ files (prepared [quake_floor] 0) marmara_faults_csv
       = Some (FaultTable fault_data)
    /\ NoDup (map id (rows df)).
Proof.
  destruct (prepared_physics_returns [quake_floor] 0) as (df & w' & Hrun & _).
  destruct (physics_events_placement _ _ _ Hrun)
    as (fd & ks & Hf & _ & _ & _ & Hnd & _).
  exists df, w', fd. repeat split; assumption.
Defined.

Lemma physics_tail_outcome (synthetic_events : list Event) (w : World) :
  physics_tail synthetic_events w
  = match synthetic_events with
    | [] => Returned None (say NoSyntheticEvents w)
    | _ :: _ =>
        Returned (Some (valid_rows (range_index synthetic_events)))
          (store synthetic_physics_csv
             (EventTable (rows (valid_rows (range_index synthetic_events))))
             (sanity_report (range_index synthetic_events) w))
    end.
Proof.
  unfold physics_tail. destruct synthetic_events as [|e rest].
  - rewrite bind_print. reflexivity.
  - rewrite (bind_run _ _ _ _ _
               (sanity_checks_run _ w (range_index_NoDup (e :: rest)))).
    rewrite bind_to_csv. reflexivity.
Qed.

(** X13. Each of the 20 sampled magnitudes either yields an event or a
    "no suitable segment" warning, never both and never a substitute:
    when the strategy returns a table, its rows and the warnings printed
    add up to 20 and nothing else is printed; when it returns [None],
    twenty warnings were printed, followed by the no-events message. *)
Theorem physics_skip_accounting (w w' : World) (out : option Frame) :
  generate_physics_snapshots w = Returned out w' ->
  exists skipped,
    forallb is_no_segment skipped = true
    /\ match out with
       | Some df =>
           stdout w' = stdout w ++ skipped
           /\ (List.length df + List.length skipped = n_synthetics)%nat
           /\ df <> []
       | None =>
           stdout w' = stdout w ++ skipped ++ [NoSyntheticEvents]
           /\ List.length skipped = n_synthetics
           /\ files w' = files w
       end.
Proof.
  intros H. apply generate_physics_inv in H.
  destruct H as (fd & b & ms & w1 & evs & w2
                 & Hf & Hb & Hm & Hms & Hloop & Hf2 & Hmade & Htail).
  destruct (draw_magnitudes_returns n_synthetics b w)
    as (ms' & w1' & Hm' & Hlen & _ & _ & Hs1 & _).
  rewrite Hm in Hm'. injection Hm' as <- <-.
  pose proof (physics_events_physical fd b ms evs Hms Hmade) as Hall.
  assert (Hclean : Forall (fun e => unphysical e = false)
                          (rows (range_index evs))).
  { unfold range_index. rewrite rows_range_index_from.
    eapply Forall_impl; [|exact Hall].
    intros e (_ & _ & Hp). apply physical_not_unphysical. exact Hp. }
  apply physics_loop_indexed in Hloop.
  destruct Hloop as (ks & msgs & _ & _ & _ & Hout & Hmsg & Hcount & _).
  exists msgs. split; [assumption|].
  rewrite physics_tail_outcome in Htail.
  destruct evs as [|e rest].
  - injection Htail as <- <-. simpl in Hcount.
    split; [simpl; rewrite Hout, Hs1, <- app_assoc; reflexivity|].
    split; [lia|]. simpl. assumption.
  - rewrite (valid_rows_all _ Hclean), (sanity_report_clean _ _ Hclean)
      in Htail.
    remember (range_index (e :: rest)) as df eqn:Edf.
    injection Htail as <- <-. subst df.
    split; [simpl; congruence|]. split; [|discriminate].
    assert (Hl : List.length (range_index (e :: rest))
                 = List.length (e :: rest)).
    { rewrite <- (length_map fst). unfold range_index.
      rewrite map_fst_range_index_from. apply length_seq. }
    rewrite Hl. lia.
Qed.

Lemma physics_skip_accounting_witness :
  exists df w' skipped,
    generate_physics_snapshots (prepared [quake_floor] 0)
    = Returned (Some df) w'
    /\ forallb is_no_segment skipped = true
    /\ (List.length df + List.length skipped = n_synthetics)%nat.
Proof.
  destruct (prepared_physics_returns [quake_floor] 0) as (df & w' & Hrun & _).
  destruct (physics_skip_accounting _ _ _ Hrun)
    as (skipped & Hall & _ & Hcount & _).
  exists df, w', skipped. auto.
Defined.

(** ** When the physics script fails *)

Lemma find_suitable_raises (fault_data : list FaultSegment) (L : R)
  (w : World) :
  Exists (fun s => coordinates s = []) fault_data ->
  find_suitable_segments fault_data L w
  = Raised (ValueError "could not convert string to float") w.
Proof.
  induction fault_data as [|seg rest IH]; intros H; [inversion H|].
  cbn [find_suitable_segments]. unfold segment_can_host_rupture.
  destruct (coordinates seg) as [|p ps] eqn:E; [reflexivity|].
  rewrite bind_ret.
  assert (Hrest : Exists (fun s => coordinates s = []) rest)
    by (inversion H; subst; [congruence | assumption]).
  rewrite (bind_raised _ _ _ _ _ (IH Hrest)). reflexivity.
Qed.

Lemma physics_loop_raises (fault_data : list FaultSegment) (i : nat)
  (m : R) (rest : list R) (w : World) :
  Exists (fun s => coordinates s = []) fault_data ->
  physics_loop fault_data i (m :: rest) w
  = Raised (ValueError "could not convert string to float") w.
Proof.
  intros H. cbn [physics_loop].
  apply bind_raised. unfold physics_step.
  apply bind_raised. apply find_suitable_raises. exact H.
Qed.

(** X14. How the physics script fails.  A missing fault table, then a
    missing catalogue (which the script reads but never uses), stop it
    with [FileNotFoundError] before anything is drawn.  With both files
    there, the script returns exactly when every fault trace parses; one
    unparsable trace anywhere in the table makes the first loop turn
    raise [ValueError], after the magnitudes were drawn, with nothing
    printed and no file written. *)
Theorem physics_failure_modes (w : World) (fault_data : list FaultSegment)
  (eq_data : list Event) :
  (files w marmara_faults_csv = None ->
   generate_physics_snapshots w
   = Raised (FileNotFoundError marmara_faults_csv) w)
  /\ (files w marmara_faults_csv = Some (FaultTable fault_data) ->
      files w processed_earthquakes_csv = None ->
      generate_physics_snapshots w
      = Raised (FileNotFoundError processed_earthquakes_csv) w)
  /\ (files w marmara_faults_csv = Some (FaultTable fault_data) ->
      files w processed_earthquakes_csv = Some (EventTable eq_data) ->
      (Exists (fun s => coordinates s = []) fault_data ->
       exists w',
         generate_physics_snapshots w
         = Raised (ValueError "could not convert string to float") w'
         /\ files w' = files w /\ stdout w' = stdout w
         /\ np_random w' = np_random w)
      /\ (Forall (fun s => coordinates s <> []) fault_data ->
          exists out w', generate_physics_snapshots w = Returned out w')).
Proof.
  split; [|split].
  - intros Hf. unfold generate_physics_snapshots, read_faults.
    apply bind_raised. apply bind_raised. unfold read_file. rewrite Hf.
    reflexivity.
  - intros Hf He. unfold generate_physics_snapshots.
    rewrite (bind_run _ _ _ _ _ (read_faults_run _ _ _ Hf)).
    apply bind_raised. unfold read_events. apply bind_raised.
    unfold read_file. rewrite He. reflexivity.
  - intros Hf He.
    assert (Hrun : generate_physics_snapshots w
                   = bind (draw_magnitudes n_synthetics
                             match read_b_value w with
                             | Returned b _ => b
                             | Raised _ _ => 1.15
                             end)
                       (fun magnitudes =>
                          bind (physics_loop fault_data 0 magnitudes)
                               physics_tail) w).
    { unfold generate_physics_snapshots.
      rewrite (bind_run _ _ _ _ _ (read_faults_run _ _ _ Hf)).
      rewrite (bind_run _ _ _ _ _ (read_events_run _ _ _ He)).
      destruct (read_b_value_run w) as (b & Hb).
      rewrite (bind_run _ _ _ _ _ Hb). rewrite Hb. reflexivity. }
    rewrite Hrun.
    destruct (draw_magnitudes_returns n_synthetics
                match read_b_value w with
                | Returned b _ => b
                | Raised _ _ => 1.15
                end w)
      as (ms & w1 & Hm & Hlen & _ & Hf1 & Hs1 & Hn1 & _).
    rewrite (bind_run _ _ _ _ _ Hm).
    split.
    + intros Hbad. destruct ms as [|m rest]; [discriminate|].
      exists w1. split; [|auto].
      apply bind_raised. apply physics_loop_raises. exact Hbad.
    + intros Hparse.
      destruct (physics_loop_run fault_data 0 ms w1 Hparse)
        as (evs & w2 & Hloop & _).
      rewrite (bind_run _ _ _ _ _ Hloop). rewrite physics_tail_outcome.
      destruct evs; eexists _, _; reflexivity.
Qed.

Lemma physics_failure_modes_witness :
  exists w',
    generate_physics_snapshots (process (unparsed_files [quake_floor]) 0)
    = Raised (ValueError "could not convert string to float") w'
    /\ files w' = unparsed_files [quake_floor].
Proof.
  destruct (proj1 (proj2 (proj2 (physics_failure_modes
                                   (process (unparsed_files [quake_floor]) 0)
                                   [meridian_segment; unparsed_segment]
                                   [quake_floor]))
                     eq_refl eq_refl))
    as (w' & Hrun & Hf & _).
  - right. left. reflexivity.
  - exists w'. split; assumption.
Defined.

(** ** Where the simple strategy puts its events *)

Lemma randint_within (a b bits : Z) :
  (a <= b)%Z ->
  (a <= a + Z.of_nat (below (Z.to_nat (b - a + 1)) bits) <= b)%Z.
Proof.
  intros H.
  pose proof (below_lt (Z.to_nat (b - a + 1)) bits ltac:(lia)). lia.
Qed.

Lemma clamp_near (lo hi x y d : R) :
  lo <= hi -> Rabs (x - y) <= d ->
  Rabs (Rmax lo (Rmin hi x) - Rmax lo (Rmin hi y)) <= d.
Proof.
  intros Hlh Hd.
  assert (Hxy : - d <= x - y <= d).
  { unfold Rabs in Hd. destruct (Rcase_abs (x - y)); lra. }
  apply Rabs_le. unfold Rmin.
  destruct (Rle_dec hi x), (Rle_dec hi y); unfold Rmax;
    repeat match goal with
           | |- context [Rle_dec ?a ?b] => destruct (Rle_dec a b)
           end; lra.
Qed.

Lemma simple_step_placed (templates : list Event) (i : nat) (w : World) :
  templates <> [] ->
  exists e w',
    simple_step templates i w = Returned e w'
    /\ files w' = files w /\ stdout w' = stdout w
    /\ cursor (py_random w') = (cursor (py_random w) + 10)%nat
    /\ cursor (np_random w') = (cursor (np_random w) + 1)%nat
    /\ simple_placed templates i e.
Proof.
  intros Hne. unfold simple_step.
  match goal with
  | |- context [bind (sample_one ?l) ?k ?w] =>
      destruct (bind_sample_one l k w Hne) as (template & Hin & Heq)
  end.
  rewrite Heq; clear Heq.
  rewrite !bind_uniform.
  do 6 (rewrite bind_randint by lia).
  eexists _, _. split; [reflexivity|]. split; [reflexivity|].
  split; [reflexivity|].
  split; [simpl; lia|]. split; [simpl; lia|].
  exists template. eexists _, _, _, _, _, _, _, _, _, _.
  split; [assumption|].
  do 4 (split; [apply unit_float_range|]).
  do 6 (split; [apply randint_within; lia|]).
  reflexivity.
Qed.

Lemma simple_loop_placed (templates : list Event) (i n : nat) (w : World) :
  templates <> [] ->
  exists events w',
    simple_loop templates i n w = Returned events w'
    /\ files w' = files w /\ stdout w' = stdout w
    /\ cursor (py_random w') = (cursor (py_random w) + 10 * n)%nat
    /\ cursor (np_random w') = (cursor (np_random w) + n)%nat
    /\ Forall2 (simple_placed templates) (seq i n) events.
Proof.
  intros Hne. revert i w. induction n as [|n IH]; intros i w.
  - exists [], w. cbn [simple_loop seq]. repeat split; try lia. constructor.
  - cbn [simple_loop seq].
    destruct (simple_step_placed templates i w Hne)
      as (e & w1 & He & Hf1 & Hs1 & Hp1 & Hn1 & Hm).
    rewrite (bind_run _ _ _ _ _ He).
    destruct (IH (S i) w1) as (evs & w2 & Hloop & Hf2 & Hs2 & Hp2 & Hn2 & Hall).
    rewrite (bind_run _ _ _ _ _ Hloop).
    eexists _, w2. split; [reflexivity|].
    split; [congruence|]. split; [congruence|].
    split; [lia|]. split; [lia|].
    constructor; assumption.
Qed.

Lemma simple_ids_different : NoDup (map simple_id (seq 0 n_synthetic)).
Proof. apply all_different_NoDup. vm_compute. reflexivity. Qed.

Lemma simple_placed_facts (templates : list Event) (k : nat) (e : Event) :
  simple_placed templates k e ->
  id e = simple_id k
  /\ exists template,
       In template templates
       /\ 6.5 <= magnitude e < 7.3
       /\ 5 <= depth_km e < 20
       /\ 26.0 <= longitude e <= 30.5
       /\ 39.5 <= latitude e <= 41.5
       /\ Rabs (longitude e - Rmax 26.0 (Rmin 30.5 (longitude template)))
          <= 0.3
       /\ Rabs (latitude e - Rmax 39.5 (Rmin 41.5 (latitude template)))
          <= 0.2
       /\ exists year month day hour minute second,
            time e = Clock year month day hour minute second
            /\ (2003 <= year <= 2025)%Z /\ (1 <= month <= 12)%Z
            /\ (1 <= day <= 28)%Z /\ (0 <= hour <= 23)%Z
            /\ (0 <= minute <= 59)%Z /\ (0 <= second <= 59)%Z.
Proof.
  intros (t & um & ulon & ulat & ud & y & mo & d & h & mi & s
          & Hin & Hum & Hulon & Hulat & Hud & Hy & Hmo & Hd & Hh & Hmi & Hs
          & ->).
  split; [reflexivity|]. exists t. cbn [magnitude depth_km longitude latitude
                                        time simple_synthetic].
  split; [assumption|]. split; [lra|]. split; [lra|].
  split; [apply clamp_range; lra|]. split; [apply clamp_range; lra|].
  split; [apply clamp_near; [lra | apply Rabs_le; lra]|].
  split; [apply clamp_near; [lra | apply Rabs_le; lra]|].
  exists y, mo, d, h, mi, s. auto 10.
Qed.

(** X15. The simple strategy's table has the ids [SYN_SIMPLE_001] to
    [SYN_SIMPLE_010] in order, all different.  Every event has a template
    of magnitude at least 5 in the combined dataset, a magnitude in
    [6.5, 7.3), a depth in [5, 20), an epicentre inside the box
    [26, 30.5] x [39.5, 41.5] that is within 0.3 degrees of longitude and
    0.2 degrees of latitude of the template's position clamped to the
    box, and a timestamp whose fields lie in 2003-2025, 1-12, 1-28, 0-23,
    0-59 and 0-59.  A run takes 10 draws from NumPy's generator and 100
    words from the [random] module. *)
Theorem simple_events_placement (w w' : World) (df : Frame) :
  generate_simple_synthetics w = Returned df w' ->
  exists all_data,
    files w combined_dataset_csv = Some (EventTable all_data)
    /\ map id (rows df) = map simple_id (seq 0 n_synthetic)
    /\ NoDup (map id (rows df))
    /\ cursor (py_random w') = (cursor (py_random w) + 100)%nat
    /\ cursor (np_random w') = (cursor (np_random w) + 10)%nat
    /\ Forall (fun e =>
                 exists template,
                   (In template all_data /\ 5.0 <= magnitude template)
                   /\ 6.5 <= magnitude e < 7.3
                   /\ 5 <= depth_km e < 20
                   /\ 26.0 <= longitude e <= 30.5
                   /\ 39.5 <= latitude e <= 41.5
                   /\ Rabs (longitude e
                            - Rmax 26.0 (Rmin 30.5 (longitude template)))
                      <= 0.3
                   /\ Rabs (latitude e
                            - Rmax 39.5 (Rmin 41.5 (latitude template)))
                      <= 0.2
                   /\ exists year month day hour minute second,
                        time e = Clock year month day hour minute second
                        /\ (2003 <= year <= 2025)%Z /\ (1 <= month <= 12)%Z
                        /\ (1 <= day <= 28)%Z /\ (0 <= hour <= 23)%Z
                        /\ (0 <= minute <= 59)%Z /\ (0 <= second <= 59)%Z)
              (rows df).
Proof.
  intros H. apply generate_simple_inv in H.
  destruct H as (all_data & evs & w1 & Hf & Hne & Hloop & _ & _ & _ & -> & ->).
  destruct (simple_loop_placed (simple_templates all_data) 0 n_synthetic w Hne)
    as (evs' & w1' & Hloop' & _ & _ & Hp & Hn & Hall).
  rewrite Hloop in Hloop'. injection Hloop' as <- <-.
  exists all_data. split; [assumption|].
  unfold range_index. rewrite rows_range_index_from.
  assert (Hids : map id evs = map simple_id (seq 0 n_synthetic)).
  { clear - Hall. induction Hall as [|k e ks es Hke _ IH]; [reflexivity|].
    cbn [map]. rewrite IH.
    rewrite (proj1 (simple_placed_facts _ _ _ Hke)). reflexivity. }
  split; [exact Hids|]. split; [rewrite Hids; apply simple_ids_different|].
  unfold n_synthetic in Hp, Hn. cbn [store py_random np_random].
  split; [lia|]. split; [lia|].
  clear - Hall. induction Hall as [|k e ks es Hke _ IH]; constructor;
    [|exact IH].
  destruct (simple_placed_facts _ _ _ Hke) as (_ & t & Hin & Hrest).
  exists t. split; [|exact Hrest].
  unfold simple_templates in Hin. apply filter_In in Hin.
  destruct Hin as [Hin Hmag]. split; [assumption|].
  apply Rleb_true. exact Hmag.
Qed.

Lemma simple_events_placement_witness :
  exists df w' all_data,
    generate_simple_synthetics (process (assembled_files [quake_floor]) 0)
    = Returned df w'
    /\ files (process (assembled_files [quake_floor]) 0) combined_dataset_csv
       = Some (EventTable all_data)
    /\ NoDup (map id (rows df)).
Proof.
  destruct (simple_of_floor 0) as (df & w' & Hrun & _).
  destruct (simple_events_placement _ _ _ Hrun)
    as (all_data & Hf & _ & Hnd & _).
  exists df, w', all_data. repeat split; assumption.
Defined.

(** X16. How the simple script fails.  A missing combined dataset stops
    it with [FileNotFoundError].  A combined dataset without any event of
    magnitude 5 or more makes the first [sample(1)] raise [ValueError];
    in both cases nothing was drawn, printed or written.  With at least
    one such event the script returns ten rows. *)
Theorem simple_failure_modes (w : World) (all_data : list Event) :
  (files w combined_dataset_csv = None ->
   generate_simple_synthetics w
   = Raised (FileNotFoundError combined_dataset_csv) w)
  /\ (files w combined_dataset_csv = Some (EventTable all_data) ->
      (Forall (fun e => magnitude e < 5.0) all_data ->
       generate_simple_synthetics w
       = Raised (ValueError "a must be greater than 0") w)
      /\ (Exists (fun e => 5.0 <= magnitude e) all_data ->
          exists df w',
            generate_simple_synthetics w = Returned df w'
            /\ List.length df = n_synthetic)).
Proof.
  split.
  - intros Hf. unfold generate_simple_synthetics, read_events.
    apply bind_raised. apply bind_raised. unfold read_file. rewrite Hf.
    reflexivity.
  - intros Hf. split.
    + intros Hsmall. unfold generate_simple_synthetics.
      rewrite (bind_run _ _ _ _ _ (read_events_run _ _ _ Hf)).
      rewrite filter_none; [reflexivity|].
      eapply Forall_impl; [|exact Hsmall].
      intros e He. cbv beta in He. apply Rleb_false. exact He.
    + intros Hbig. apply generate_simple_returns with (all_data := all_data);
        [assumption|].
      apply Exists_exists in Hbig. destruct Hbig as (e & Hin & He).
      intros Hnil.
      assert (Hin' : In e (simple_templates all_data)).
      { unfold simple_templates. apply filter_In. split; [assumption|].
        apply Rleb_true. exact He. }
      rewrite Hnil in Hin'. destruct Hin'.
Qed.

Lemma simple_failure_modes_witness :
  generate_simple_synthetics (process (assembled_files [quake_small]) 0)
  = Raised (ValueError "a must be greater than 0")
           (process (assembled_files [quake_small]) 0).
Proof.
  apply (proj1 (proj2 (simple_failure_modes
                         (process (assembled_files [quake_small]) 0)
                         [quake_small]) eq_refl)).
  constructor; [simpl; lra | constructor].
Defined.

(** ** The bootstrap script: failures and kept relations *)

Lemma sanity_report_generators (df : Frame) (w : World) :
  py_random (sanity_report df w) = py_random w
  /\ np_random (sanity_report df w) = np_random w
  /\ files (sanity_report df w) = files w.
Proof.
  unfold sanity_report.
  destruct (filter (fun r => unphysical (snd r)) df); repeat split.
Qed.

Lemma to_datetime_raises (to_datetime_year : Timestamp -> option Z)
  (table : list Event) (w : World) :
  Exists (fun e => to_datetime_year (time e) = None) table ->
  to_datetime to_datetime_year table w
  = Raised (ValueError "Unknown datetime string format") w.
Proof.
  induction table as [|e rest IH]; intros H; [inversion H|].
  unfold to_datetime. cbn [fold_right].
  destruct (to_datetime_year (time e)) as [y|] eqn:E; [|reflexivity].
  apply bind_raised. apply IH.
  inversion H; subst; [congruence | assumption].
Qed.

(** X17. How the bootstrap script fails.  A missing catalogue stops it
    with [FileNotFoundError].  One time cell that pandas cannot parse,
    in any row of the catalogue and not only in a template, stops it
    with [ValueError] before a single number is drawn; nothing is
    printed or written.  When every cell parses the script returns. *)
Theorem bootstrap_failure_modes (to_datetime_year : Timestamp -> option Z)
  (w : World) (eq_data : list Event) :
  (files w processed_earthquakes_csv = None ->
   generate_bootstrap_synthetics to_datetime_year w
   = Raised (FileNotFoundError processed_earthquakes_csv) w)
  /\ (files w processed_earthquakes_csv = Some (EventTable eq_data) ->
      (Exists (fun e => to_datetime_year (time e) = None) eq_data ->
       generate_bootstrap_synthetics to_datetime_year w
       = Raised (ValueError "Unknown datetime string format") w)
      /\ (Forall (fun e => to_datetime_year (time e) <> None) eq_data ->
          exists out w',
            generate_bootstrap_synthetics to_datetime_year w
            = Returned out w'
            /\ cursor (py_random w')
               = (cursor (py_random w)
                  + List.length (templates_of eq_data))%nat
            /\ np_random w' = np_random w)).
Proof.
  split.
  - intros Hf. unfold generate_bootstrap_synthetics, read_events.
    apply bind_raised. apply bind_raised. unfold read_file. rewrite Hf.
    reflexivity.
  - intros Hf. split.
    + intros Hbad. unfold generate_bootstrap_synthetics.
      rewrite (bind_run _ _ _ _ _ (read_events_run _ _ _ Hf)).
      apply bind_raised. apply to_datetime_raises. exact Hbad.
    + intros Hparse.
      rewrite (generate_bootstrap_run to_datetime_year w eq_data Hf Hparse).
      rewrite (bootstrap_tail_run _ _ (bootstrap_raw_NoDup w eq_data)).
      destruct (bootstrap_raw w eq_data) as [|r raw]; eexists _, _;
        (split; [reflexivity|]); [split; reflexivity|].
      cbn [store py_random np_random].
      destruct (sanity_report_generators (r :: raw)
                  (skip_py (List.length (templates_of eq_data)) w))
        as (-> & -> & _).
      split; reflexivity.
Qed.

Lemma bootstrap_failure_modes_witness :
  generate_bootstrap_synthetics iso_year
    (prepared [quake_floor;
               catalog_event "EQ_000009" "yesterday" 2020 3.1 28.0 40.7 9]
              0)
  = Raised (ValueError "Unknown datetime string format")
      (prepared [quake_floor;
                 catalog_event "EQ_000009" "yesterday" 2020 3.1 28.0 40.7 9]
                0).
Proof.
  apply (proj1 (proj2 (bootstrap_failure_modes iso_year
                         (prepared
                            [quake_floor;
                             catalog_event "EQ_000009" "yesterday" 2020 3.1
                               28.0 40.7 9] 0)
                         [quake_floor;
                          catalog_event "EQ_000009" "yesterday" 2020 3.1
                            28.0 40.7 9])
                      eq_refl)).
  right. left. reflexivity.
Defined.

Lemma NoDup_map_filter {A B} (g : A -> B) (f : A -> bool) (l : list A) :
  NoDup (map g l) -> NoDup (map g (filter f l)).
Proof.
  induction l as [|x l IH]; simpl; intros H; [constructor|].
  inversion H as [|? ? Hx Hnd]; subst.
  destruct (f x); simpl; [|auto].
  constructor; [|auto].
  intros Hin. apply Hx. apply in_map_iff in Hin.
  destruct Hin as (r & Heq & Hr). apply filter_In in Hr.
  rewrite <- Heq. apply in_map. tauto.
Qed.

Lemma range_index_from_snd (k : nat) (l : list Event) (r : nat * Event) :
  In r (range_index_from k l) -> In (snd r) l.
Proof.
  intros H. rewrite <- (rows_range_index_from k l). unfold rows.
  apply in_map. exact H.
Qed.

Lemma bootstrap_events_rows (words : nat -> Z) (c : nat)
  (template_events : Frame) :
  Forall (fun r => exists t u,
              In t template_events /\ 0 <= u < 1
              /\ snd r = bootstrap_synthetic (snd t) (1.5 + (2.3 - 1.5) * u))
         (bootstrap_events words c template_events).
Proof.
  revert c. induction template_events as [|[label event] rest IH];
    intros c; cbn [bootstrap_events]; constructor.
  - exists (label, event), (unit_float (words c)).
    split; [left; reflexivity|]. split; [apply unit_float_range|].
    reflexivity.
  - eapply Forall_impl; [|apply IH].
    intros r (t & u & Hin & Hu & Heq). exists t, u.
    split; [right; assumption|]. split; assumption.
Qed.

Lemma templates_of_in (eq_data : list Event) (t : nat * Event) :
  In t (templates_of eq_data) ->
  In (snd t) eq_data /\ 5 <= magnitude (snd t) < 6.
Proof.
  unfold templates_of. intros H. apply filter_In in H.
  destruct H as [Hin Ht]. split.
  - unfold range_index in Hin. eapply range_index_from_snd. exact Hin.
  - apply is_template_iff. exact Ht.
Qed.

Lemma bootstrap_events_ids (words : nat -> Z) (c : nat)
  (template_events : Frame) :
  map (fun r => id (snd r)) (bootstrap_events words c template_events)
  = map (fun r => "SYN_" ++ id (snd r))%string template_events.
Proof.
  revert c. induction template_events as [|[label event] rest IH];
    intros c; cbn [bootstrap_events map]; [reflexivity|].
  rewrite IH. reflexivity.
Qed.

Lemma NoDup_map_inj {A B} (f : A -> B) (l : list A) :
  (forall a b, f a = f b -> a = b) -> NoDup l -> NoDup (map f l).
Proof.
  intros Hinj. induction 1 as [|x l Hx _ IH]; simpl; constructor;
    [|exact IH].
  intros Hin. apply in_map_iff in Hin. destruct Hin as (y & Heq & Hy).
  apply Hinj in Heq. subst. contradiction.
Qed.

(** X18. What the bootstrap script keeps.  If the catalogue's
    [log_energy] column obeys [log_energy = 1.5 M + 4.8], so does the
    returned table, although the script only adds [1.5 dM] to the cell.
    If the catalogue's ids are pairwise different, so are the returned
    ids.  Every returned row copies the time, position and depth of a
    catalogue row of magnitude in [5, 6) and is at least 1.5 units
    larger. *)
Theorem bootstrap_keeps_relations
  (to_datetime_year : Timestamp -> option Z) (w w' : World) (df : Frame) :
  generate_bootstrap_synthetics to_datetime_year w = Returned (Some df) w' ->
  exists eq_data,
    files w processed_earthquakes_csv = Some (EventTable eq_data)
    /\ (Forall (fun e => log_energy e = Some (1.5 * magnitude e + 4.8))
               eq_data ->
        Forall (fun e => log_energy e = Some (1.5 * magnitude e + 4.8))
               (rows df))
    /\ (NoDup (map id eq_data) -> NoDup (map id (rows df)))
    /\ Forall (fun e =>
                 exists template,
                   In template eq_data
                   /\ 5 <= magnitude template < 6
                   /\ id e = ("SYN_" ++ id template)%string
                   /\ time e = time template
                   /\ longitude e = longitude template
                   /\ latitude e = latitude template
                   /\ depth_km e = depth_km template
                   /\ magnitude template + 1.5 <= magnitude e)
              (rows df).
Proof.
  intros H. apply generate_bootstrap_inv in H.
  destruct H as (eq_data & Hf & Hparse & Htail).
  apply bootstrap_tail_some in Htail; [|apply bootstrap_raw_NoDup].
  destruct Htail as (_ & -> & _).
  exists eq_data. split; [assumption|].
  assert (Hrows : Forall (fun e =>
                            exists t u,
                              In t eq_data /\ 5 <= magnitude t < 6
                              /\ 0 <= u < 1
                              /\ e = bootstrap_synthetic t
                                       (1.5 + (2.3 - 1.5) * u))
                         (rows (valid_rows (bootstrap_raw w eq_data)))).
  { unfold rows. apply Forall_map. apply Forall_forall. intros r Hr.
    unfold valid_rows in Hr. apply filter_In in Hr. destruct Hr as [Hr _].
    unfold bootstrap_raw in Hr.
    pose proof (bootstrap_events_rows (tape (py_random w))
                  (cursor (py_random w)) (templates_of eq_data)) as Hall.
    rewrite Forall_forall in Hall.
    destruct (Hall r Hr) as (t & u & Hin & Hu & Heq).
    destruct (templates_of_in eq_data t Hin) as [Hin' Hmag].
    exists (snd t), u. auto. }
  split; [|split].
  - intros Hle. eapply Forall_impl; [|exact Hrows].
    intros e (t & u & Hin & _ & _ & ->).
    rewrite Forall_forall in Hle.
    cbn [log_energy magnitude bootstrap_synthetic].
    rewrite (Hle t Hin). cbn [option_map]. f_equal. lra.
  - intros Hnd. unfold rows, valid_rows. rewrite map_map.
    apply NoDup_map_filter. unfold bootstrap_raw.
    rewrite bootstrap_events_ids.
    rewrite <- (map_map (fun r => id (snd r))
                        (fun s => ("SYN_" ++ s)%string)).
    apply NoDup_map_inj.
    + intros a b Heq. simpl in Heq. congruence.
    + unfold templates_of. apply NoDup_map_filter.
      rewrite <- (map_map snd id). fold (rows (range_index eq_data)).
      unfold range_index. rewrite rows_range_index_from. exact Hnd.
  - eapply Forall_impl; [|exact Hrows].
    intros e (t & u & Hin & Hmag & Hu & ->). exists t.
    cbn [id time longitude latitude depth_km magnitude bootstrap_synthetic].
    repeat (split; [first [assumption | reflexivity | lra]|]). lra.
Qed.

Lemma bootstrap_keeps_relations_witness :
  exists df w',
    generate_bootstrap_synthetics iso_year (prepared [quake_floor] 0)
    = Returned (Some df) w'
    /\ Forall (fun e => log_energy e = Some (1.5 * magnitude e + 4.8))
              (rows df).
Proof.
  destruct (bootstrap_of_floor 0) as (w' & Hrun & _).
  destruct (bootstrap_keeps_relations iso_year _ _ _ Hrun)
    as (eq_data & Hf & Hle & _).
  eexists _, w'. split; [exact Hrun|].
  apply Hle. injection Hf as <-.
  constructor; [reflexivity | constructor].
Defined.

(** ** The assembler in the pipeline *)

Lemma assembled_from_functional (to_datetime_year : Timestamp -> option Z)
  (e o1 o2 : Event) :
  assembled_from to_datetime_year e o1 ->
  assembled_from to_datetime_year e o2 -> o1 = o2.
Proof. intros (y1 & H1 & ->) (y2 & H2 & ->). congruence. Qed.

Lemma Forall2_functional {A B} (R : A -> B -> Prop) (l : list A)
  (r1 r2 : list B) :
  (forall a b1 b2, R a b1 -> R a b2 -> b1 = b2) ->
  Forall2 R l r1 -> Forall2 R l r2 -> r1 = r2.
Proof.
  intros Hfun H1. revert r2.
  induction H1 as [|a b l r Hab _ IH]; intros r2 H2; inversion H2; subst;
    [reflexivity|].
  f_equal; [eapply Hfun; eassumption | apply IH; assumption].
Qed.

Lemma assembled_from_parses (to_datetime_year : Timestamp -> option Z)
  (l r : list Event) :
  Forall2 (assembled_from to_datetime_year) l r ->
  Forall (fun e => to_datetime_year (time e) <> None) l.
Proof.
  induction 1 as [|e o l r (y & Hy & _) _ IH]; constructor;
    [congruence | exact IH].
Qed.

Lemma generate_simple_placed (w w' : World) (df : Frame) :
  generate_simple_synthetics w = Returned df w' ->
  exists all_data synthetic_events w1,
    files w combined_dataset_csv = Some (EventTable all_data)
    /\ Forall2 (simple_placed (simple_templates all_data))
               (seq 0 n_synthetic) synthetic_events
    /\ files w1 = files w
    /\ df = range_index synthetic_events
    /\ w' = store synthetic_simple_csv (EventTable synthetic_events) w1.
Proof.
  intros H. apply generate_simple_inv in H.
  destruct H as (all_data & evs & w1 & Hf & Hne & Hloop & Hf1 & _ & _ & -> & ->).
  destruct (simple_loop_placed (simple_templates all_data) 0 n_synthetic w Hne)
    as (evs' & w1' & Hloop' & _ & _ & _ & _ & Hall).
  rewrite Hloop in Hloop'. injection Hloop' as <- <-.
  exists all_data, evs, w1.
  change (rows (range_index evs)) with (rows (range_index_from 0 evs)).
  rewrite rows_range_index_from. auto.
Qed.

Lemma cv_fold_of_covered (y : Z) :
  (2003 <= y <= 2025)%Z -> (0 <= cv_fold_of y <= 6)%Z.
Proof.
  intros H. rewrite cv_fold_of_cases.
  destruct (Z.ltb_spec y 2003);
    repeat match goal with
           | |- context [(y <=? ?b)%Z] => destruct (Z.leb_spec y b)
           end; lia.
Qed.

(** X19. Assemble, simple, finalize, in this order.  If the assembler
    returns a table holding an event of magnitude 5 or more, the simple
    script run next returns ten events, and the finalizer run after it
    returns the assembler's rows, unchanged and in order, followed by the
    ten simple events with their calendar columns.  As the simple
    timestamps have years 2003 to 2025, every simple event gets a
    cross-validation fold from 0 to 6, never -1; this needs
    [pd.to_datetime] to read the year of a timestamp the simple script
    formatted. *)
Theorem pipeline_assemble_simple_finalize
  (to_datetime_year : Timestamp -> option Z) (w w1 : World) (out_a : Frame) :
  (forall y mo d h mi s, to_datetime_year (Clock y mo d h mi s) = Some y) ->
  assemble_dataset to_datetime_year w = Returned out_a w1 ->
  Exists (fun o => 5.0 <= magnitude o) (rows out_a) ->
  exists df w2 out_f w3 tail,
    generate_simple_synthetics w1 = Returned df w2
    /\ finalize_dataset to_datetime_year w2 = Returned out_f w3
    /\ rows out_f = rows out_a ++ tail
    /\ List.length tail = n_synthetic
    /\ Forall2 (fun s o =>
                  exists y,
                    o = with_calendar s y
                    /\ (2003 <= y <= 2025)%Z
                    /\ year o = Some y
                    /\ cv_fold o = Some (cv_fold_of y)
                    /\ (0 <= cv_fold_of y <= 6)%Z)
               (rows df) tail
    /\ files w3 combined_dataset_csv = Some (EventTable (rows out_a))
    /\ files w3 final_dataset_csv = Some (EventTable (rows out_f)).
Proof.
  intros Hclock Ha Hbig.
  apply assemble_dataset_inv in Ha.
  destruct Ha as (real & boot & phys & Hr & Hb & Hp & Hall & Hlen & ->).
  set (w1 := store combined_dataset_csv (EventTable (rows out_a)) w).
  assert (Hc : files w1 combined_dataset_csv = Some (EventTable (rows out_a)))
    by apply files_store_same.
  assert (Hne : simple_templates (rows out_a) <> []).
  { apply Exists_exists in Hbig. destruct Hbig as (o & Hin & Ho).
    intros Hnil.
    assert (Hin' : In o (simple_templates (rows out_a))).
    { unfold simple_templates. apply filter_In. split; [assumption|].
      apply Rleb_true. exact Ho. }
    rewrite Hnil in Hin'. destruct Hin'. }
  destruct (generate_simple_returns w1 (rows out_a) Hc Hne)
    as (df & w2 & Hsimple & Hten).
  pose proof (generate_simple_placed _ _ _ Hsimple)
    as (all' & evs & w1' & Hc' & Hplaced & Hf1 & Hdf & Hw2).
  assert (Hrows : rows df = evs)
    by (rewrite Hdf; unfold range_index; apply rows_range_index_from).
  assert (Hclocks : Forall (fun s =>
                              exists y mo d h mi sec,
                                time s = Clock y mo d h mi sec
                                /\ (2003 <= y <= 2025)%Z) evs).
  { clear - Hplaced.
    induction Hplaced as [|k e ks es Hke _ IH]; constructor; [|exact IH].
    destruct (simple_placed_facts _ _ _ Hke)
      as (_ & t & _ & _ & _ & _ & _ & _ & _ & y & mo & d & h & mi & s
          & Ht & Hy & _).
    exists y, mo, d, h, mi, s. auto. }
  assert (Hfiles : forall p, p <> synthetic_simple_csv ->
                             p <> combined_dataset_csv ->
                             files w2 p = files w p).
  { intros p Hp1 Hp2. rewrite Hw2. cbn [store files].
    apply String.eqb_neq in Hp1. rewrite Hp1. rewrite Hf1.
    unfold w1. cbn [store files].
    apply String.eqb_neq in Hp2. rewrite Hp2. reflexivity. }
  assert (Hr2 : files w2 processed_earthquakes_csv = Some (EventTable real))
    by (rewrite Hfiles; [assumption | discriminate | discriminate]).
  assert (Hb2 : files w2 synthetic_bootstrap_csv = Some (EventTable boot))
    by (rewrite Hfiles; [assumption | discriminate | discriminate]).
  assert (Hp2 : files w2 synthetic_physics_csv = Some (EventTable phys))
    by (rewrite Hfiles; [assumption | discriminate | discriminate]).
  assert (Hs2 : files w2 synthetic_simple_csv = Some (EventTable evs))
    by (rewrite Hw2; apply files_store_same).
  assert (Hparse : Forall (fun e => to_datetime_year (time e) <> None)
                          (real ++ boot ++ phys ++ evs)).
  { rewrite !app_assoc. apply Forall_app. split.
    - rewrite <- !app_assoc. eapply assembled_from_parses. exact Hall.
    - eapply Forall_impl; [|exact Hclocks].
      intros s (y & mo & d & h & mi & sec & Ht & _).
      rewrite Ht, Hclock. discriminate. }
  destruct (finalize_dataset_returns to_datetime_year w2 real boot phys evs
              Hr2 Hb2 Hp2 Hs2 Hparse) as (out_f & w3 & Hfin).
  pose proof (finalize_dataset_inv to_datetime_year _ _ _ Hfin)
    as (real' & boot' & phys' & simp' & Hr' & Hb' & Hp' & Hs' & Hall'
        & _ & Hw3).
  assert (real' = real) by congruence.
  assert (boot' = boot) by congruence.
  assert (phys' = phys) by congruence.
  assert (simp' = evs) by congruence.
  subst real' boot' phys' simp'.
  replace (real ++ boot ++ phys ++ evs)
    with ((real ++ boot ++ phys) ++ evs) in Hall'
    by (rewrite <- !app_assoc; reflexivity).
  apply Forall2_app_inv_l in Hall'.
  destruct Hall' as (head & tail & Hhead & Htail & Hout).
  assert (head = rows out_a).
  { eapply Forall2_functional; [|exact Hhead|exact Hall].
    apply assembled_from_functional. }
  subst head.
  exists df, w2, out_f, w3, tail.
  split; [exact Hsimple|]. split; [exact Hfin|]. split; [exact Hout|].
  split.
  { apply Forall2_length in Htail. rewrite <- Htail.
    apply Forall2_length in Hplaced. rewrite <- Hplaced.
    apply length_seq. }
  split.
  { rewrite Hrows. clear - Htail Hclocks Hclock.
    induction Htail as [|s o ss os (y & Hy & Ho) _ IH]; [constructor|].
    inversion Hclocks as [|? ? (y' & mo & d & h & mi & sec & Ht & Hrange) Hrest];
      subst.
    constructor; [|apply IH; assumption].
    rewrite Ht, Hclock in Hy. injection Hy as <-.
    exists y'. split; [reflexivity|]. split; [assumption|].
    split; [reflexivity|]. split; [reflexivity|].
    apply cv_fold_of_covered. assumption. }
  split.
  - rewrite Hw3. cbn [store files].
    replace (String.eqb combined_dataset_csv final_dataset_csv) with false
      by reflexivity.
    rewrite Hw2. cbn [store files].
    replace (String.eqb combined_dataset_csv synthetic_simple_csv) with false
      by reflexivity.
    rewrite Hf1. exact Hc.
  - rewrite Hw3. apply files_store_same.
Qed.

Lemma pipeline_assemble_simple_finalize_witness :
  exists out_a w1 df w2 out_f w3 tail,
    assemble_dataset iso_year small_pipeline = Returned out_a w1
    /\ generate_simple_synthetics w1 = Returned df w2
    /\ finalize_dataset iso_year w2 = Returned out_f w3
    /\ rows out_f = rows out_a ++ tail
    /\ List.length tail = n_synthetic.
Proof.
  destruct (assemble_dataset_returns iso_year small_pipeline
              [quake_small; quake_floor]
              [bootstrap_synthetic quake_floor 1.5] []
              eq_refl eq_refl eq_refl small_pipeline_parses)
    as (out_a & w1 & Ha).
  assert (Hbig : Exists (fun o => 5.0 <= magnitude o) (rows out_a)).
  { pose proof (assemble_dataset_inv iso_year _ _ _ Ha)
      as (real & boot & phys & Hr & Hb & Hp & Hall & _).
    change (Some (EventTable [quake_small; quake_floor])
            = Some (EventTable real)) in Hr.
    injection Hr as <-.
    cbn [app] in Hall.
    remember (rows out_a) as r eqn:Er. clear Er.
    inversion Hall as [|e1 o1 l1 r1 H1 Hrest]; subst.
    inversion Hrest as [|e2 o2 l2 r2 H2 _]; subst.
    right. left. destruct H2 as (y & _ & ->). simpl. lra. }
  destruct (pipeline_assemble_simple_finalize iso_year small_pipeline w1 out_a
              (fun y mo d h mi s => eq_refl) Ha Hbig)
    as (df & w2 & out_f & w3 & tail & Hs & Hf & Hrows & Hlen & _).
  exists out_a, w1, df, w2, out_f, w3, tail. auto.
Defined.



(** ** The physics script on the written fault table *)

Lemma sin_cubic_lower (a : R) : 0 <= a <= 1 -> a - a ^ 3 / 6 <= sin a.
Proof.
  intros [H0 H1]. pose proof PI_gt_3.
  pose proof (sin_bound a 0 H0 ltac:(lra)) as [Hlb _].
  unfold sin_approx, sin_term in Hlb. simpl in Hlb. lra.
Qed.

Lemma asin_lower (z y : R) : 0 <= z <= 1 -> z <= y -> z <= asin y.
Proof.
  intros Hz Hzy. destruct (Rle_dec y 1) as [Hy|Hy].
  - pose proof (asin_ge_arg y ltac:(lra)). lra.
  - unfold asin. destruct (Rle_dec y (-1)); [lra|].
    destruct (Rle_dec 1 y); [|lra]. pose proof PI_gt_3. lra.
Qed.

Lemma cos_lower_45 (lat : R) :
  0 <= lat <= 45 -> 0 < cos (radians lat) /\ / 2 <= cos (radians lat) ^ 2.
Proof.
  intros H. unfold radians. pose proof PI_gt_3.
  assert (Hc : cos (PI / 4) <= cos (lat * PI / 180)).
  { apply cos_decr_1; nra. }
  rewrite cos_PI4 in Hc.
  assert (Hs : 0 < sqrt 2) by (apply sqrt_lt_R0; lra).
  assert (Hsq : sqrt 2 * sqrt 2 = 2) by (apply sqrt_sqrt; lra).
  assert (Hpos : 0 < 1 / sqrt 2) by (apply Rdiv_lt_0_compat; lra).
  assert (Hq : (1 / sqrt 2) ^ 2 = / 2).
  { simpl. unfold Rdiv. rewrite !Rmult_1_l, Rmult_1_r.
    rewrite <- Rinv_mult. rewrite Hsq. reflexivity. }
  split; [lra|]. rewrite <- Hq. apply pow_incr. lra.
Qed.

(** A lower bound on the great-circle distance of two points between
    the equator and 45 degrees north, from their longitudes alone. *)
Lemma haversine_km_lower (p q : R * R) (d : R) :
  0 <= snd p <= 45 -> 0 <= snd q <= 45 ->
  0 <= d -> d <= fst q - fst p -> fst q - fst p <= 2 ->
  59 * d <= haversine_km p q.
Proof.
  intros Hp Hq Hd Hdq Hcap. unfold haversine_km. cbv zeta.
  set (x := (radians (fst q) - radians (fst p)) / 2).
  assert (Hx : d * 3 / 360 <= x <= 1).
  { unfold x, radians. pose proof PI_gt_3. pose proof PI_4. split; nra. }
  assert (Hsin : x - x ^ 3 / 6 <= sin x).
  { apply sin_cubic_lower. lra. }
  assert (Hsin' : 0.8 * x <= sin x).
  { assert (x ^ 3 <= x) by (simpl; nra). lra. }
  destruct (cos_lower_45 _ Hp) as [Hp1 Hp2].
  destruct (cos_lower_45 _ Hq) as [Hq1 Hq2].
  set (cp := cos (radians (snd p))) in *.
  set (cq := cos (radians (snd q))) in *.
  assert (Hcc : / 2 <= cp * cq).
  { destruct (Rle_dec (/ 2) (cp * cq)) as [Hle|Hnle]; [assumption|].
    exfalso. simpl in Hp2, Hq2. nra. }
  set (sl := sin ((radians (snd q) - radians (snd p)) / 2)).
  assert (Hz : (0.56 * x)² <= sl ^ 2 + cp * cq * sin x ^ 2).
  { unfold Rsqr. simpl. nra. }
  apply sqrt_le_1_alt in Hz. rewrite sqrt_Rsqr in Hz by lra.
  pose proof (asin_lower (0.56 * x) _ ltac:(lra) Hz). lra.
Qed.

Lemma pow10_half_bound : pow10 0.5 <= 3.2.
Proof.
  destruct (Rle_dec (pow10 0.5) 3.2) as [H|H]; [assumption|]. exfalso.
  pose proof (pow10_pow 0.5 2) as Hp.
  replace (INR 2 * 0.5) with (INR 1) in Hp by (simpl; lra).
  rewrite pow10_nat in Hp. simpl in Hp. nra.
Qed.

Lemma rupture_length_le_80 (magnitude : R) :
  magnitude <= 7.3 -> rupture_length_of magnitude <= 80.
Proof.
  intros H. unfold rupture_length_of, rupture_area_of.
  assert (Hp : pow10 (magnitude - 4.0) <= 3200).
  { apply Rle_trans with (pow10 (INR 3 + 0.5)).
    - apply pow10_le. simpl. lra.
    - rewrite pow10_plus, pow10_nat. pose proof pow10_half_bound.
      simpl. lra. }
  pose proof (pow10_pos (magnitude - 4.0)).
  replace 80 with (sqrt (80 * 80)) by (apply sqrt_square; lra).
  apply sqrt_le_1_alt. lra.
Qed.

Lemma southern_branch_hosts (magnitude : R) :
  magnitude <= 7.3 ->
  Exists (fun s => fs_segment_id s = "NAF_Southern"%string
                   /\ hosts magnitude s = true) fault_segments.
Proof.
  intros H. unfold fault_segments.
  do 3 apply Exists_cons_tl. apply Exists_cons_hd.
  split; [reflexivity|]. unfold hosts. apply Rleb_true.
  cbn [coordinates segment_length].
  pose proof (rupture_length_le_80 magnitude H).
  pose proof (haversine_km_lower (27.5, 40.5) (28.2, 40.4) 0.7
                ltac:(simpl; lra) ltac:(simpl; lra) ltac:(lra)
                ltac:(simpl; lra) ltac:(simpl; lra)).
  pose proof (haversine_km_lower (28.2, 40.4) (28.9, 40.3) 0.7
                ltac:(simpl; lra) ltac:(simpl; lra) ltac:(lra)
                ltac:(simpl; lra) ltac:(simpl; lra)).
  pose proof (haversine_km_nonneg (28.9, 40.3) (29.5, 40.2)).
  lra.
Qed.

Lemma range_index_length (l : list Event) :
  List.length (range_index l) = List.length l.
Proof.
  rewrite <- (length_map fst). unfold range_index.
  rewrite map_fst_range_index_from. apply length_seq.
Qed.

(** A physics run that returns a full table has skipped nothing and
    printed nothing; its events lie on segments of the table. *)
Lemma generate_physics_full (w w' : World) (df : Frame) :
  generate_physics_snapshots w = Returned (Some df) w' ->
  List.length df = n_synthetics ->
  stdout w' = stdout w
  /\ exists fault_data,
       files w marmara_faults_csv = Some (FaultTable fault_data)
       /\ Forall (fun e => exists seg,
                      In seg fault_data
                      /\ segment_id e = Some (fs_segment_id seg)) (rows df).
Proof.
  intros H Hfull. apply generate_physics_some in H.
  destruct H as (fd & b & ms & w1 & evs & w2 & Hloop & (Hf & Hb & Hm) & _ & _
                 & _ & _ & _ & -> & _ & ->).
  destruct (draw_magnitudes_returns n_synthetics b w)
    as (ms' & w1' & Hm' & Hlen & _ & _ & Hs1 & _).
  rewrite Hm in Hm'. injection Hm' as <- <-.
  apply physics_loop_indexed in Hloop.
  destruct Hloop as (ks & msgs & Hidx & _ & _ & Hout & _ & Hcount & _).
  rewrite range_index_length in Hfull.
  assert (Hnil : msgs = []) by (destruct msgs; [reflexivity | simpl in *; lia]).
  subst msgs. rewrite app_nil_r in Hout.
  split; [cbn [store stdout]; congruence|].
  exists fd. split; [assumption|].
  unfold range_index. rewrite rows_range_index_from.
  unfold physics_indexed in Hidx. clear - Hidx.
  induction Hidx as [|k e ks evs (_ & m & _ & Hp) _ IH]; constructor;
    [|exact IH].
  destruct (physics_placed_facts fd k m e Hp)
    as (_ & _ & seg & v & Hin & _ & Hid & _).
  exists seg. auto.
Qed.

Lemma Exists_filter_nonempty {A} (P : A -> Prop) (f : A -> bool)
  (l : list A) :
  Exists (fun x => P x /\ f x = true) l -> filter f l <> [].
Proof.
  intros H Hnil. apply Exists_exists in H. destruct H as (x & Hin & _ & Hx).
  assert (Hin' : In x (filter f l)) by (apply filter_In; auto).
  rewrite Hnil in Hin'. destruct Hin'.
Qed.

(** X21. On the fault table that [download_fault_data] writes, the
    physics script never has to skip a magnitude: the southern branch
    alone is long enough for the largest rupture the sampler can ask
    for.  So, run after [download_fault_data] on any catalogue and from
    any state of the generators, it returns exactly 20 events, each on
    one of the four written segments, and prints no warning. *)
Theorem physics_on_written_faults (w : World) (eq_data : list Event) :
  files w processed_earthquakes_csv = Some (EventTable eq_data) ->
  exists w1 df w2,
    download_fault_data w = Returned tt w1
    /\ generate_physics_snapshots w1 = Returned (Some df) w2
    /\ List.length df = n_synthetics
    /\ stdout w2 = stdout w
    /\ Forall (fun e => exists seg,
                   In seg fault_segments
                   /\ segment_id e = Some (fs_segment_id seg)) (rows df)
    /\ forall m, m <= 7.3 ->
                 Exists (fun s => fs_segment_id s = "NAF_Southern"%string
                                  /\ hosts m s = true) fault_segments.
Proof.
  intros He.
  set (w1 := store marmara_faults_csv (FaultTable fault_segments) w).
  assert (Hf : files w1 marmara_faults_csv = Some (FaultTable fault_segments))
    by apply files_store_same.
  assert (He1 : files w1 processed_earthquakes_csv
                = Some (EventTable eq_data)) by exact He.
  destruct (generate_physics_returns w1 fault_segments eq_data Hf He1)
    as (df & w2 & Hrun & Hlen).
  { repeat (constructor; [discriminate|]). constructor. }
  { intros m Hm. eapply Exists_filter_nonempty.
    apply southern_branch_hosts. exact Hm. }
  destruct (generate_physics_full _ _ _ Hrun Hlen)
    as (Hout & fd & Hf' & Hseg).
  assert (fd = fault_segments) by congruence. subst fd.
  exists w1, df, w2. split; [reflexivity|].
  split; [exact Hrun|]. split; [exact Hlen|]. split; [exact Hout|].
  split; [exact Hseg|]. exact southern_branch_hosts.
Qed.

Lemma physics_on_written_faults_witness :
  exists w1 df w2,
    download_fault_data (prepared [quake_floor] 0) = Returned tt w1
    /\ generate_physics_snapshots w1 = Returned (Some df) w2
    /\ List.length df = n_synthetics.
Proof.
  destruct (physics_on_written_faults (prepared [quake_floor] 0) [quake_floor]
              eq_refl)
    as (w1 & df & w2 & Hd & Hrun & Hlen & _).
  exists w1, df, w2. auto.
Defined.

(* ================================================================= *)
(** ** The bootstrap table, template by template *)

Lemma templates_qualifying_from (k : nat) (catalog : list Event) :
  filter (fun r => is_template (snd r)) (range_index_from k catalog)
  = qualifying_from k catalog.
Proof.
  revert k. induction catalog as [|e rest IH]; intros k; [reflexivity|].
  cbn [range_index_from filter qualifying_from snd].
  rewrite IH. unfold is_template, Rleb, Rltb.
  destruct (Rle_dec 5.0 (magnitude e)), (Rlt_dec (magnitude e) 6.0);
    reflexivity.
Qed.

Lemma templates_of_qualifying (catalog : list Event) :
  templates_of catalog = qualifying_templates catalog.
Proof. apply templates_qualifying_from. Qed.

Lemma filter_filter_comm {A} (p q : A -> bool) (l : list A) :
  filter p (filter q l) = filter q (filter p l).
Proof.
  induction l as [|x l IH]; simpl; [reflexivity|].
  destruct (p x) eqn:Ep, (q x) eqn:Eq; simpl;
    rewrite ?Ep, ?Eq, IH; reflexivity.
Qed.

Lemma rows_labelled_absent (k : nat) (df : Frame) :
  ~ In k (map fst df) -> rows_labelled k df = [].
Proof.
  intros H. unfold rows_labelled. apply filter_none.
  apply Forall_forall. intros r Hr. apply Nat.eqb_neq. intros Heq.
  apply H. rewrite <- Heq. apply in_map. exact Hr.
Qed.

Lemma rows_labelled_one (df : Frame) (s : nat * Event) :
  NoDup (map fst df) -> In s df -> rows_labelled (fst s) df = [s].
Proof.
  induction df as [|x df IH]; cbn [map In]; intros Hnd Hin; [contradiction|].
  inversion Hnd as [|? ? Hx Hnd']; subst.
  unfold rows_labelled. cbn [filter]. fold (rows_labelled (fst s) df).
  destruct Hin as [->|Hin].
  - rewrite Nat.eqb_refl. rewrite rows_labelled_absent by assumption.
    reflexivity.
  - destruct (Nat.eqb_spec (fst x) (fst s)) as [Heq|Hneq].
    + exfalso. apply Hx. rewrite Heq. apply in_map. exact Hin.
    + apply IH; assumption.
Qed.

Lemma physical_iff_kept (e : Event) :
  rupture_length_km e <> None -> (physical e <-> unphysical e = false).
Proof.
  intros Hl. split; [apply physical_not_unphysical|].
  intros H. apply unphysical_false in H. destruct H as [Hd Hlen].
  split; [assumption|].
  destruct (rupture_length_km e) as [l|]; [|congruence].
  exists l. split; [reflexivity | apply Hlen; reflexivity].
Qed.

Lemma Forall2_with_In {A B} (R : A -> B -> Prop) (l : list A) (r : list B) :
  Forall2 R l r -> Forall2 (fun a b => R a b /\ In b r) l r.
Proof.
  induction 1 as [|a b l r Hab _ IH]; constructor.
  - split; [assumption | left; reflexivity].
  - eapply Forall2_impl; [|exact IH].
    intros a' b' [H1 H2]. split; [assumption | right; assumption].
Qed.

Lemma bootstrap_events_draws (words : nat -> Z) (c : nat)
  (template_events : Frame) :
  map (fun s => magnitude (snd s))
      (bootstrap_events words c template_events)
  = map (fun kt => magnitude (snd (snd kt))
                   + (1.5 + (2.3 - 1.5) * unit_float (words (fst kt))))
        (combine (seq c (List.length template_events)) template_events).
Proof.
  revert c. induction template_events as [|[label event] rest IH];
    intros c; [reflexivity|].
  cbn [bootstrap_events List.length seq combine map fst snd].
  rewrite IH. reflexivity.
Qed.

Lemma unit_float_seven_eighths : unit_float (7 * 2 ^ 50) = 7 / 8.
Proof.
  unfold unit_float.
  replace ((7 * 2 ^ 50) mod 2 ^ 53)%Z with (7 * 2 ^ 50)%Z by reflexivity.
  replace (2 ^ 53)%Z with (8 * 2 ^ 50)%Z by reflexivity.
  rewrite !mult_IZR.
  assert (0 < IZR (2 ^ 50)) by (apply IZR_lt; reflexivity).
  field. lra.
Qed.

Lemma strong_template_removed :
  valid_rows (bootstrap_raw (prepared [quake_strong] (7 * 2 ^ 50))
                [quake_strong])
  = [].
Proof.
  unfold bootstrap_raw. rewrite templates_of_one by (simpl; lra).
  cbn [bootstrap_events prepared process py_random constant_words tape
       cursor].
  unfold valid_rows. cbn [filter snd].
  assert (Hu : unphysical
                 (bootstrap_synthetic quake_strong
                    (magnitude_increase_of (7 * 2 ^ 50))) = true).
  { unfold unphysical. apply orb_true_iff. right.
    cbn [rupture_length_km bootstrap_synthetic]. apply Rltb_true.
    apply wells_coppersmith_over_200.
    unfold magnitude_increase_of. rewrite unit_float_seven_eighths.
    pose proof log10_200_bounds as [_ Hhi].
    apply Rmult_lt_reg_r with 0.59; [lra|].
    unfold Rdiv at 1. rewrite Rmult_assoc, Rinv_l by lra. simpl. lra. }
  rewrite Hu. reflexivity.
Qed.

(** C5 as stated fails: the catalogue of the single template
    [quake_strong] (magnitude 5.9, depth 7 km) with the draw [u = 7/8]
    gives the scaled magnitude 8.1, whose Wells-Coppersmith length
    [10^2.339] exceeds 200 km; the sanity checks remove it, and the
    strategy returns and writes an empty table: one template, no output
    event. *)
Lemma bootstrap_skips_a_template :
  qualifying_templates [quake_strong] = [(0%nat, quake_strong)]
  /\ 0 <= depth_km quake_strong
  /\ exists w',
       generate_bootstrap_synthetics iso_year
         (prepared [quake_strong] (7 * 2 ^ 50))
       = Returned (Some []) w'
       /\ files w' synthetic_bootstrap_csv = Some (EventTable []).
Proof.
  split; [|split].
  - rewrite <- templates_of_qualifying. apply templates_of_one. simpl. lra.
  - simpl. lra.
  - destruct (generate_bootstrap_all_removed iso_year
                (prepared [quake_strong] (7 * 2 ^ 50)) [quake_strong])
      as (w' & Hrun & Hfile & _).
    + reflexivity.
    + repeat constructor; discriminate.
    + rewrite templates_of_one by (simpl; lra). discriminate.
    + exact strong_template_removed.
    + exists w'. split; assumption.
Qed.

(** C5, amended. On every catalogue it can read, the bootstrap strategy
    builds exactly one raw event per template (the catalogue rows with
    5.0 <= magnitude < 6.0, in catalogue order): it keeps the template's
    time, longitude, latitude and depth, has magnitude [M + dM] with
    [dM = 1.5 + 0.8 u] for a [u] in [0, 1), log energy raised by
    [1.5 dM], Wells-Coppersmith length and width at the new magnitude,
    method bootstrap, weight 0.3 and id [SYN_<template id>].  The table
    the strategy returns and writes holds, in the same order, exactly
    the raw events with [depth_km >= 0] and [rupture_length_km <= 200]:
    a template whose raw event is within these bounds has exactly one
    output event, that one; any other template has none.  The strategy
    returns no table exactly when the catalogue has no template.  The
    draws are fresh: the template at position [k] is scaled with the
    [k]-th word the generator delivers in the run, and the run takes as
    many words as there are templates. *)
Theorem bootstrap_output_per_template
  (to_datetime_year : Timestamp -> option Z) (w : World)
  (eq_data : list Event) :
  files w processed_earthquakes_csv = Some (EventTable eq_data) ->
  Forall (fun e => to_datetime_year (time e) <> None) eq_data ->
  exists raw out w',
    generate_bootstrap_synthetics to_datetime_year w = Returned out w'
    /\ Forall2 derived_from (qualifying_templates eq_data) raw
    /\ (out = None <-> qualifying_templates eq_data = [])
    /\ (out <> None ->
        files w' synthetic_bootstrap_csv
        = Some (EventTable (rows (returned_table out))))
    /\ returned_table out = valid_rows raw
    /\ Forall (fun r => In r raw /\ physical (snd r)) (returned_table out)
    /\ Forall2 (fun t s =>
                  (physical (snd s) ->
                   rows_labelled (fst t) (returned_table out) = [s])
                  /\ (~ physical (snd s) ->
                      rows_labelled (fst t) (returned_table out) = []))
               (qualifying_templates eq_data) raw
    /\ map (fun s => magnitude (snd s)) raw
       = map (fun kt =>
                magnitude (snd (snd kt))
                + (1.5 + (2.3 - 1.5)
                         * unit_float (tape (py_random w) (fst kt))))
             (combine (seq (cursor (py_random w))
                           (List.length (qualifying_templates eq_data)))
                      (qualifying_templates eq_data))
    /\ cursor (py_random w')
       = (cursor (py_random w)
          + List.length (qualifying_templates eq_data))%nat.
Proof.
  intros Hfile Hparse.
  rewrite (generate_bootstrap_run _ _ _ Hfile Hparse).
  rewrite bootstrap_tail_run by apply bootstrap_raw_NoDup.
  pose proof (bootstrap_raw_NoDup w eq_data) as Hnd.
  assert (Hder : Forall2 derived_from (qualifying_templates eq_data)
                         (bootstrap_raw w eq_data)).
  { rewrite <- templates_of_qualifying. unfold bootstrap_raw.
    apply bootstrap_events_derived. }
  assert (Hlen : Forall (fun r => rupture_length_km (snd r) <> None)
                        (bootstrap_raw w eq_data)).
  { pose proof (bootstrap_events_have_length (tape (py_random w))
                  (cursor (py_random w)) (templates_of eq_data)) as H.
    unfold rows in H. rewrite Forall_map in H. exact H. }
  set (raw := bootstrap_raw w eq_data) in *.
  set (out := match raw with
              | [] => None
              | _ :: _ => Some (valid_rows raw)
              end).
  assert (Htable : returned_table out = valid_rows raw)
    by (unfold out; destruct raw; reflexivity).
  exists raw, out,
    (match raw with
     | [] => say NoSyntheticEvents
               (skip_py (List.length (templates_of eq_data)) w)
     | _ :: _ =>
         store synthetic_bootstrap_csv (EventTable (rows (valid_rows raw)))
           (sanity_report raw
              (skip_py (List.length (templates_of eq_data)) w))
     end).
  split; [unfold out; destruct raw; reflexivity|].
  split; [exact Hder|]. split.
  { unfold out. split.
    - intros Hnone. destruct raw as [|r raw']; [|discriminate].
      inversion Hder. reflexivity.
    - intros Hnil. rewrite Hnil in Hder. inversion Hder. reflexivity. }
  split.
  { unfold out. destruct raw as [|r raw']; [congruence|].
    intros _. apply files_store_same. }
  split; [exact Htable|]. split.
  { rewrite Htable. apply Forall_forall. intros r Hr.
    unfold valid_rows in Hr. apply filter_In in Hr. destruct Hr as [Hr Hk].
    split; [exact Hr|].
    rewrite Forall_forall in Hlen.
    apply (physical_iff_kept _ (Hlen r Hr)).
    apply negb_true_iff. exact Hk. }
  split; [|split].
  2:{ unfold raw, bootstrap_raw. rewrite <- templates_of_qualifying.
      apply bootstrap_events_draws. }
  2:{ rewrite <- templates_of_qualifying.
      destruct raw as [|r raw']; [reflexivity|].
      cbn [store py_random].
      destruct (sanity_report_generators (r :: raw')
                  (skip_py (List.length (templates_of eq_data)) w))
        as (-> & _). reflexivity. }
  rewrite Htable.
  eapply Forall2_impl; [|apply Forall2_with_In; exact Hder].
  intros t s [Hts Hin].
  assert (Hlab : fst s = fst t) by apply Hts.
  rewrite Forall_forall in Hlen.
  pose proof (physical_iff_kept _ (Hlen s Hin)) as Hiff.
  unfold rows_labelled, valid_rows. rewrite filter_filter_comm.
  fold (rows_labelled (fst t) raw). rewrite <- Hlab.
  rewrite (rows_labelled_one raw s Hnd Hin). cbn [filter].
  split.
  - intros Hp. apply Hiff in Hp. rewrite Hp. reflexivity.
  - intros Hnp. destruct (unphysical (snd s)) eqn:E; [reflexivity|].
    exfalso. apply Hnp, Hiff. reflexivity.
Qed.

Lemma bootstrap_output_per_template_witness :
  exists raw out w',
    generate_bootstrap_synthetics iso_year
      (prepared [quake_small; quake_floor; quake_airborne] 0)
    = Returned out w'
    /\ Forall2 derived_from
         (qualifying_templates [quake_small; quake_floor; quake_airborne])
         raw
    /\ returned_table out = valid_rows raw
    /\ Forall (fun r => In r raw /\ physical (snd r)) (returned_table out).
Proof.
  destruct (bootstrap_output_per_template iso_year
              (prepared [quake_small; quake_floor; quake_airborne] 0)
              [quake_small; quake_floor; quake_airborne]
              eq_refl iso_year_parses_examples)
    as (raw & out & w' & Hrun & Hder & _ & _ & Htable & Hphys & _).
  exists raw, out, w'. auto.
Defined.
